(** * Cart synchronisation engine of the storefront template

    A shallow embedding of the cart logic of the storefront template:
    [ShopifyStorefront] (shopify-api.js: [query], [isVariantAvailable]),
    the demo of the inventory rules ([ShopifyStorefrontDemo]), the
    application class [MultiStoreApp] (product cards, reconciliation,
    persistence, validation, checkout) and the cart of
    [ShopifyIntegration] (its initialisation, [graphQL] and the cart
    mutations).

    JavaScript values are embedded as a JSON-like inductive type; property
    reads on [null]/[undefined] raise [TypeError] as in the language.
    Asynchronous methods are embedded in continuation-passing style: a
    method runs until its next [await] and returns the suspended
    continuation. *)

From Stdlib Require Import QArith Ascii Lqa.
From stdpp Require Import gmap strings list pretty.

Set Warnings "-register-all".
Open Scope string_scope.

(** ** JavaScript values *)

(** Numbers are exact rationals plus [NaN]; binary rounding, infinities
    and the sign of zero are outside the model. *)
Inductive number :=
| Num (q : Q)
| NaN.

Inductive value :=
| VUndefined
| VNull
| VBool (b : bool)
| VNum (n : number)
| VStr (s : string)
| VArr (elems : list value) (named : list (string * value))
| VObj (fields : list (string * value)).

Inductive error :=
| TypeError (msg : string)
| SyntaxError (msg : string)
| Error (msg : string).

Definition message (e : error) : string :=
  match e with
  | TypeError m | SyntaxError m | Error m => m
  end.

Inductive outcome (A : Type) :=
| Return (a : A)
| Throw (e : error).
Arguments Return {A} a.
Arguments Throw {A} e.

Definition obind {A B} (o : outcome A) (k : A → outcome B) : outcome B :=
  match o with
  | Return a => k a
  | Throw e => Throw e
  end.

Declare Scope js_scope.
Delimit Scope js_scope with js.
Notation "'let!' x := o 'in' k" := (obind o (fun x => k))
  (at level 10, x name, o at level 100, k at level 200) : js_scope.
Open Scope js_scope.

(** [array.map(f)] with a callback that may throw: left to right, the
    first exception aborts the traversal. *)
Fixpoint array_map {A B} (f : A → outcome B) (l : list A) : outcome (list B) :=
  match l with
  | [] => Return []
  | x :: l' =>
      let! y := f x in
      let! ys := array_map f l' in
      Return (y :: ys)
  end.

Definition num_ltb (a b : number) : bool :=
  match a, b with
  | Num x, Num y => negb (Qle_bool y x)
  | _, _ => false
  end.

Definition num_eqb (a b : number) : bool :=
  match a, b with
  | Num x, Num y => Qeq_bool x y
  | _, _ => false
  end.

Definition num_add (a b : number) : number :=
  match a, b with
  | Num x, Num y => Num (x + y)
  | _, _ => NaN
  end.

Definition num_sub (a b : number) : number :=
  match a, b with
  | Num x, Num y => Num (x - y)
  | _, _ => NaN
  end.

(** [Math.max(a, b)]: [NaN] when either argument is. *)
Definition Math_max (a b : number) : number :=
  match a, b with
  | Num x, Num y => if Qle_bool x y then Num y else Num x
  | _, _ => NaN
  end.

Definition nullish (v : value) : bool :=
  match v with
  | VUndefined | VNull => true
  | _ => false
  end.

(** ToBoolean: [undefined], [null], [false], [0], [NaN] and [''] are
    falsy, every other value is truthy. *)
Definition ToBoolean (v : value) : bool :=
  match v with
  | VUndefined | VNull => false
  | VBool b => b
  | VNum (Num q) => negb (Qeq_bool q 0)
  | VNum NaN => false
  | VStr s => negb (String.eqb s "")
  | VArr _ _ | VObj _ => true
  end.

(** [a === b] where one side is a primitive constant, the only use the
    code makes of it: an object or array is never equal to a primitive. *)
Definition strict_eq (a b : value) : bool :=
  match a, b with
  | VUndefined, VUndefined => true
  | VNull, VNull => true
  | VBool x, VBool y => Bool.eqb x y
  | VNum x, VNum y => num_eqb x y
  | VStr x, VStr y => String.eqb x y
  | _, _ => false
  end.

Fixpoint lookup_field (k : string) (fields : list (string * value)) : value :=
  match fields with
  | [] => VUndefined
  | (k', v) :: rest => if String.eqb k k' then v else lookup_field k rest
  end.

(** Writing an own property: an existing key keeps its position, a new
    key goes last. *)
Fixpoint set_field (k : string) (v : value) (fields : list (string * value))
  : list (string * value) :=
  match fields with
  | [] => [(k, v)]
  | (k', v') :: rest =>
      if String.eqb k k' then (k, v) :: rest else (k', v') :: set_field k v rest
  end.

(** [v?.k]: the property [k] of [v], [undefined] when [v] is nullish or has
    no such property. Only the non-index names the code reads are
    modelled: [length] of arrays and strings, own fields of objects and
    the named properties an array was given. *)
Definition prop (v : value) (k : string) : value :=
  match v with
  | VObj fields => lookup_field k fields
  | VArr elems named =>
      if String.eqb k "length" then VNum (Num (inject_Z (Z.of_nat (length elems))))
      else lookup_field k named
  | VStr s =>
      if String.eqb k "length" then VNum (Num (inject_Z (Z.of_nat (String.length s))))
      else VUndefined
  | _ => VUndefined
  end.

Definition cannot_read : error :=
  TypeError "Cannot read properties of undefined".

(** [v.k]: raises [TypeError] on a nullish base. *)
Definition get (v : value) (k : string) : outcome value :=
  if nullish v then Throw cannot_read else Return (prop v k).

(** [obj.k = x] in strict-mode code (class bodies are strict), for the
    names the code writes ([id], [items], [total], [checkoutUrl]): raises
    [TypeError] on a nullish or primitive base. *)
Definition assign (obj : value) (k : string) (x : value) : outcome value :=
  match obj with
  | VObj fields => Return (VObj (set_field k x fields))
  | VArr elems named => Return (VArr elems (set_field k x named))
  | _ => Throw (TypeError "Cannot set properties")
  end.

(** [{...v}]: own enumerable properties of an object; nothing for
    [null], [undefined], booleans and numbers. The properties of a spread
    array or string are not represented. *)
Definition spread (v : value) : list (string * value) :=
  match v with
  | VObj fields => fields
  | _ => []
  end.

(** ** Host functions

    Built-ins of the JavaScript host that the repository calls but does
    not define. Every theorem below holds for any host. *)
Class Host := {
  (** [parseFloat(v)] *)
  parseFloat : value → number;
  (** ToNumber on strings, arrays and objects *)
  ToNumber_other : value → number;
  (** ToString on values that are not strings *)
  ToString_other : value → string;
  (** [JSON.stringify(v)] for an object [v] *)
  JSON_stringify : value → string;
  (** [JSON.parse(s)]; [Throw] stands for its [SyntaxError] *)
  JSON_parse : string → outcome value
}.

Definition ToNumber `{Host} (v : value) : number :=
  match v with
  | VUndefined => NaN
  | VNull => Num 0
  | VBool true => Num 1
  | VBool false => Num 0
  | VNum n => n
  | _ => ToNumber_other v
  end.

Definition ToString `{Host} (v : value) : string :=
  match v with
  | VStr s => s
  | _ => ToString_other v
  end.

(** [v[0]] on a value that is not nullish: the first element of an
    array, the first character of a string, the property [0] of an
    object, [undefined] otherwise. *)
Definition first_element (v : value) : value :=
  match v with
  | VArr (x :: _) _ => x
  | VStr (String c _) => VStr (String c "")
  | VObj fields => lookup_field "0" fields
  | _ => VUndefined
  end.

(** [new Error(m)]: the message is empty for [undefined]. *)
Definition new_Error `{Host} (m : value) : error :=
  Error (match m with
         | VUndefined => ""
         | _ => ToString m
         end).

(** [array.join(sep)]: [null] and [undefined] print as nothing. *)
Definition array_join `{Host} (sep : string) (l : list value) : string :=
  String.concat sep (map (fun x => if nullish x then "" else ToString x) l).

(** ** The transport

    What [fetch] resolves with, as far as the two clients read it: the
    status code and the outcome of reading the body as JSON. A rejected
    [fetch] is a [Throw]. *)
Module Fetch.

Record response := {
  status : Z;
  json : outcome value
}.

(** [response.ok]: a status in the range 200-299. *)
Definition ok (r : response) : bool :=
  (200 <=? status r)%Z && (status r <=? 299)%Z.

End Fetch.

(** [new Error(`HTTP error! status: ${response.status}`)], the same in
    both clients. *)
Definition http_error `{Host} (r : Fetch.response) : error :=
  Error ("HTTP error! status: " +:+ ToString (VNum (Num (inject_Z (Fetch.status r))))).

(** ** Variant availability *)

Module ShopifyStorefront.

(** shopify-api.js, [ShopifyStorefront.isVariantAvailable]. *)
Definition isVariantAvailable (variant : value) : bool :=
  if negb (ToBoolean variant) then false
  else if strict_eq (prop variant "availableForSale") (VBool false) then false
  else true.

(** shopify-api.js, [ShopifyStorefront.query], from the point where
    [fetch] settles with [fetched]. The method writes to the console
    only; its [catch] rethrows. Every method of the client
    ([getCart], [createCart], [addToCart], ...) returns what [query]
    returns. *)
Definition query `{Host} (fetched : outcome Fetch.response) : outcome value :=
  let! response := fetched in
  if negb (Fetch.ok response) then Throw (http_error response)
  else
    let! data := Fetch.json response in
    let! errors := get data "errors" in
    if ToBoolean errors then
      let! messages :=
        match errors with
        | VArr l _ => array_map (fun e => get e "message") l
        | _ => Throw (TypeError "data.errors.map is not a function")
        end in
      Throw (Error ("GraphQL error: " +:+ array_join ", " messages))
    else get data "data".

End ShopifyStorefront.

Module ShopifyStorefrontDemo.

(** The demo script of the inventory rules,
    [ShopifyStorefrontDemo.isVariantAvailable]. *)
Definition isVariantAvailable (variant : value) : bool :=
  if negb (ToBoolean variant) then false
  else
    let inventoryManagement := prop variant "inventoryManagement" in
    let inventoryPolicy := prop variant "inventoryPolicy" in
    let availableForSale := prop variant "availableForSale" in
    if negb (ToBoolean inventoryManagement)
       || strict_eq inventoryManagement VNull
       || strict_eq inventoryManagement (VStr "")
    then true
    else if strict_eq inventoryPolicy (VStr "CONTINUE") then true
    else if strict_eq availableForSale (VBool true) then true
    else if strict_eq inventoryPolicy (VStr "DENY")
            && strict_eq availableForSale (VBool false)
    then false
    else true.

(** The four variants the demo script runs. *)
Definition productWithoutTracking : value :=
  VObj [("id", VStr "gid://shopify/ProductVariant/1");
        ("title", VStr "Digital Product");
        ("availableForSale", VBool false);
        ("inventoryManagement", VNull);
        ("inventoryPolicy", VNull);
        ("quantityAvailable", VNull)].

Definition productWithContinuePolicy : value :=
  VObj [("id", VStr "gid://shopify/ProductVariant/2");
        ("title", VStr "Physical Product - Oversell Allowed");
        ("availableForSale", VBool false);
        ("inventoryManagement", VStr "SHOPIFY");
        ("inventoryPolicy", VStr "CONTINUE");
        ("quantityAvailable", VNum (Num 0));
        ("currentlyNotInStock", VBool true)].

Definition productOutOfStock : value :=
  VObj [("id", VStr "gid://shopify/ProductVariant/3");
        ("title", VStr "Physical Product - Out of Stock");
        ("availableForSale", VBool false);
        ("inventoryManagement", VStr "SHOPIFY");
        ("inventoryPolicy", VStr "DENY");
        ("quantityAvailable", VNum (Num 0));
        ("currentlyNotInStock", VBool true)].

Definition productInStock : value :=
  VObj [("id", VStr "gid://shopify/ProductVariant/4");
        ("title", VStr "Physical Product - In Stock");
        ("availableForSale", VBool true);
        ("inventoryManagement", VStr "SHOPIFY");
        ("inventoryPolicy", VStr "DENY");
        ("quantityAvailable", VNum (Num 5));
        ("currentlyNotInStock", VBool false)].

End ShopifyStorefrontDemo.

(** The decision table of the specification, over the three inputs it
    names. This definition follows the specification's words; it is
    compared with the two functions of the source below. *)
Module DecisionTable.

Inductive tracking := Untracked | Tracked.
Inductive policy := Continue | Deny | OtherPolicy.
Inductive sale := SaleTrue | SaleFalse | SaleUnknown.

Record variant_view := {
  inventoryTracking : tracking;
  oversellPolicy : policy;
  saleFlag : sale
}.

Definition isAvailable_spec (v : option variant_view) : bool :=
  match v with
  | None => false                                       (* rule 1 *)
  | Some r =>
      match inventoryTracking r, oversellPolicy r, saleFlag r with
      | Untracked, _, _ => true                         (* rule 2 *)
      | Tracked, Continue, _ => true                    (* rule 3 *)
      | Tracked, _, SaleTrue => true                    (* rule 4 *)
      | Tracked, Deny, SaleFalse => false               (* rule 5 *)
      | Tracked, _, _ => true                           (* rule 6 *)
      end
  end.

(** Reading the three inputs off a variant record. *)
Definition view (variant : value) : option variant_view :=
  if ToBoolean variant then
    Some {|
      inventoryTracking :=
        if ToBoolean (prop variant "inventoryManagement") then Tracked else Untracked;
      oversellPolicy :=
        if strict_eq (prop variant "inventoryPolicy") (VStr "CONTINUE") then Continue
        else if strict_eq (prop variant "inventoryPolicy") (VStr "DENY") then Deny
        else OtherPolicy;
      saleFlag :=
        if strict_eq (prop variant "availableForSale") (VBool true) then SaleTrue
        else if strict_eq (prop variant "availableForSale") (VBool false) then SaleFalse
        else SaleUnknown
    |}
  else None.

End DecisionTable.

(** ** The application object *)

Module MultiStoreApp.

(** What the methods do to the page and the console, in order. The DOM
    elements the methods look up are taken to exist; a method's DOM
    writes are recorded as one event when the method completes. *)
Inductive ui_event :=
| ShowError (msg : string)
| ShowSuccess (msg : string)
| RenderCart
| UpdateCartCount
| SetCheckoutLoading (loading : bool)
| ConsoleWarn (label : string) (e : error)
| RedirectScheduled (ms : nat).

(** The fields of [MultiStoreApp] the cart logic reads and writes,
    with the browser's [localStorage]. [this.shopify] is taken to be the
    configured [ShopifyStorefront] client, and writes to the storage are
    taken to succeed. *)
Record App := {
  cart : value;
  isCheckingOut : bool;
  localStorage : gmap string string;
  ui : list ui_event
}.

Definition with_cart (c : value) (st : App) : App :=
  {| cart := c; isCheckingOut := isCheckingOut st;
     localStorage := localStorage st; ui := ui st |}.

Definition with_isCheckingOut (b : bool) (st : App) : App :=
  {| cart := cart st; isCheckingOut := b;
     localStorage := localStorage st; ui := ui st |}.

Definition with_localStorage (m : gmap string string) (st : App) : App :=
  {| cart := cart st; isCheckingOut := isCheckingOut st;
     localStorage := m; ui := ui st |}.

Definition with_event (ev : ui_event) (st : App) : App :=
  {| cart := cart st; isCheckingOut := isCheckingOut st;
     localStorage := localStorage st; ui := (ui st ++ [ev])%list |}.

(** The state the constructor leaves: an empty cart without
    [checkoutUrl], no checkout in flight. *)
Definition constructor (storage : gmap string string) : App :=
  {| cart := VObj [("id", VNull); ("items", VArr [] []); ("total", VNum (Num 0))];
     isCheckingOut := false;
     localStorage := storage;
     ui := [] |}.

(** *** Synchronous methods: state and exceptions *)

Definition M (A : Type) : Type := App → App * outcome A.

Definition ret {A} (a : A) : M A := fun st => (st, Return a).

Definition bind {A B} (m : M A) (k : A → M B) : M B := fun st =>
  match m st with
  | (st', Return a) => k a st'
  | (st', Throw e) => (st', Throw e)
  end.

Definition lift {A} (o : outcome A) : M A := fun st => (st, o).

(** [try { body } catch (error) { handler }]: what [body] wrote before
    it threw stays written. *)
Definition try_catch {A} (body : M A) (handler : error → M A) : M A := fun st =>
  match body st with
  | (st', Return a) => (st', Return a)
  | (st', Throw e) => handler e st'
  end.

Notation "x <- m ;; k" := (bind m (fun x => k))
  (at level 100, m at next level, right associativity).
Notation "m ;;; k" := (bind m (fun _ => k))
  (at level 100, right associativity).

Definition emit (ev : ui_event) : M unit := fun st => (with_event ev st, Return tt).

Definition showError (msg : string) : M unit := emit (ShowError msg).
Definition showSuccess (msg : string) : M unit := emit (ShowSuccess msg).

(** [this.cart.k = x] *)
Definition assign_cart (k : string) (x : value) : M unit := fun st =>
  match assign (cart st) k x with
  | Return c => (with_cart c st, Return tt)
  | Throw e => (st, Throw e)
  end.

(** *** Asynchronous methods

    An [async] method runs synchronously up to its next [await] on a
    remote call or a timer and hands back the continuation; the caller of
    the continuation supplies the state the application is in when the
    awaited promise settles, so other handlers may run in between. An
    [await] on a promise that is settled already still hands control
    back: the code that called the method runs to its end before the
    method goes on ([AwaitTick]). Where such an [await] comes after a
    remote call has settled, no code of the application is running, and
    the method goes on at once. *)

Inductive request :=
| CreateCart (variantId : string) (quantity : value)
| AddToCart (cartId : value) (variantId : string) (quantity : value)
| UpdateCartLine (cartId : value) (lineId : string) (quantity : value)
| RemoveFromCart (cartId : value) (lineIds : list string)
| GetCart (cartId : value).

Inductive proc :=
| Resolved
| Rejected (e : error)
| AwaitRemote (r : request) (k : outcome value → App → App * proc)
| AwaitTimeout (ms : nat) (k : App → App * proc)
| AwaitTick (k : App → App * proc).

Definition async : Type := App → App * proc.

(** The end of an [async] method body. *)
Definition settle (m : M unit) : async := fun st =>
  match m st with
  | (st', Return _) => (st', Resolved)
  | (st', Throw e) => (st', Rejected e)
  end.

(** The remote call a method is suspended at, if any. *)
Definition pending (p : proc) : list request :=
  match p with
  | AwaitRemote r _ => [r]
  | _ => []
  end.

(** The event loop settling the awaited promise of a suspended method
    while the application is in state [st]. *)
Definition resume_remote (p : proc) (response : outcome value) (st : App) : App * proc :=
  match p with
  | AwaitRemote _ k => k response st
  | _ => (st, p)
  end.

Definition resume_timeout (p : proc) (st : App) : App * proc :=
  match p with
  | AwaitTimeout _ k => k st
  | _ => (st, p)
  end.

(** The calling code has run to its end and left the application in
    state [st]. *)
Definition resume_tick (p : proc) (st : App) : App * proc :=
  match p with
  | AwaitTick k => k st
  | _ => (st, p)
  end.

Section Methods.
Context `{Host}.

(** *** Reconciler: [updateCartFromResponse] *)

Definition variant_of (merchandise : value) : value :=
  VObj (fold_left (fun fields k => set_field k (prop merchandise k) fields)
          ["availableForSale"; "quantityAvailable"; "currentlyNotInStock";
           "inventoryManagement"; "inventoryPolicy"]
          (spread merchandise)).

(** The callback of [cartData.lines.edges.map]. *)
Definition line_of_edge (edge : value) : outcome value :=
  let! node := get edge "node" in
  let! merchandise := get node "merchandise" in
  let! _ := get merchandise "availableForSale" in
  let! priceV2 := get merchandise "priceV2" in
  let! amount := get priceV2 "amount" in
  Return (VObj [("id", prop node "id");
                ("quantity", prop node "quantity");
                ("variant", variant_of merchandise);
                ("price", VNum (parseFloat amount))]).

Definition remote_total (cartData : value) : outcome value :=
  let estimatedCost := prop cartData "estimatedCost" in
  if ToBoolean estimatedCost then
    let! totalAmount := get estimatedCost "totalAmount" in
    let! amount := get totalAmount "amount" in
    Return (VNum (parseFloat amount))
  else Return (VNum (Num 0)).

Definition updateCartFromResponse (cartData : value) : M unit :=
  lines <- lift (get cartData "lines") ;;
  edges <- lift (get lines "edges") ;;
  items <- lift (match edges with
                 | VArr l _ => array_map line_of_edge l
                 | _ => Throw (TypeError "cartData.lines.edges.map is not a function")
                 end) ;;
  assign_cart "items" (VArr items []) ;;;
  total <- lift (remote_total cartData) ;;
  assign_cart "total" total ;;;
  assign_cart "checkoutUrl" (prop cartData "checkoutUrl").

(** *** Validator: [validateCart] *)

Definition empty_cart_message : string :=
  "Your cart is empty. Add some items to proceed.".
Definition unavailable_prefix : string :=
  "These items are no longer available: ".
Definition total_message : string :=
  "Cart total must be greater than $0.00".

Fixpoint array_filter {A} (f : A → outcome bool) (l : list A) : outcome (list A) :=
  match l with
  | [] => Return []
  | x :: l' =>
      let! keep := f x in
      let! rest := array_filter f l' in
      Return (if keep then x :: rest else rest)
  end.

(** The callback of [this.cart.items.filter]. *)
Definition invalid_item (item : value) : outcome bool :=
  let! variant := get item "variant" in
  if negb (ToBoolean variant) then Return true
  else Return (negb (ShopifyStorefront.isVariantAvailable variant)).

(** [item.variant?.product?.title || 'Unknown item'], as [join]
    prints it. *)
Definition item_name (item : value) : string :=
  let title := prop (prop (prop item "variant") "product") "title" in
  if ToBoolean title then ToString title else "Unknown item".

Definition unavailable_message (invalidItems : list value) : string :=
  unavailable_prefix +:+ String.concat ", " (map item_name invalidItems).

Definition validateCart (st : App) : outcome (list string) :=
  let! items := get (cart st) "items" in
  let! len := get items "length" in
  let empty := if strict_eq len (VNum (Num 0)) then [empty_cart_message] else [] in
  match items with
  | VArr l _ =>
      let! invalidItems := array_filter invalid_item l in
      let unavailable :=
        if (0 <? length invalidItems)%nat
        then [unavailable_message invalidItems] else [] in
      let total :=
        if num_ltb (ToNumber (prop (cart st) "total")) (Num (1 # 100))
        then [total_message] else [] in
      Return (empty ++ unavailable ++ total)%list
  | _ => Throw (TypeError "this.cart.items.filter is not a function")
  end.

(** *** Rendering: which carts the renderers accept *)

(** [x.toFixed(2)] *)
Definition toFixed (x : value) : outcome unit :=
  match x with
  | VNum _ => Return tt
  | VUndefined | VNull => Throw cannot_read
  | _ => Throw (TypeError "toFixed is not a function")
  end.

Definition updateCheckoutButton (st : App) : outcome unit :=
  let! _ := validateCart st in Return tt.

Definition render_item (item : value) : outcome unit :=
  let! variant := get item "variant" in
  let! product := get variant "product" in
  let! _ := get product "featuredImage" in
  toFixed (prop item "price").

Definition renderCart : M unit := fun st =>
  let rendered :=
    let! items := get (cart st) "items" in
    let! len := get items "length" in
    if strict_eq len (VNum (Num 0)) then updateCheckoutButton st
    else
      match items with
      | VArr l _ =>
          let! _ := array_map render_item l in
          let! _ := toFixed (prop (cart st) "total") in
          updateCheckoutButton st
      | _ => Throw (TypeError "this.cart.items.map is not a function")
      end in
  match rendered with
  | Return _ => (with_event RenderCart st, Return tt)
  | Throw e => (st, Throw e)
  end.

Definition updateCartCount : M unit := fun st =>
  let counted :=
    let! items := get (cart st) "items" in
    match items with
    | VArr l _ => array_map (fun item => get item "quantity") l
    | VUndefined | VNull => Throw cannot_read
    | _ => Throw (TypeError "this.cart.items.reduce is not a function")
    end in
  match counted with
  | Return _ => (with_event UpdateCartCount st, Return tt)
  | Throw e => (st, Throw e)
  end.

Definition setCheckoutLoading (loading : bool) : M unit := fun st =>
  if loading then (with_event (SetCheckoutLoading true) st, Return tt)
  else
    match updateCheckoutButton st with
    | Return _ => (with_event (SetCheckoutLoading false) st, Return tt)
    | Throw e => (st, Throw e)
    end.

(** *** Cart State Store: [saveCartToStorage], [loadCartFromStorage] *)

(** The object literal [saveCartToStorage] serialises. *)
Definition cart_record (c : value) : value :=
  VObj [("id", prop c "id"); ("items", prop c "items");
        ("total", prop c "total"); ("checkoutUrl", prop c "checkoutUrl")].

Definition saveCartToStorage : M unit := fun st =>
  if nullish (cart st) then (st, Throw cannot_read)
  else (with_localStorage
          (<["shopify-cart" := JSON_stringify (cart_record (cart st))]> (localStorage st))
          st,
        Return tt).

Definition removeItem (key : string) : M unit := fun st =>
  (with_localStorage (delete key (localStorage st)) st, Return tt).

Definition loadCartFromStorage : M unit := fun st =>
  match localStorage st !! "shopify-cart" with
  | Some saved =>
      if ToBoolean (VStr saved) then
        try_catch
          (cartData <- lift (JSON_parse saved) ;;
           (fun st' => (with_cart cartData st', Return tt)) ;;;
           renderCart ;;;
           updateCartCount)
          (fun error =>
             emit (ConsoleWarn "Failed to load cart from storage:" error) ;;;
             removeItem "shopify-cart")
          st
      else (st, Return tt)
  | None => (st, Return tt)
  end.

(** *** Checkout guard: [validateCartWithRefresh], [checkout] *)

(** The [try]/[catch] around the refresh, run when [getCart] settles. *)
Definition refresh_cart (response : outcome value) : M unit :=
  try_catch
    (cartData <- lift response ;;
     fetched <- lift (get cartData "cart") ;;
     if ToBoolean fetched
     then (updateCartFromResponse fetched ;;; saveCartToStorage)
     else ret tt)
    (fun error => emit (ConsoleWarn "Failed to refresh cart data:" error)).

(** [return this.validateCart()] and the caller's continuation. *)
Definition validate_then (k : list string → async) : async := fun st =>
  match validateCart st with
  | Return validationMessages => k validationMessages st
  | Throw e => (st, Rejected e)
  end.

(** [await this.validateCartWithRefresh()] with the caller's
    continuation [k]. Without a cart id the method validates at once, and
    the caller goes on with the messages after its own caller has run to
    its end. *)
Definition validateCartWithRefresh (k : list string → async) : async := fun st =>
  match get (cart st) "id" with
  | Throw e => (st, Rejected e)
  | Return id =>
      if ToBoolean id then
        (st, AwaitRemote (GetCart id) (fun response st' =>
               validate_then k (fst (refresh_cart response st'))))
      else
        match validateCart st with
        | Return validationMessages => (st, AwaitTick (k validationMessages))
        | Throw e => (st, Rejected e)
        end
  end.

Definition checkout_url_message : string :=
  "Checkout URL is not available. Please refresh your cart and try again.".

(** The [try] block of [checkout] after its 500 ms delay. *)
Definition redirect : M unit :=
  len <- (fun st => (st, let! items := get (cart st) "items" in get items "length")) ;;
  (if strict_eq len (VNum (Num 0))
   then lift (Throw (Error "Cart became empty during checkout"))
   else ret tt) ;;;
  showSuccess "Redirecting to secure checkout..." ;;;
  saveCartToStorage ;;;
  emit (RedirectScheduled 800).

(** The [catch] block of [checkout]. *)
Definition checkout_failed (error : error) : M unit :=
  (fun st => (with_isCheckingOut false st, Return tt)) ;;;
  setCheckoutLoading false ;;;
  showError ("Checkout failed: " +:+ message error).

(** What [checkout] does once the validation messages are known. *)
Definition after_validation (validationMessages : list string) : async := fun st =>
  if (0 <? length validationMessages)%nat
  then settle (showError (String.concat " " validationMessages)) st
  else
    (fst (setCheckoutLoading true (with_isCheckingOut true st)),
     AwaitTimeout 500 (settle (try_catch redirect checkout_failed))).

Definition checkout : async := fun st =>
  if isCheckingOut st then (st, Resolved)
  else
    match get (cart st) "checkoutUrl" with
    | Throw e => (st, Rejected e)
    | Return checkoutUrl =>
        if negb (ToBoolean checkoutUrl)
        then settle (showError checkout_url_message) st
        else validateCartWithRefresh after_validation st
    end.

(** *** Cart mutations: [addToCart], [updateQuantity], [removeFromCart] *)

Definition addToCart_reconcile (result : value) : M unit :=
  cartCreate <- lift (get result "cartCreate") ;;
  if ToBoolean cartCreate then
    created <- lift (get cartCreate "cart") ;;
    id <- lift (get created "id") ;;
    assign_cart "id" id ;;;
    updateCartFromResponse created
  else
    let cartLinesAdd := prop result "cartLinesAdd" in
    if ToBoolean cartLinesAdd
    then updateCartFromResponse (prop cartLinesAdd "cart")
    else ret tt.

Definition addToCart_failed (error : error) : M unit :=
  showError ("Failed to add item to cart: " +:+ message error).

(** The rest of the [try] block of [addToCart], run when the remote call
    settles, and its [catch]. *)
Definition addToCart_resume (response : outcome value) : M unit :=
  try_catch
    (result <- lift response ;;
     addToCart_reconcile result ;;;
     saveCartToStorage ;;;
     renderCart ;;;
     updateCartCount ;;;
     showSuccess "Item added to cart!")
    addToCart_failed.

Definition addToCart (productId variantId : string) : async := fun st =>
  if negb (ToBoolean (VStr variantId))
  then settle (showError "Product variant not found") st
  else
    match get (cart st) "id" with
    | Throw e => settle (addToCart_failed e) st
    | Return id =>
        (st, AwaitRemote
               (if ToBoolean id
                then AddToCart id variantId (VNum (Num 1))
                else CreateCart variantId (VNum (Num 1)))
               (fun response => settle (addToCart_resume response)))
    end.

Definition removeFromCart_failed (error : error) : M unit :=
  showError ("Failed to remove item from cart: " +:+ message error).

Definition removeFromCart_resume (response : outcome value) : M unit :=
  try_catch
    (result <- lift response ;;
     cartLinesRemove <- lift (get result "cartLinesRemove") ;;
     removed <- lift (get cartLinesRemove "cart") ;;
     updateCartFromResponse removed ;;;
     saveCartToStorage ;;;
     renderCart ;;;
     updateCartCount)
    removeFromCart_failed.

Definition removeFromCart (lineId : string) : async := fun st =>
  match get (cart st) "id" with
  | Throw e => settle (removeFromCart_failed e) st
  | Return id =>
      (st, AwaitRemote (RemoveFromCart id [lineId])
             (fun response => settle (removeFromCart_resume response)))
  end.

(** [this.cart.items.findIndex(item => item.id === lineId)], returning
    the line found. *)
Fixpoint find_line (lineId : string) (items : list value) : outcome (option value) :=
  match items with
  | [] => Return None
  | item :: rest =>
      let! id := get item "id" in
      if strict_eq id (VStr lineId) then Return (Some item)
      else find_line lineId rest
  end.

(** [currentQuantity + 1]. On numbers the sum is the exact one, which is
    the sum the code computes when the quantity is a whole number below
    [2^53]; above that the code rounds. *)
Definition plus_one (currentQuantity : value) : value :=
  match currentQuantity with
  | VStr s => VStr (s +:+ "1")
  | VArr _ _ | VObj _ => VStr (ToString currentQuantity +:+ "1")
  | _ => VNum (num_add (ToNumber currentQuantity) (Num 1))
  end.

Definition new_quantity (action : string) (currentQuantity : value) : value :=
  if String.eqb action "increase" then plus_one currentQuantity
  else if String.eqb action "decrease"
  then VNum (Math_max (Num 0) (num_sub (ToNumber currentQuantity) (Num 1)))
  else currentQuantity.

Definition updateQuantity_failed (error : error) : M unit :=
  showError ("Failed to update cart: " +:+ message error).

Definition updateQuantity_resume (response : outcome value) : M unit :=
  try_catch
    (result <- lift response ;;
     cartLinesUpdate <- lift (get result "cartLinesUpdate") ;;
     updated <- lift (get cartLinesUpdate "cart") ;;
     updateCartFromResponse updated ;;;
     saveCartToStorage ;;;
     renderCart ;;;
     updateCartCount)
    updateQuantity_failed.

Definition updateQuantity (lineId action : string) : async := fun st =>
  let found :=
    let! items := get (cart st) "items" in
    match items with
    | VArr l _ => find_line lineId l
    | VUndefined | VNull => Throw cannot_read
    | _ => Throw (TypeError "this.cart.items.findIndex is not a function")
    end in
  match found with
  | Throw e => (st, Rejected e)
  | Return None => (st, Resolved)
  | Return (Some line) =>
      let newQuantity := new_quantity action (prop line "quantity") in
      if strict_eq newQuantity (VNum (Num 0)) then removeFromCart lineId st
      else
        match get (cart st) "id" with
        | Throw e => settle (updateQuantity_failed e) st
        | Return id =>
            (st, AwaitRemote (UpdateCartLine id lineId newQuantity)
                   (fun response => settle (updateQuantity_resume response)))
        end
  end.

End Methods.

(** *** Product cards: [renderProducts] and the click handler *)

Section Products.
Context `{Host}.

(** What [renderProducts] writes on the button of one product: the two
    data attributes, and whether the button is enabled ('Add to Cart') or
    disabled ('Sold Out'); with the price it prints. The rest of the
    markup is outside the model. *)
Record card := {
  productId : string;
  variantId : string;
  price : number;
  available : bool
}.

(** The callback of [this.products.map]. *)
Definition product_card (product : value) : outcome card :=
  let! variants := get product "variants" in
  let! edges := get variants "edges" in
  let! first := if nullish edges then Throw cannot_read else Return (first_element edges) in
  let variant := prop first "node" in
  let! price :=
    if ToBoolean variant then
      let! priceV2 := get variant "priceV2" in
      let! amount := get priceV2 "amount" in
      Return (parseFloat amount)
    else Return (Num 0) in
  let available :=
    if ToBoolean variant then ShopifyStorefront.isVariantAvailable variant else false in
  let id := prop variant "id" in
  Return {| productId := ToString (prop product "id");
            variantId := ToString (if ToBoolean id then id else VStr "");
            price := price;
            available := available |}.

Definition renderProducts (products : list value) : outcome (list card) :=
  array_map product_card products.

(** The click handler of [setupEventListeners] on the button of a card.
    A disabled button receives no click. *)
Definition click_add_to_cart (c : card) : async := fun st =>
  if available c then addToCart (productId c) (variantId c) st
  else (st, Resolved).

End Products.

End MultiStoreApp.

(** ** Vocabulary of the statements *)

Section Vocabulary.
Context `{Host}.
Import MultiStoreApp.

(** The values a property can be written on. *)
Definition assignable (v : value) : bool :=
  match v with
  | VObj _ | VArr _ _ => true
  | _ => false
  end.

(** The filter callback of [validateCart] on a line that is there. *)
Definition fails_isAvailable (item : value) : bool :=
  negb (ShopifyStorefront.isVariantAvailable (prop item "variant")).

(** [total < 0.01] on a number. *)
Definition below_one_cent (t : Q) : bool := negb (Qle_bool (1 # 100) t).

(** The three parts of the validator's answer, in order. *)
Definition validation_messages (l : list value) (t : Q) : list string :=
  ((if l is [] then [empty_cart_message] else [])
   ++ (if List.filter fails_isAvailable l is []
       then [] else [unavailable_message (List.filter fails_isAvailable l)])
   ++ (if below_one_cent t then [total_message] else []))%list.

End Vocabulary.

(** ** What a method leaves alone *)

Section FrameVocabulary.
Context `{Host}.
Import MultiStoreApp.

(** A method keeps [R] when its end state is related by [R] to its
    start state, whether it returns or throws. *)
Definition keeps {A} (R : App → App → Prop) (m : M A) : Prop :=
  ∀ st, R st (m st).1.

(** Only the cart and the page are touched. *)
Definition same_storage (st st' : App) : Prop :=
  localStorage st' = localStorage st ∧ isCheckingOut st' = isCheckingOut st.

(** Only the page is touched. *)
Definition same_cart (st st' : App) : Prop :=
  cart st' = cart st
  ∧ localStorage st' = localStorage st
  ∧ isCheckingOut st' = isCheckingOut st.

(** The cart keeps its id. *)
Definition same_id (st st' : App) : Prop :=
  prop (cart st') "id" = prop (cart st) "id" ∧ isCheckingOut st' = isCheckingOut st.

(** The storage is as it was, or holds the record of the cart as it is
    now. *)
Definition persisted (st st' : App) : Prop :=
  isCheckingOut st' = isCheckingOut st
  ∧ (localStorage st' = localStorage st
     ∨ localStorage st'
       = <["shopify-cart" := JSON_stringify (cart_record (cart st'))]> (localStorage st)).

End FrameVocabulary.

(** ** The cart of [ShopifyIntegration] *)

Module ShopifyIntegration.

Definition default_cart : value :=
  VObj [("id", VNull);
        ("lines", VArr [] []);
        ("totalQuantity", VNum (Num 0));
        ("cost", VObj [("totalAmount",
                        VObj [("amount", VStr "0"); ("currencyCode", VStr "USD")])]);
        ("checkoutUrl", VNull)].

(** The initialiser of [this.cart] in the constructor:
    [JSON.parse(localStorage.getItem('shopify-cart')) || {...}].
    [getItem] gives [null] for an absent key and [JSON.parse(null)] is
    [null]. *)
Definition constructor_cart `{Host} (localStorage : gmap string string) : outcome value :=
  let! parsed := match localStorage !! "shopify-cart" with
                 | Some saved => JSON_parse saved
                 | None => Return VNull
                 end in
  Return (if ToBoolean parsed then parsed else default_cart).

(** [ShopifyIntegration.graphQL], from the point where [fetch] settles
    with [fetched]. *)
Definition graphQL `{Host} (fetched : outcome Fetch.response) : outcome value :=
  let! response := fetched in
  if negb (Fetch.ok response) then Throw (http_error response)
  else
    let! data := Fetch.json response in
    let! errors := get data "errors" in
    if ToBoolean errors then
      let! m := get (first_element errors) "message" in
      Throw (new_Error m)
    else get data "data".

(** The browser, as far as the cart methods depend on it. The elements
    they look up in the document are taken to exist, and what they write
    there is outside the model. *)
Class Browser := {
  (** [new Intl.NumberFormat('en-US', {style: 'currency', currency})
      .format(x)]; [Throw] stands for the exception of a currency code it
      does not accept *)
  Intl_NumberFormat : value → number → outcome string
}.

Inductive ui_event :=
| UpdateCartUI
| CartNotification (message type : string).

(** The cart of the instance with the browser's [localStorage] and what
    was shown. Console output is not recorded. *)
Record Integration := {
  cart : value;
  localStorage : gmap string string;
  ui : list ui_event
}.

Definition with_cart (c : value) (st : Integration) : Integration :=
  {| cart := c; localStorage := localStorage st; ui := ui st |}.

Definition with_event (ev : ui_event) (st : Integration) : Integration :=
  {| cart := cart st; localStorage := localStorage st; ui := (ui st ++ [ev])%list |}.

Definition showCartNotification (message type : string) (st : Integration) : Integration :=
  with_event (CartNotification message type) st.

(** The requests the cart methods send through [graphQL]. *)
Inductive request :=
| CartCreate
| CartLinesAdd (cartId merchandiseId quantity : value)
| CartLinesUpdate (cartId lineId quantity : value)
| CartLinesRemove (cartId lineId : value).

(** An [async] method up to its next [await this.graphQL(...)]: it has
    resolved with a value, rejected, or waits for the answer of a request
    with the rest of its body. *)
Inductive proc :=
| Resolved (result : value)
| Rejected (e : error)
| AwaitGraphQL (r : request) (k : outcome value → Integration → Integration * proc).

Definition async : Type := Integration → Integration * proc.

Definition pending (p : proc) : list request :=
  match p with
  | AwaitGraphQL r _ => [r]
  | _ => []
  end.

(** The request of a suspended method is answered while the instance is
    in state [st]. *)
Definition resume (p : proc) (response : outcome value) (st : Integration)
  : Integration * proc :=
  match p with
  | AwaitGraphQL _ k => k response st
  | _ => (st, p)
  end.

Section Methods.
Context `{Host} `{Browser}.

(** [localStorage.setItem('shopify-cart', JSON.stringify(this.cart))];
    [JSON.stringify(undefined)] is [undefined], which [setItem] stores
    as text. *)
Definition saveCart (st : Integration) : Integration :=
  {| cart := cart st;
     localStorage :=
       <["shopify-cart" := match cart st with
                           | VUndefined => "undefined"
                           | c => JSON_stringify c
                           end]> (localStorage st);
     ui := ui st |}.

Definition formatCurrency (amount currencyCode : value) : outcome string :=
  Intl_NumberFormat currencyCode (parseFloat amount).

(** The callback of [this.cart.lines.edges.map] in [renderCartItems]. *)
Definition render_line (edge : value) : outcome unit :=
  let! line := get edge "node" in
  let! variant := get line "merchandise" in
  let! product := get variant "product" in
  let! _ := get product "featuredImage" in
  let! priceV2 := get variant "priceV2" in
  let! amount := get priceV2 "amount" in
  let! _ := formatCurrency amount (prop priceV2 "currencyCode") in
  Return tt.

Definition renderCartItems (c : value) : outcome unit :=
  let! lines := get c "lines" in
  if negb (ToBoolean lines) || strict_eq (prop lines "length") (VNum (Num 0))
  then Return tt
  else
    let! edges := get lines "edges" in
    match edges with
    | VArr l _ => let! _ := array_map render_line l in Return tt
    | VUndefined | VNull => Throw cannot_read
    | _ => Throw (TypeError "this.cart.lines.edges.map is not a function")
    end.

Definition updateCartUI : Integration → Integration * outcome unit := fun st =>
  let updated :=
    let! _ := get (cart st) "totalQuantity" in
    let totalAmount := prop (prop (cart st) "cost") "totalAmount" in
    let amount := prop totalAmount "amount" in
    let currency := prop totalAmount "currencyCode" in
    let! _ := formatCurrency (if ToBoolean amount then amount else VStr "0")
                (if ToBoolean currency then currency else VStr "USD") in
    renderCartItems (cart st) in
  match updated with
  | Return _ => (with_event UpdateCartUI st, Return tt)
  | Throw e => (st, Throw e)
  end.

(** [if (payload.userErrors.length > 0) throw new
    Error(payload.userErrors[0].message)] *)
Definition userErrors_check (payload : value) : outcome unit :=
  let! userErrors := get payload "userErrors" in
  let! len := get userErrors "length" in
  if num_ltb (Num 0) (ToNumber len) then
    let! m := get (first_element userErrors) "message" in
    Throw (new_Error m)
  else Return tt.

(** What every cart method does with the answer to its mutation [field]:
    check the user errors, take the cart of the answer as [this.cart] and
    save it. *)
Definition commit (field : string) (response : outcome value)
  : Integration → Integration * outcome unit := fun st =>
  let accepted :=
    let! data := response in
    let! payload := get data field in
    let! _ := userErrors_check payload in
    Return (prop payload "cart") in
  match accepted with
  | Return c => (saveCart (with_cart c st), Return tt)
  | Throw e => (st, Throw e)
  end.

Definition createCart_resume (response : outcome value) : async := fun st =>
  match commit "cartCreate" response st with
  | (st', Return _) => (st', Resolved (cart st'))
  | (st', Throw e) => (st', Rejected e)
  end.

Definition createCart : async := fun st =>
  (st, AwaitGraphQL CartCreate createCart_resume).

(** The [catch] block of [addToCart]. *)
Definition addToCart_failed (error : error) : async := fun st =>
  (showCartNotification "Error adding item to cart" "error" st, Rejected error).

Definition cartLinesAdd_resume (response : outcome value) : async := fun st =>
  match commit "cartLinesAdd" response st with
  | (st1, Throw e) => addToCart_failed e st1
  | (st1, Return _) =>
      match updateCartUI st1 with
      | (st2, Throw e) => addToCart_failed e st2
      | (st2, Return _) =>
          (showCartNotification "Item added to cart!" "success" st2, Resolved (cart st2))
      end
  end.

(** [addToCart] from its [cartLinesAdd] request on. *)
Definition cartLinesAdd (variantId quantity : value) : async := fun st =>
  match get (cart st) "id" with
  | Throw e => addToCart_failed e st
  | Return id =>
      (st, AwaitGraphQL (CartLinesAdd id variantId quantity) cartLinesAdd_resume)
  end.

Definition addToCart (variantId quantity : value) : async := fun st =>
  let quantity := match quantity with
                  | VUndefined => VNum (Num 1)
                  | _ => quantity
                  end in
  match get (cart st) "id" with
  | Throw e => addToCart_failed e st
  | Return id =>
      if negb (ToBoolean id) then
        (st, AwaitGraphQL CartCreate (fun response st1 =>
               match commit "cartCreate" response st1 with
               | (st2, Throw e) => addToCart_failed e st2
               | (st2, Return _) => cartLinesAdd variantId quantity st2
               end))
      else cartLinesAdd variantId quantity st
  end.

(** The rest of [updateCartLine] and of [removeFromCart] once the
    mutation [field] is answered; their [catch] rethrows. *)
Definition update_resume (field : string) (response : outcome value) : async := fun st =>
  match commit field response st with
  | (st1, Throw e) => (st1, Rejected e)
  | (st1, Return _) =>
      match updateCartUI st1 with
      | (st2, Throw e) => (st2, Rejected e)
      | (st2, Return _) => (st2, Resolved (cart st2))
      end
  end.

Definition updateCartLine (lineId quantity : value) : async := fun st =>
  match get (cart st) "id" with
  | Throw e => (st, Rejected e)
  | Return id =>
      (st, AwaitGraphQL (CartLinesUpdate id lineId quantity) (update_resume "cartLinesUpdate"))
  end.

Definition removeFromCart (lineId : value) : async := fun st =>
  match get (cart st) "id" with
  | Throw e => (st, Rejected e)
  | Return id =>
      (st, AwaitGraphQL (CartLinesRemove id lineId) (update_resume "cartLinesRemove"))
  end.

(** The answer to the mutation [field] is refused with [e]: the request
    failed with [e], or the answer lists user errors and [e] is the
    [Error] made of the first one's message. *)
Definition refused (field : string) (response : outcome value) (e : error) : Prop :=
  response = Throw e
  ∨ ∃ data ue rest named,
      response = Return data
      ∧ prop (prop data field) "userErrors" = VArr (ue :: rest) named
      ∧ nullish ue = false
      ∧ e = new_Error (prop ue "message").

End Methods.

End ShopifyIntegration.

(** ** A host to run the model

    A decimal [parseFloat] and a reader and printer of JSON text over the
    values of the model, for evaluating the methods on concrete carts.
    Strings are byte strings: a [\u] escape above [00ff] is not accepted.
    Numbers are printed in full decimal notation, up to 17 places. *)

Module ReferenceHost.

Definition code (c : ascii) : nat := nat_of_ascii c.
Definition is_code (n : nat) (c : ascii) : bool := (code c =? n)%nat.
Definition is_digit (c : ascii) : bool := (48 <=? code c)%nat && (code c <=? 57)%nat.
Definition digit_of (c : ascii) : Z := Z.of_nat (code c - 48).
Definition digit_char (d : Z) : ascii := ascii_of_nat (48 + Z.to_nat d).
Definition dquote : ascii := ascii_of_nat 34.

Definition hex_of (c : ascii) : option nat :=
  let n := code c in
  if (48 <=? n)%nat && (n <=? 57)%nat then Some (n - 48)%nat
  else if (97 <=? n)%nat && (n <=? 102)%nat then Some (n - 87)%nat
  else if (65 <=? n)%nat && (n <=? 70)%nat then Some (n - 55)%nat
  else None.

Definition hex_digit (n : nat) : ascii :=
  ascii_of_nat (if (n <? 10)%nat then 48 + n else 87 + n).

(** *** Reading numbers *)

Fixpoint read_digits (s : string) (acc : Z) (count : nat) : Z * nat * string :=
  match s with
  | String c s' =>
      if is_digit c then read_digits s' (10 * acc + digit_of c)%Z (S count)
      else (acc, count, s)
  | EmptyString => (acc, count, s)
  end.

Definition pow10 (n : nat) : positive := Z.to_pos (10 ^ Z.of_nat n).

Definition read_sign (s : string) : bool * string :=
  match s with
  | String c s' => if is_code 45 c then (true, s') else (false, s)
  | EmptyString => (false, s)
  end.

(** [.digits], if there is one. *)
Definition read_fraction (s : string) : Z * nat * string :=
  match s with
  | String c s' =>
      if is_code 46 c then
        let '(f, n, r) := read_digits s' 0 0 in
        if (n =? 0)%nat then (0%Z, 0%nat, s) else (f, n, r)
      else (0%Z, 0%nat, s)
  | EmptyString => (0%Z, 0%nat, s)
  end.

(** [(e|E)[+|-]digits], if there is one, applied to [mantissa]. *)
Definition read_exponent (mantissa : Q) (s : string) : Q * string :=
  match s with
  | String c s' =>
      if is_code 101 c || is_code 69 c then
        let '(down, s'') :=
          match s' with
          | String c' r => if is_code 45 c' then (true, r)
                           else if is_code 43 c' then (false, r)
                           else (false, s')
          | EmptyString => (false, s')
          end in
        let '(ex, n, r) := read_digits s'' 0 0 in
        if (n =? 0)%nat then (mantissa, s)
        else if down then ((mantissa / inject_Z (Zpos (pow10 (Z.to_nat ex))))%Q, r)
        else ((mantissa * inject_Z (Zpos (pow10 (Z.to_nat ex))))%Q, r)
      else (mantissa, s)
  | EmptyString => (mantissa, s)
  end.

(** [-]digits[.digits][(e|E)[+|-]digits], the longest such prefix. *)
Definition read_decimal (s : string) : option (Q * string) :=
  let '(negative, s1) := read_sign s in
  let '(int, int_digits, s2) := read_digits s1 0 0 in
  if (int_digits =? 0)%nat then None
  else
    let '(frac, frac_digits, s3) := read_fraction s2 in
    let mantissa := ((int * Zpos (pow10 frac_digits) + frac) # pow10 frac_digits)%Q in
    let '(scaled, s4) := read_exponent mantissa s3 in
    Some (Qred (if negative then - scaled else scaled)%Q, s4).

Definition is_ws (c : ascii) : bool :=
  is_code 32 c || is_code 9 c || is_code 10 c || is_code 13 c.

Fixpoint skip_ws (s : string) : string :=
  match s with
  | String c s' => if is_ws c then skip_ws s' else s
  | EmptyString => s
  end.

Definition reference_parseFloat (v : value) : number :=
  match v with
  | VStr s =>
      match read_decimal (skip_ws s) with
      | Some (q, _) => Num q
      | None => NaN
      end
  | VNum n => n
  | _ => NaN
  end.

(** [Number(s)] on a string: the whole string has to be a numeral. *)
Definition reference_ToNumber (v : value) : number :=
  match v with
  | VStr s =>
      if String.eqb (skip_ws s) "" then Num 0
      else
        match read_decimal (skip_ws s) with
        | Some (q, rest) => if String.eqb (skip_ws rest) "" then Num q else NaN
        | None => NaN
        end
  | _ => NaN
  end.

(** *** Printing

    Every printer takes the text that follows what it prints. *)

(** The least [k <= fuel] with [q * 10^k] an integer. *)
Fixpoint decimal_places (fuel : nat) (k : nat) (q : Q) : option nat :=
  if (Z.rem (Qnum q * Zpos (pow10 k)) (Zpos (Qden q)) =? 0)%Z then Some k
  else
    match fuel with
    | O => None
    | S fuel' => decimal_places fuel' (S k) q
    end.

(** The decimal digits of [n >= 0], most significant first. *)
Fixpoint print_digits (fuel : nat) (n : Z) (k : string) : string :=
  match fuel with
  | O => String (digit_char (n mod 10)) k
  | S fuel' =>
      if (n <? 10)%Z then String (digit_char n) k
      else print_digits fuel' (n / 10) (String (digit_char (n mod 10)) k)
  end.

Definition print_nat (n : Z) (k : string) : string :=
  print_digits (Z.to_nat (Z.log2 n)) n k.

(** The last [places] digits of [m]. *)
Fixpoint print_fixed (places : nat) (m : Z) (k : string) : string :=
  match places with
  | O => k
  | S places' => print_fixed places' (m / 10) (String (digit_char (m mod 10)) k)
  end.

Definition print_number (n : number) (k : string) : string :=
  match n with
  | NaN => "null" +:+ k
  | Num q0 =>
      let q := Qred q0 in
      let places := default 17%nat (decimal_places 17 0 q) in
      let scaled := (Z.abs (Qnum q) * Zpos (pow10 places) / Zpos (Qden q))%Z in
      let body :=
        print_nat (scaled / Zpos (pow10 places))
          (if (places =? 0)%nat then k
           else String "." (print_fixed places (scaled mod Zpos (pow10 places)) k)) in
      if (Qnum q <? 0)%Z then String "-" body else body
  end.

Definition escape_char (c : ascii) (k : string) : string :=
  let n := code c in
  if (n =? 34)%nat then String "\" (String dquote k)
  else if (n =? 92)%nat then String "\" (String "\" k)
  else if (n =? 10)%nat then String "\" (String "n" k)
  else if (n =? 13)%nat then String "\" (String "r" k)
  else if (n =? 9)%nat then String "\" (String "t" k)
  else if (n =? 8)%nat then String "\" (String "b" k)
  else if (n =? 12)%nat then String "\" (String "f" k)
  else if (n <? 32)%nat
  then String "\" (String "u" (String "0" (String "0"
         (String (hex_digit (n / 16)) (String (hex_digit (n mod 16)) k)))))
  else String c k.

Fixpoint escape (s : string) (k : string) : string :=
  match s with
  | EmptyString => k
  | String c s' => escape_char c (escape s' k)
  end.

Definition quote (s : string) (k : string) : string :=
  String dquote (escape s (String dquote k)).

Definition is_undefined (v : value) : bool :=
  match v with
  | VUndefined => true
  | _ => false
  end.

(** The elements after the first, each after a comma. *)
Definition print_elements (pr : value → string → string) : list value → string → string :=
  fix rest (l : list value) (k : string) : string :=
    match l with
    | [] => k
    | x :: l' => String "," (pr x (rest l' k))
    end.

(** The members after the first one printed; a field holding
    [undefined] is left out. *)
Definition print_members (pr : value → string → string)
  : list (string * value) → string → string :=
  fix rest (l : list (string * value)) (k : string) : string :=
    match l with
    | [] => k
    | (key, x) :: l' =>
        if is_undefined x then rest l' k
        else String "," (quote key (String ":" (pr x (rest l' k))))
    end.

Definition print_first_member (pr : value → string → string)
  : list (string * value) → string → string :=
  fix first (l : list (string * value)) (k : string) : string :=
    match l with
    | [] => k
    | (key, x) :: l' =>
        if is_undefined x then first l' k
        else quote key (String ":" (pr x (print_members pr l' k)))
    end.

(** [JSON.stringify]: [undefined] and [NaN] print as [null] inside an
    array. *)
Fixpoint print (v : value) (k : string) : string :=
  match v with
  | VUndefined | VNull => "null" +:+ k
  | VBool true => "true" +:+ k
  | VBool false => "false" +:+ k
  | VNum n => print_number n k
  | VStr s => quote s k
  | VArr elems _ =>
      String "["
        match elems with
        | [] => String "]" k
        | x :: l => print x (print_elements print l (String "]" k))
        end
  | VObj fields => String "{" (print_first_member print fields (String "}" k))
  end.

Definition stringify (v : value) : string := print v "".

(** *** Reading *)

Definition unescape (c : ascii) : option ascii :=
  let n := code c in
  if (n =? 34)%nat || (n =? 92)%nat || (n =? 47)%nat then Some c
  else if (n =? 110)%nat then Some (ascii_of_nat 10)
  else if (n =? 114)%nat then Some (ascii_of_nat 13)
  else if (n =? 116)%nat then Some (ascii_of_nat 9)
  else if (n =? 98)%nat then Some (ascii_of_nat 8)
  else if (n =? 102)%nat then Some (ascii_of_nat 12)
  else None.

(** The characters after an opening quote, up to the closing one. *)
Fixpoint read_string (s : string) : option (string * string) :=
  match s with
  | EmptyString => None
  | String c rest =>
      if is_code 34 c then Some ("", rest)
      else if is_code 92 c then
        match rest with
        | String e rest' =>
            if is_code 117 e then
              match rest' with
              | String a (String b (String c1 (String c2 rest''))) =>
                  match hex_of a, hex_of b, hex_of c1, hex_of c2 with
                  | Some 0%nat, Some 0%nat, Some h, Some l =>
                      '(str, tail) ← read_string rest'';
                      Some (String (ascii_of_nat (16 * h + l)) str, tail)
                  | _, _, _, _ => None
                  end
              | _ => None
              end
            else
              c' ← unescape e;
              '(str, tail) ← read_string rest';
              Some (String c' str, tail)
        | EmptyString => None
        end
      else if (code c <? 32)%nat then None
      else
        '(str, tail) ← read_string rest;
        Some (String c str, tail)
  end.

Fixpoint strip_prefix (p s : string) : option string :=
  match p with
  | EmptyString => Some s
  | String a p' =>
      match s with
      | String b s' => if Ascii.eqb a b then strip_prefix p' s' else None
      | EmptyString => None
      end
  end.

Definition read_keyword (s : string) : option (value * string) :=
  match strip_prefix "null" s with
  | Some rest => Some (VNull, rest)
  | None =>
      match strip_prefix "true" s with
      | Some rest => Some (VBool true, rest)
      | None =>
          match strip_prefix "false" s with
          | Some rest => Some (VBool false, rest)
          | None => None
          end
      end
  end.

Fixpoint parse_value (fuel : nat) (s : string) : option (value * string) :=
  match fuel with
  | O => None
  | S fuel' =>
      match skip_ws s with
      | EmptyString => None
      | String c rest =>
          if is_code 34 c then
            '(str, rest') ← read_string rest;
            Some (VStr str, rest')
          else if is_code 91 c then
            match skip_ws rest with
            | String c' rest' =>
                if is_code 93 c' then Some (VArr [] [], rest')
                else
                  '(elems, rest'') ← parse_elements fuel' rest;
                  Some (VArr elems [], rest'')
            | EmptyString => None
            end
          else if is_code 123 c then
            match skip_ws rest with
            | String c' rest' =>
                if is_code 125 c' then Some (VObj [], rest')
                else
                  '(members, rest'') ← parse_members fuel' rest;
                  Some (VObj (fold_left (fun fields m => set_field m.1 m.2 fields)
                                members []),
                        rest'')
            | EmptyString => None
            end
          else if is_digit c || is_code 45 c then
            '(q, rest') ← read_decimal (String c rest);
            Some (VNum (Num q), rest')
          else read_keyword (String c rest)
      end
  end
with parse_elements (fuel : nat) (s : string) : option (list value * string) :=
  match fuel with
  | O => None
  | S fuel' =>
      '(x, rest) ← parse_value fuel' s;
      match skip_ws rest with
      | String c rest' =>
          if is_code 44 c then
            '(elems, rest'') ← parse_elements fuel' rest';
            Some (x :: elems, rest'')
          else if is_code 93 c then Some ([x], rest')
          else None
      | EmptyString => None
      end
  end
with parse_members (fuel : nat) (s : string) : option (list (string * value) * string) :=
  match fuel with
  | O => None
  | S fuel' =>
      match skip_ws s with
      | String c rest =>
          if is_code 34 c then
            '(key, rest1) ← read_string rest;
            match skip_ws rest1 with
            | String c1 rest2 =>
                if is_code 58 c1 then
                  '(x, rest3) ← parse_value fuel' rest2;
                  match skip_ws rest3 with
                  | String c3 rest4 =>
                      if is_code 44 c3 then
                        '(members, rest5) ← parse_members fuel' rest4;
                        Some ((key, x) :: members, rest5)
                      else if is_code 125 c3 then Some ([(key, x)], rest4)
                      else None
                  | EmptyString => None
                  end
                else None
            | EmptyString => None
            end
          else None
      | EmptyString => None
      end
  end.

Definition parse (s : string) : outcome value :=
  match parse_value (2 * String.length s + 2) s with
  | Some (v, rest) =>
      if String.eqb (skip_ws rest) "" then Return v
      else Throw (SyntaxError "Unexpected non-whitespace character after JSON")
  | None => Throw (SyntaxError "Unexpected token in JSON")
  end.

#[export] Instance reference_host : Host := {|
  parseFloat := reference_parseFloat;
  ToNumber_other := reference_ToNumber;
  ToString_other := stringify;
  JSON_stringify := stringify;
  JSON_parse := parse
|}.

(** *** The values the printer writes in full *)

Fixpoint unique_keys (keys : list string) : bool :=
  match keys with
  | [] => true
  | k :: rest => negb (existsb (String.eqb k) rest) && unique_keys rest
  end.

(** Numbers in lowest terms with at most 17 decimal places. *)
Definition decimal (q : Q) : bool :=
  (Qnum (Qred q) =? Qnum q)%Z && (Qden (Qred q) =? Qden q)%positive
  && bool_decide (is_Some (decimal_places 17 0 q)).

(** The values of JSON: no [undefined], no [NaN], arrays without named
    properties, objects without repeated keys. *)
Fixpoint json (v : value) : bool :=
  match v with
  | VUndefined => false
  | VNull | VBool _ | VStr _ => true
  | VNum NaN => false
  | VNum (Num q) => decimal q
  | VArr elems named =>
      match named with
      | [] => forallb json elems
      | _ => false
      end
  | VObj fields =>
      unique_keys (map fst fields) && forallb (fun m => json m.2) fields
  end.

(** *** What the round trip is stated with *)

(** Text before which a numeral ends. *)
Definition stops_number (k : string) : bool :=
  match k with
  | EmptyString => true
  | String c _ => negb (is_digit c || is_code 46 c || is_code 101 c || is_code 69 c)
  end.

(** The fuel the reader needs for a value. *)
Definition sum_sizes {A} (sz : A → nat) : list A → nat :=
  fix go (l : list A) : nat :=
    match l with
    | [] => 0
    | x :: l' => S (sz x + go l')
    end.

Fixpoint size (v : value) : nat :=
  match v with
  | VArr elems _ => S (sum_sizes size elems)
  | VObj fields => S (sum_sizes (fun m => size m.2) fields)
  | _ => 1
  end.

(** A printed value, followed by any text a numeral can end before, is
    read back as that value, with that text left over. *)
Definition reads_back (v : value) : Prop :=
  json v = true →
  ∀ fuel k, (size v ≤ fuel)%nat → stops_number k = true →
            parse_value fuel (print v k) = Some (v, k).

(** A value is no larger than its text. *)
Definition fits (v : value) : Prop :=
  json v = true → ∀ k, (size v + String.length k ≤ String.length (print v k))%nat.

(** The fields [JSON.stringify] writes: those not holding [undefined]. *)
Definition written_fields (norm : value → value)
  : list (string * value) → list (string * value) :=
  fix go (l : list (string * value)) : list (string * value) :=
    match l with
    | [] => []
    | (key, x) :: l' => if is_undefined x then go l' else (key, norm x) :: go l'
    end.

(** What is left of a value in JSON text: [undefined] and [NaN] become
    [null], a field holding [undefined] and the named properties of an
    array are dropped. *)
Fixpoint written (v : value) : value :=
  match v with
  | VUndefined | VNum NaN => VNull
  | VArr elems _ => VArr (map written elems) []
  | VObj fields => VObj (written_fields written fields)
  | _ => v
  end.

(** What a field reads after a round trip. *)
Definition written_field (x : value) : value :=
  if is_undefined x then VUndefined else written x.

(** The values that come back from JSON text reading as they did:
    [null], booleans, strings, decimal numbers, arrays of such, and
    objects whose fields hold such or [undefined]. The carts the
    constructor and the reconciler build are of this kind when their
    prices and total are decimal numbers: a field the remote answer does
    not carry holds [undefined]. *)
Fixpoint storable (v : value) : bool :=
  match v with
  | VUndefined | VNum NaN => false
  | VNull | VBool _ | VStr _ => true
  | VNum (Num q) => decimal q
  | VArr elems named =>
      match named with
      | [] => forallb storable elems
      | _ => false
      end
  | VObj fields =>
      unique_keys (map fst fields)
      && forallb (fun m => is_undefined m.2 || storable m.2) fields
  end.

(** What a field of a storable object holds. *)
Definition readable (v : value) : bool := is_undefined v || storable v.

(** The prices of the lines and the total of a cart are decimal
    numbers. *)
Definition priced (c : value) : bool :=
  match prop c "items" with
  | VArr l _ => forallb (fun item => storable (prop item "price")) l
  | _ => false
  end
  && storable (prop c "total").

(** A step of a property chain: [.k] or [[i]]. *)
Inductive selector :=
| Field (k : string)
| Index (i : nat).

(** [v?.k] and [v?.[i]]: the element of an array, the character of a
    string, the field of an object under the numeral. *)
Definition read (v : value) (s : selector) : value :=
  match s with
  | Field k => prop v k
  | Index i =>
      match v with
      | VArr elems _ => default VUndefined (elems !! i)
      | VStr str =>
          match String.get i str with
          | Some c => VStr (String c "")
          | None => VUndefined
          end
      | VObj fields => lookup_field (pretty i) fields
      | _ => VUndefined
      end
  end.





End ReferenceHost.

(** ** Carts and payloads used as examples *)

Module Examples.
Import MultiStoreApp.

Definition merchandise (title : string) (amount : string) (availableForSale : bool) : value :=
  VObj [("id", VStr "gid://shopify/ProductVariant/1");
        ("title", VStr "Default Title");
        ("availableForSale", VBool availableForSale);
        ("priceV2", VObj [("amount", VStr amount); ("currencyCode", VStr "USD")]);
        ("product", VObj [("title", VStr title);
                          ("featuredImage", VObj [("url", VStr "https://cdn/img.jpg")])])].

Definition edge (lineId : string) (quantity : Z) (m : value) : value :=
  VObj [("node", VObj [("id", VStr lineId);
                       ("quantity", VNum (Num (inject_Z quantity)));
                       ("merchandise", m)])].

(** A remote cart with two units of a 10.00 item and a declared total of
    25.00 (tax and duty are in the total only). *)
Definition payload : value :=
  VObj [("id", VStr "gid://shopify/Cart/1");
        ("lines", VObj [("edges", VArr [edge "line-1" 2 (merchandise "Cream" "10.00" true)] [])]);
        ("estimatedCost",
         VObj [("totalAmount", VObj [("amount", VStr "25.00"); ("currencyCode", VStr "USD")])]);
        ("checkoutUrl", VStr "https://shop.example/cart/c/1")].

(** The same payload with no [lines] field. *)
Definition payload_without_lines : value :=
  VObj [("id", VStr "gid://shopify/Cart/1");
        ("estimatedCost",
         VObj [("totalAmount", VObj [("amount", VStr "25.00"); ("currencyCode", VStr "USD")])]);
        ("checkoutUrl", VStr "https://shop.example/cart/c/1")].

(** A line as [updateCartFromResponse] stores it. *)
Definition line (lineId title : string) (quantity : Z) (price : Q) (availableForSale : bool)
  : value :=
  VObj [("id", VStr lineId);
        ("quantity", VNum (Num (inject_Z quantity)));
        ("variant", VObj [("id", VStr "gid://shopify/ProductVariant/1");
                          ("availableForSale", VBool availableForSale);
                          ("product", VObj [("title", VStr title)])]);
        ("price", VNum (Num price))].

Definition cart_of (items : list value) (total : Q) : value :=
  VObj [("id", VStr "gid://shopify/Cart/1");
        ("items", VArr items []);
        ("total", VNum (Num total));
        ("checkoutUrl", VStr "https://shop.example/cart/c/1")].

Definition app_of (c : value) : App :=
  {| cart := c; isCheckingOut := false; localStorage := ∅; ui := [] |}.

(** A cart ready for checkout: one available line, total 25. *)
Definition ready : App := app_of (cart_of [line "line-1" "Cream" 2 10 true] 25).


(** The state [addToCart] leaves on a new page once the remote has
    answered its [createCart] with the cart [created]. *)
Definition added (created : value) : App :=
  (resume_remote
     (addToCart (H:=ReferenceHost.reference_host)
        "gid://shopify/Product/1" "gid://shopify/ProductVariant/1" (constructor ∅)).2
     (Return (VObj [("cartCreate", VObj [("cart", created)])]))
     (constructor ∅)).1.

(** Σ price × quantity over the stored lines, for comparison with the
    stored total. *)
Definition line_sum `{Host} (items : list value) : number :=
  fold_left (fun acc item =>
               match ToNumber (prop item "price"), ToNumber (prop item "quantity") with
               | Num p, Num q => num_add acc (Num (p * q))
               | _, _ => NaN
               end)
            items (Num 0).

(** A remote cart with two lines, the second one not for sale. *)
Definition payload_two_lines : value :=
  VObj [("id", VStr "gid://shopify/Cart/1");
        ("lines", VObj [("edges", VArr [edge "line-1" 2 (merchandise "Cream" "10.00" true);
                                        edge "line-2" 1 (merchandise "Balm" "5.00" false)] [])]);
        ("estimatedCost",
         VObj [("totalAmount", VObj [("amount", VStr "25.00"); ("currencyCode", VStr "USD")])]);
        ("checkoutUrl", VStr "https://shop.example/cart/c/1")].

(** A remote cart whose cost carries no total amount. *)
Definition payload_without_total : value :=
  VObj [("id", VStr "gid://shopify/Cart/1");
        ("lines", VObj [("edges", VArr [edge "line-1" 3 (merchandise "Cream" "10.00" true)] [])]);
        ("estimatedCost", VObj []);
        ("checkoutUrl", VStr "https://shop.example/cart/c/2")].

(** A remote cart without a cost. *)
Definition payload_without_cost : value :=
  VObj [("id", VStr "gid://shopify/Cart/1");
        ("lines", VObj [("edges", VArr [edge "line-1" 2 (merchandise "Cream" "10.00" true)] [])]);
        ("checkoutUrl", VStr "https://shop.example/cart/c/1")].

(** A remote cart without a checkout URL. *)
Definition payload_without_checkout_url : value :=
  VObj [("id", VStr "gid://shopify/Cart/1");
        ("lines", VObj [("edges", VArr [edge "line-1" 2 (merchandise "Cream" "10.00" true)] [])]);
        ("estimatedCost",
         VObj [("totalAmount", VObj [("amount", VStr "25.00"); ("currencyCode", VStr "USD")])])].

(** A product as [getProducts] returns it, with its variants. *)
Definition product_of (variants : list value) : value :=
  VObj [("id", VStr "gid://shopify/Product/1");
        ("title", VStr "Cream");
        ("variants", VObj [("edges", VArr (map (fun v => VObj [("node", v)]) variants) [])])].

(** A cart as the mutations of [ShopifyIntegration] return it. *)
Definition remote_cart : value :=
  VObj [("id", VStr "gid://shopify/Cart/2");
        ("lines", VObj [("edges", VArr [edge "line-1" 1 (merchandise "Cream" "10.00" true)] [])]);
        ("cost", VObj [("totalAmount",
                        VObj [("amount", VStr "10.0"); ("currencyCode", VStr "USD")])]);
        ("totalQuantity", VNum (Num 1));
        ("checkoutUrl", VStr "https://shop.example/cart/c/2")].

(** The answer to the mutation [field]: a cart and the user errors. *)
Definition answer (field : string) (c : value) (userErrors : list value) : value :=
  VObj [(field, VObj [("cart", c); ("userErrors", VArr userErrors [])])].

(** An instance of [ShopifyIntegration] started on an empty storage. *)
Definition fresh : ShopifyIntegration.Integration :=
  {| ShopifyIntegration.cart := ShopifyIntegration.default_cart;
     ShopifyIntegration.localStorage := ∅;
     ShopifyIntegration.ui := [] |}.

(** A browser whose currency format takes the three-letter codes. *)
#[export] Instance three_letter_codes : ShopifyIntegration.Browser := {|
  ShopifyIntegration.Intl_NumberFormat currency x :=
    if (String.length (ToString (H:=ReferenceHost.reference_host) currency) =? 3)%nat
    then Return (ToString (H:=ReferenceHost.reference_host) currency
                 +:+ " " +:+ ToString (H:=ReferenceHost.reference_host) (VNum x))
    else Throw (Error "Invalid currency code")
|}.

End Examples.

(** * Properties *)

Import MultiStoreApp.

(** ** Objects and fields *)

Lemma lookup_set_field_eq k x fields : lookup_field k (set_field k x fields) = x.
Proof.
  induction fields as [|[k' x'] rest IH]; simpl.
  - by rewrite String.eqb_refl.
  - destruct (String.eqb k k') eqn:E; simpl.
    + by rewrite String.eqb_refl.
    + by rewrite E.
Qed.

Lemma lookup_set_field_ne k k' x fields :
  k ≠ k' → lookup_field k' (set_field k x fields) = lookup_field k' fields.
Proof.
  intros Hne. induction fields as [|[k0 x0] rest IH]; simpl.
  - destruct (String.eqb k' k) eqn:E; [|done].
    apply String.eqb_eq in E. congruence.
  - destruct (String.eqb k k0) eqn:E; simpl.
    + apply String.eqb_eq in E. subst k0.
      destruct (String.eqb k' k) eqn:E'; [|done].
      apply String.eqb_eq in E'. congruence.
    + by rewrite IH.
Qed.

Lemma prop_assign_eq obj k x obj' :
  k ≠ "length" → assign obj k x = Return obj' → prop obj' k = x.
Proof.
  intros Hk Ha. destruct obj; simpl in Ha; try discriminate;
    injection Ha as <-; simpl.
  - apply String.eqb_neq in Hk. rewrite Hk. apply lookup_set_field_eq.
  - apply lookup_set_field_eq.
Qed.

Lemma prop_assign_ne obj k k' x obj' :
  k ≠ k' → assign obj k x = Return obj' → prop obj' k' = prop obj k'.
Proof.
  intros Hk Ha. destruct obj; simpl in Ha; try discriminate;
    injection Ha as <-; simpl.
  - destruct (String.eqb k' "length"); [done|]. by apply lookup_set_field_ne.
  - by apply lookup_set_field_ne.
Qed.

Lemma assign_not_nullish obj k x obj' : assign obj k x = Return obj' → nullish obj' = false.
Proof. destruct obj; simpl; intros Ha; try discriminate; by injection Ha as <-. Qed.

Lemma get_Return v k : nullish v = false → get v k = Return (prop v k).
Proof. unfold get. by intros ->. Qed.

Lemma get_Throw v k : nullish v = true → get v k = Throw cannot_read.
Proof. unfold get. by intros ->. Qed.

Lemma truthy_not_nullish v : ToBoolean v = true → nullish v = false.
Proof. by destruct v. Qed.

Lemma prop_truthy_not_nullish v k : ToBoolean (prop v k) = true → nullish v = false.
Proof. by destruct v. Qed.

Lemma truthy_not_null v : ToBoolean v = true → strict_eq v VNull = false.
Proof. by destruct v. Qed.

Lemma truthy_not_empty_string v : ToBoolean v = true → strict_eq v (VStr "") = false.
Proof.
  destruct v; simpl; try done.
  intros Ht. by apply negb_true_iff in Ht.
Qed.

(** ** Variant availability *)

(** The demo function implements the decision table of the specification
    on every value. *)
Lemma demo_follows_decision_table (variant : value) :
  ShopifyStorefrontDemo.isVariantAvailable variant
  = DecisionTable.isAvailable_spec (DecisionTable.view variant).
Proof.
  unfold ShopifyStorefrontDemo.isVariantAvailable, DecisionTable.view.
  destruct (ToBoolean variant); simpl; [|done].
  destruct (ToBoolean (prop variant "inventoryManagement")) eqn:Htracked; simpl; [|done].
  rewrite (truthy_not_null _ Htracked), (truthy_not_empty_string _ Htracked). simpl.
  destruct (strict_eq (prop variant "inventoryPolicy") (VStr "CONTINUE")); [done|].
  destruct (strict_eq (prop variant "availableForSale") (VBool true)).
  - by destruct (strict_eq (prop variant "inventoryPolicy") (VStr "DENY")).
  - by destruct (strict_eq (prop variant "inventoryPolicy") (VStr "DENY")),
         (strict_eq (prop variant "availableForSale") (VBool false)).
Qed.

(** What [ShopifyStorefront.isVariantAvailable] computes: the sale flag
    alone decides. *)
Lemma isVariantAvailable_sale_flag (variant : value) :
  ShopifyStorefront.isVariantAvailable variant
  = ToBoolean variant && negb (strict_eq (prop variant "availableForSale") (VBool false)).
Proof.
  unfold ShopifyStorefront.isVariantAvailable.
  destruct (ToBoolean variant); simpl; [|done].
  by destruct (strict_eq _ _).
Qed.

Lemma strict_eq_false_not_true v :
  strict_eq v (VBool false) = true → strict_eq v (VBool true) = false.
Proof. by destruct v as [| |[]| | | |]. Qed.

Lemma strict_eq_deny_not_continue v :
  strict_eq v (VStr "DENY") = true → strict_eq v (VStr "CONTINUE") = false.
Proof.
  destruct v; simpl; try done.
  intros Hdeny. apply String.eqb_eq in Hdeny. by subst.
Qed.

(** Where the table says unavailable, so does the application. *)
Lemma table_unavailable_isVariantAvailable (variant : value) :
  DecisionTable.isAvailable_spec (DecisionTable.view variant) = false →
  ShopifyStorefront.isVariantAvailable variant = false.
Proof.
  rewrite isVariantAvailable_sale_flag. unfold DecisionTable.view.
  destruct (ToBoolean variant); simpl; [|done].
  destruct (ToBoolean (prop variant "inventoryManagement")); simpl; [|done].
  destruct (strict_eq (prop variant "inventoryPolicy") (VStr "CONTINUE")); [done|].
  destruct (strict_eq (prop variant "availableForSale") (VBool true)).
  - by destruct (strict_eq (prop variant "inventoryPolicy") (VStr "DENY")).
  - by destruct (strict_eq (prop variant "inventoryPolicy") (VStr "DENY")),
         (strict_eq (prop variant "availableForSale") (VBool false)).
Qed.

(** The application is stricter than the table exactly on the variants
    with sale flag false that do not track inventory or whose policy is
    not DENY. *)
Lemma isVariantAvailable_stricter_than_table (variant : value) :
  ShopifyStorefront.isVariantAvailable variant = false
  ∧ DecisionTable.isAvailable_spec (DecisionTable.view variant) = true
  ↔ ToBoolean variant = true
    ∧ strict_eq (prop variant "availableForSale") (VBool false) = true
    ∧ (ToBoolean (prop variant "inventoryManagement") = false
       ∨ strict_eq (prop variant "inventoryPolicy") (VStr "DENY") = false).
Proof.
  rewrite isVariantAvailable_sale_flag. unfold DecisionTable.view.
  destruct (ToBoolean variant); simpl; [|by intuition].
  destruct (strict_eq (prop variant "availableForSale") (VBool false)) eqn:Hsale;
    simpl; [|by intuition].
  rewrite (strict_eq_false_not_true _ Hsale).
  destruct (ToBoolean (prop variant "inventoryManagement")); simpl; [|by intuition].
  destruct (strict_eq (prop variant "inventoryPolicy") (VStr "DENY")) eqn:Hdeny.
  - rewrite (strict_eq_deny_not_continue _ Hdeny). simpl. by intuition.
  - destruct (strict_eq (prop variant "inventoryPolicy") (VStr "CONTINUE")); by intuition.
Qed.

(** C1. The availability function of the application departs from the
    decision table: on the demo's variant without inventory tracking and
    on its variant with policy CONTINUE, both with sale flag false, the
    table and the demo function answer available and
    [ShopifyStorefront.isVariantAvailable] answers unavailable. On the
    other two variants of the demo the three agree. *)
Theorem isVariantAvailable_ignores_tracking_and_policy :
  let table v := DecisionTable.isAvailable_spec (DecisionTable.view v) in
  (table ShopifyStorefrontDemo.productWithoutTracking = true
   ∧ ShopifyStorefrontDemo.isVariantAvailable ShopifyStorefrontDemo.productWithoutTracking = true
   ∧ ShopifyStorefront.isVariantAvailable ShopifyStorefrontDemo.productWithoutTracking = false)
  ∧ (table ShopifyStorefrontDemo.productWithContinuePolicy = true
     ∧ ShopifyStorefrontDemo.isVariantAvailable ShopifyStorefrontDemo.productWithContinuePolicy = true
     ∧ ShopifyStorefront.isVariantAvailable ShopifyStorefrontDemo.productWithContinuePolicy = false)
  ∧ (table ShopifyStorefrontDemo.productOutOfStock = false
     ∧ ShopifyStorefront.isVariantAvailable ShopifyStorefrontDemo.productOutOfStock = false)
  ∧ (table ShopifyStorefrontDemo.productInStock = true
     ∧ ShopifyStorefront.isVariantAvailable ShopifyStorefrontDemo.productInStock = true).
Proof. repeat split; reflexivity. Qed.

(** ** Reconciler *)

Section Reconciler.
Context `{Host}.

Lemma assign_assignable obj k x : assignable obj = true → ∃ obj', assign obj k x = Return obj'.
Proof. destruct obj; simpl; try done; eauto. Qed.

Lemma assign_preserves_assignable obj k x obj' :
  assign obj k x = Return obj' → assignable obj' = true.
Proof. destruct obj; simpl; intros Ha; try discriminate; by injection Ha as <-. Qed.

(** A successful reconciliation, step by step: the lines are mapped
    first, then the three fields are written in order. *)
Lemma updateCartFromResponse_Return cartData st st' :
  updateCartFromResponse cartData st = (st', Return tt) →
  ∃ l named items total c1 c2 c3,
    nullish cartData = false
    ∧ nullish (prop cartData "lines") = false
    ∧ prop (prop cartData "lines") "edges" = VArr l named
    ∧ array_map line_of_edge l = Return items
    ∧ remote_total cartData = Return total
    ∧ assign (cart st) "items" (VArr items []) = Return c1
    ∧ assign c1 "total" total = Return c2
    ∧ assign c2 "checkoutUrl" (prop cartData "checkoutUrl") = Return c3
    ∧ st' = with_cart c3 st.
Proof.
  unfold updateCartFromResponse, bind, lift, assign_cart, get. intros Hrun.
  destruct (nullish cartData) eqn:Hc; [discriminate|].
  destruct (nullish (prop cartData "lines")) eqn:Hl; [discriminate|].
  destruct (prop (prop cartData "lines") "edges") as [| | | | |l named|] eqn:He;
    try discriminate.
  destruct (array_map line_of_edge l) as [items|] eqn:Hitems; [|discriminate].
  destruct (assign (cart st) "items" (VArr items [])) as [c1|] eqn:H1; [|discriminate].
  destruct (remote_total cartData) as [total|] eqn:Htotal; [|discriminate].
  simpl in Hrun. destruct (assign c1 "total" total) as [c2|] eqn:H2; [|discriminate].
  simpl in Hrun.
  destruct (assign c2 "checkoutUrl" (prop cartData "checkoutUrl")) as [c3|] eqn:H3;
    [|discriminate].
  revert Hrun.
  intros [= <-]. by exists l, named, items, total, c1, c2, c3.
Qed.

(** Reconciliation returns on every payload whose lines are well formed,
    whatever the cart object held before. *)
Lemma updateCartFromResponse_total cartData st l named items total :
  nullish cartData = false →
  nullish (prop cartData "lines") = false →
  prop (prop cartData "lines") "edges" = VArr l named →
  array_map line_of_edge l = Return items →
  remote_total cartData = Return total →
  assignable (cart st) = true →
  ∃ st', updateCartFromResponse cartData st = (st', Return tt)
         ∧ prop (cart st') "items" = VArr items []
         ∧ prop (cart st') "total" = total
         ∧ prop (cart st') "checkoutUrl" = prop cartData "checkoutUrl"
         ∧ isCheckingOut st' = isCheckingOut st
         ∧ localStorage st' = localStorage st
         ∧ ui st' = ui st.
Proof.
  intros Hc Hl He Hitems Htotal Hobj.
  destruct (assign_assignable (cart st) "items" (VArr items []) Hobj) as [c1 H1].
  destruct (assign_assignable c1 "total" total (assign_preserves_assignable _ _ _ _ H1))
    as [c2 H2].
  destruct (assign_assignable c2 "checkoutUrl" (prop cartData "checkoutUrl")
              (assign_preserves_assignable _ _ _ _ H2)) as [c3 H3].
  exists (with_cart c3 st).
  split.
  { unfold updateCartFromResponse, bind, lift, assign_cart, get.
    rewrite Hc, Hl, He, Hitems, H1, Htotal. simpl. rewrite H2. simpl. by rewrite H3. }
  simpl. repeat split.
  - rewrite (prop_assign_ne _ "checkoutUrl" "items" _ _ ltac:(discriminate) H3).
    rewrite (prop_assign_ne _ "total" "items" _ _ ltac:(discriminate) H2).
    by apply (prop_assign_eq _ "items" _ _ ltac:(discriminate) H1).
  - rewrite (prop_assign_ne _ "checkoutUrl" "total" _ _ ltac:(discriminate) H3).
    by apply (prop_assign_eq _ "total" _ _ ltac:(discriminate) H2).
  - by apply (prop_assign_eq _ "checkoutUrl" _ _ ltac:(discriminate) H3).
Qed.

Lemma updateCartFromResponse_fields cartData st st' :
  updateCartFromResponse cartData st = (st', Return tt) →
  remote_total cartData = Return (prop (cart st') "total")
  ∧ prop (cart st') "checkoutUrl" = prop cartData "checkoutUrl"
  ∧ ∃ l named items,
      prop (prop cartData "lines") "edges" = VArr l named
      ∧ array_map line_of_edge l = Return items
      ∧ prop (cart st') "items" = VArr items [].
Proof.
  intros Hup.
  destruct (updateCartFromResponse_Return _ _ _ Hup)
    as (l & named & items & total & c1 & c2 & c3 & _ & _ & He & Hitems & Htotal
        & H1 & H2 & H3 & ->).
  simpl. split; [|split].
  - rewrite (prop_assign_ne _ "checkoutUrl" "total" _ _ ltac:(discriminate) H3).
    by rewrite (prop_assign_eq _ "total" _ _ ltac:(discriminate) H2).
  - by apply (prop_assign_eq _ "checkoutUrl" _ _ ltac:(discriminate) H3).
  - exists l, named, items. repeat split; try done.
    rewrite (prop_assign_ne _ "checkoutUrl" "items" _ _ ltac:(discriminate) H3).
    rewrite (prop_assign_ne _ "total" "items" _ _ ltac:(discriminate) H2).
    by apply (prop_assign_eq _ "items" _ _ ltac:(discriminate) H1).
Qed.

Lemma remote_total_declared cartData :
  ToBoolean (prop cartData "estimatedCost") = true →
  nullish (prop (prop cartData "estimatedCost") "totalAmount") = false →
  remote_total cartData
  = Return (VNum (parseFloat
                    (prop (prop (prop cartData "estimatedCost") "totalAmount") "amount"))).
Proof.
  intros Hcost Hamount. unfold remote_total. rewrite Hcost.
  rewrite (get_Return _ _ (truthy_not_nullish _ Hcost)). simpl.
  by rewrite (get_Return _ _ Hamount).
Qed.

(** C5. For a payload that declares a cost, the total stored by a
    reconciliation is [parseFloat] of the declared total amount. The
    reconciliation returns on every payload whose edges are well formed,
    and the stored total is the same for every payload with that cost
    field, whatever the lines are: it is not a sum over the lines. *)
Theorem reconciled_total_is_remote_total (cartData : value) (st : App) :
  ToBoolean (prop cartData "estimatedCost") = true →
  let declared :=
    VNum (parseFloat (prop (prop (prop cartData "estimatedCost") "totalAmount") "amount")) in
  (∀ st', updateCartFromResponse cartData st = (st', Return tt) →
          prop (cart st') "total" = declared)
  ∧ (∀ l named items,
       nullish (prop (prop cartData "estimatedCost") "totalAmount") = false →
       prop (prop cartData "lines") "edges" = VArr l named →
       array_map line_of_edge l = Return items →
       assignable (cart st) = true →
       ∃ st', updateCartFromResponse cartData st = (st', Return tt)
              ∧ prop (cart st') "total" = declared
              ∧ prop (cart st') "items" = VArr items [])
  ∧ (∀ (cartData2 : value) (st2 st2' : App),
       prop cartData2 "estimatedCost" = prop cartData "estimatedCost" →
       updateCartFromResponse cartData2 st2 = (st2', Return tt) →
       prop (cart st2') "total" = declared).
Proof.
  intros Hcost declared.
  assert (Hdeclared : ∀ d s s',
             updateCartFromResponse d s = (s', Return tt) →
             prop d "estimatedCost" = prop cartData "estimatedCost" →
             prop (cart s') "total" = declared).
  { intros d s s' Hd Heq.
    destruct (updateCartFromResponse_fields _ _ _ Hd) as [Htotal _].
    unfold remote_total in Htotal. rewrite Heq, Hcost in Htotal.
    rewrite (get_Return _ _ (truthy_not_nullish _ Hcost)) in Htotal. simpl in Htotal.
    unfold get in Htotal.
    destruct (nullish (prop (prop cartData "estimatedCost") "totalAmount"));
      simpl in Htotal; [discriminate|].
    by injection Htotal as <-. }
  split; [|split].
  - intros st' Hup. by apply (Hdeclared cartData st st').
  - intros l named items Hamount Hedges Hitems Hobj.
    assert (Hlines : nullish (prop cartData "lines") = false).
    { destruct (prop cartData "lines"); try done; simpl in Hedges; discriminate. }
    destruct (updateCartFromResponse_total cartData st l named items declared)
      as (st' & Hup & Hi & Ht & _); try done.
    + by apply (prop_truthy_not_nullish _ "estimatedCost").
    + by apply remote_total_declared.
    + by exists st'.
  - intros d s s' Heq Hd. by apply (Hdeclared d s s').
Qed.

(** C8 as the code has it. A payload without a [lines] collection makes
    the reconciliation raise a [TypeError] before anything is written, so
    the application state stays as it was; a payload whose collection is
    there with no edges reconciles to an empty line sequence. *)
Theorem updateCartFromResponse_without_lines (cartData : value) (st : App) :
  (nullish (prop cartData "lines") = true →
   updateCartFromResponse cartData st = (st, Throw cannot_read))
  ∧ (∀ named total,
       nullish cartData = false →
       nullish (prop cartData "lines") = false →
       prop (prop cartData "lines") "edges" = VArr [] named →
       remote_total cartData = Return total →
       assignable (cart st) = true →
       ∃ st', updateCartFromResponse cartData st = (st', Return tt)
              ∧ prop (cart st') "items" = VArr [] []).
Proof.
  split.
  - intros Hl. unfold updateCartFromResponse, bind, lift, get.
    destruct (nullish cartData); [done|]. by rewrite Hl.
  - intros named total Hc Hl He Htotal Hobj.
    destruct (updateCartFromResponse_total cartData st [] named [] total)
      as (st' & Hup & Hitems & _); try done.
    by exists st'.
Qed.

End Reconciler.

Section ReconcilerExamples.
Import Examples ReferenceHost.

(** The declared total of 25.00 is stored although the lines add up to
    2 × 10.00. *)
Lemma reconciled_total_differs_from_line_sum :
  ∃ st' items,
    updateCartFromResponse payload ready = (st', Return tt)
    ∧ prop (cart st') "total" = VNum (Num 25)
    ∧ prop (cart st') "items" = VArr items []
    ∧ line_sum items = Num 20.
Proof.
  eexists _, _. split; [vm_compute; reflexivity|].
  split; [reflexivity|]. split; reflexivity.
Qed.

Lemma reconciled_total_is_remote_total_witness :
  ToBoolean (prop payload "estimatedCost") = true
  ∧ ∃ st', updateCartFromResponse payload ready = (st', Return tt)
           ∧ prop (cart st') "total" = VNum (parseFloat (VStr "25.00")).
Proof.
  assert (Hcost : ToBoolean (prop payload "estimatedCost") = true) by reflexivity.
  split; [exact Hcost|].
  destruct (proj1 (proj2 (reconciled_total_is_remote_total payload ready Hcost))
              [edge "line-1" 2 (merchandise "Cream" "10.00" true)] [] _
              eq_refl eq_refl eq_refl eq_refl)
    as (st' & Hrun & Htotal & _).
  exists st'. split; [exact Hrun|exact Htotal].
Defined.

(** C8 does not hold as the specification states it: on a payload with
    no [lines] the reconciliation raises and does not return. *)
Lemma reconciliation_raises_without_lines :
  prop payload_without_lines "lines" = VUndefined
  ∧ updateCartFromResponse payload_without_lines ready = (ready, Throw cannot_read)
  ∧ ¬ ∃ st', updateCartFromResponse payload_without_lines ready = (st', Return tt).
Proof.
  split; [reflexivity|]. split; [reflexivity|].
  intros [st' Hrun]. vm_compute in Hrun. discriminate Hrun.
Qed.

Lemma updateCartFromResponse_without_lines_witness :
  nullish (prop payload_without_lines "lines") = true
  ∧ updateCartFromResponse payload_without_lines ready = (ready, Throw cannot_read).
Proof.
  assert (Hl : nullish (prop payload_without_lines "lines") = true) by reflexivity.
  split; [exact Hl|].
  exact (proj1 (updateCartFromResponse_without_lines payload_without_lines ready) Hl).
Defined.

End ReconcilerExamples.

(** ** Validator *)

Section Validator.
Context `{Host}.

Lemma below_one_cent_spec t : below_one_cent t = true ↔ (t < 1 # 100)%Q.
Proof.
  unfold below_one_cent. rewrite negb_true_iff, <- not_true_iff_false, Qle_bool_iff.
  split; [apply Qnot_le_lt | apply Qlt_not_le].
Qed.

(** On totals that are a whole number of cents, [total < 0.01] is
    [total ≤ 0]. *)
Lemma below_one_cent_whole_cents (cents : Z) :
  below_one_cent (cents # 100) = true ↔ (cents # 100 <= 0)%Q.
Proof.
  rewrite below_one_cent_spec. unfold Qlt, Qle. simpl. lia.
Qed.

Lemma invalid_item_Return item :
  nullish item = false → invalid_item item = Return (fails_isAvailable item).
Proof.
  intros Hitem. unfold invalid_item, fails_isAvailable.
  rewrite (get_Return _ _ Hitem). simpl.
  unfold ShopifyStorefront.isVariantAvailable.
  by destruct (ToBoolean (prop item "variant")).
Qed.

Lemma array_filter_invalid_items l :
  Forall (λ item, nullish item = false) l →
  array_filter invalid_item l = Return (List.filter fails_isAvailable l).
Proof.
  induction 1 as [|item l Hitem _ IH]; [done|].
  simpl. rewrite (invalid_item_Return _ Hitem). simpl. rewrite IH. simpl.
  by destruct (fails_isAvailable item).
Qed.

Lemma validateCart_Return st l named t :
  prop (cart st) "items" = VArr l named →
  Forall (λ item, nullish item = false) l →
  prop (cart st) "total" = VNum (Num t) →
  validateCart st = Return (validation_messages l t).
Proof.
  intros Hitems Hl Ht. unfold validateCart, validation_messages.
  assert (Hcart : nullish (cart st) = false).
  { destruct (cart st); try done; simpl in Hitems; discriminate. }
  rewrite (get_Return _ _ Hcart), Hitems. simpl obind.
  rewrite (array_filter_invalid_items _ Hl), Ht. simpl.
  unfold below_one_cent.
  destruct l; by destruct (List.filter fails_isAvailable _).
Qed.

(** The validator reads the cart only. *)
Lemma validateCart_cart st1 st2 : cart st1 = cart st2 → validateCart st1 = validateCart st2.
Proof. unfold validateCart. by intros ->. Qed.

Lemma total_message_not_empty_cart_message : total_message ≠ empty_cart_message.
Proof. discriminate. Qed.

Lemma total_message_not_unavailable_message items : total_message ≠ unavailable_message items.
Proof. discriminate. Qed.

Lemma total_message_in_validation_messages l t :
  total_message ∈ validation_messages l t ↔ below_one_cent t = true.
Proof.
  unfold validation_messages. rewrite !elem_of_app. split.
  - intros [Hin|[Hin|Hin]].
    + destruct l; [|by apply elem_of_nil in Hin].
      apply list_elem_of_singleton in Hin.
      by destruct total_message_not_empty_cart_message.
    + destruct (List.filter fails_isAvailable l); [by apply elem_of_nil in Hin|].
      apply list_elem_of_singleton in Hin.
      by destruct (total_message_not_unavailable_message _ Hin).
    + destruct (below_one_cent t); [done|by apply elem_of_nil in Hin].
  - intros ->. right. right. by apply list_elem_of_singleton.
Qed.

Lemma validation_messages_nil l t :
  validation_messages l t = []
  ↔ l ≠ [] ∧ List.filter fails_isAvailable l = [] ∧ below_one_cent t = false.
Proof.
  unfold validation_messages. split.
  - intros Hnil. destruct l as [|item l]; [discriminate|].
    destruct (List.filter fails_isAvailable (item :: l)); [|discriminate].
    destruct (below_one_cent t); [discriminate|done].
  - intros (Hl & -> & ->). by destruct l.
Qed.

(** C6 as the code has it. The validator is additive and ordered: its
    answer is the empty-cart message when there are no lines, then one
    message naming the lines whose variant fails [isVariantAvailable],
    then the total message when the total is below 0.01. So a cart with
    no lines gets the empty-cart message, no unavailability message, and
    the total message as well when its total is below 0.01; a cart with
    one unavailable line and total 0 gets the unavailability message
    naming the line and the total message; the total message appears
    exactly when the total is below 0.01, which for a whole number of
    cents is a total of at most 0; and the answer is empty exactly when
    there is a line, every line is available and the total is at least
    0.01. *)
Theorem validateCart_additive_ordered (st : App) (l : list value)
    (named : list (string * value)) (t : Q) :
  prop (cart st) "items" = VArr l named →
  Forall (λ item, nullish item = false) l →
  prop (cart st) "total" = VNum (Num t) →
  ∃ msgs,
    validateCart st = Return msgs
    ∧ msgs = validation_messages l t
    ∧ (l = [] →
       msgs = empty_cart_message :: (if below_one_cent t then [total_message] else []))
    ∧ (∀ item, l = [item] → fails_isAvailable item = true → (t == 0)%Q →
       msgs = [unavailable_prefix +:+ item_name item; total_message])
    ∧ (total_message ∈ msgs ↔ (t < 1 # 100)%Q)
    ∧ (∀ cents : Z, t = (cents # 100)%Q → (total_message ∈ msgs ↔ (t <= 0)%Q))
    ∧ (msgs = []
       ↔ l ≠ [] ∧ Forall (λ item, fails_isAvailable item = false) l ∧ (1 # 100 <= t)%Q).
Proof.
  intros Hitems Hl Ht. exists (validation_messages l t).
  split; [by apply (validateCart_Return st l named t)|].
  split; [done|].
  split; [by intros ->|].
  split.
  { intros item -> Hfails Hzero. unfold validation_messages. simpl.
    rewrite Hfails. simpl.
    assert (below_one_cent t = true) as ->; [|done].
    apply below_one_cent_spec. by rewrite Hzero. }
  split; [by rewrite total_message_in_validation_messages, below_one_cent_spec|].
  split.
  { intros cents ->.
    by rewrite total_message_in_validation_messages, below_one_cent_whole_cents. }
  rewrite validation_messages_nil. split.
  - intros (Hne & Hfilter & Hcent). split; [done|]. split.
    + apply Forall_forall. intros item Hin.
      destruct (fails_isAvailable item) eqn:Hfails; [|done].
      assert (In item (List.filter fails_isAvailable l)) as Hin'
        by (apply filter_In; by rewrite <- list_elem_of_In).
      rewrite Hfilter in Hin'. destruct Hin'.
    + apply Qnot_lt_le. intros Hlt. apply below_one_cent_spec in Hlt. congruence.
  - intros (Hne & Hall & Hcent). split; [done|]. split.
    + clear -Hall. induction Hall as [|item l Hitem _ IH]; [done|].
      simpl. by rewrite Hitem.
    + apply not_true_iff_false. intros Hlt. apply below_one_cent_spec in Hlt.
      by apply Qlt_not_le in Hlt.
Qed.

End Validator.

Section ValidatorExamples.
Import Examples ReferenceHost.

(** C6 does not hold as the specification states it: the cart the
    constructor builds has no lines and total 0, and the validator
    answers the empty-cart message and the total message; and a cart with
    an available line and a total of 0.005, which is positive, gets the
    total message. *)
Lemma validateCart_empty_cart_two_messages :
  validateCart (constructor ∅) = Return [empty_cart_message; total_message]
  ∧ validateCart (app_of (cart_of [line "line-1" "Cream" 1 (1 # 200) true] (1 # 200)))
    = Return [total_message]
  ∧ (0 < 1 # 200)%Q.
Proof. repeat split; vm_compute; reflexivity. Qed.

Lemma validateCart_additive_ordered_witness :
  let sold_out := line "line-1" "Cream" 1 10 false in
  let st := app_of (cart_of [sold_out] 0) in
  prop (cart st) "items" = VArr [sold_out] []
  ∧ Forall (λ item, nullish item = false) [sold_out]
  ∧ prop (cart st) "total" = VNum (Num 0)
  ∧ validateCart st
    = Return ["These items are no longer available: Cream"; total_message].
Proof.
  intros sold_out st.
  assert (Hitems : prop (cart st) "items" = VArr [sold_out] []) by reflexivity.
  assert (Hall : Forall (λ item, nullish item = false) [sold_out])
    by (constructor; [reflexivity|constructor]).
  assert (Htotal : prop (cart st) "total" = VNum (Num 0)) by reflexivity.
  split; [exact Hitems|]. split; [exact Hall|]. split; [exact Htotal|].
  destruct (validateCart_additive_ordered st [sold_out] [] 0 Hitems Hall Htotal)
    as (msgs & Hv & _ & _ & Hone & _).
  rewrite Hv. f_equal. apply (Hone sold_out eq_refl eq_refl). reflexivity.
Defined.

End ValidatorExamples.

(** ** JSON text of the reference host *)

Section ReferenceJSON.
Import ReferenceHost.

Lemma digit_char_spec d :
  (0 ≤ d ≤ 9)%Z → is_digit (digit_char d) = true ∧ digit_of (digit_char d) = d.
Proof.
  intros Hd.
  assert (d = 0 ∨ d = 1 ∨ d = 2 ∨ d = 3 ∨ d = 4 ∨ d = 5 ∨ d = 6 ∨ d = 7 ∨ d = 8 ∨ d = 9)%Z
    as Hcases by lia.
  repeat (destruct Hcases as [->|Hcases]; [by vm_compute|]). subst d. by vm_compute.
Qed.

Lemma read_digits_digit d k acc c :
  (0 ≤ d ≤ 9)%Z →
  read_digits (String (digit_char d) k) acc c = read_digits k (10 * acc + d)%Z (S c).
Proof.
  intros Hd. destruct (digit_char_spec d Hd) as [Hdigit Hvalue].
  cbn [read_digits]. by rewrite Hdigit, Hvalue.
Qed.

Lemma read_digits_print_fixed places m k acc c :
  (0 ≤ m < 10 ^ Z.of_nat places)%Z →
  read_digits (print_fixed places m k) acc c
  = read_digits k (acc * 10 ^ Z.of_nat places + m)%Z (c + places).
Proof.
  revert m k. induction places as [|places IH]; intros m k Hm; cbn [print_fixed].
  - f_equal; [|lia]. change (10 ^ Z.of_nat 0)%Z with 1%Z in *. lia.
  - rewrite Nat2Z.inj_succ, Z.pow_succ_r in Hm by lia.
    rewrite IH by (split; [apply Z.div_pos; lia | apply Z.div_lt_upper_bound; lia]).
    rewrite read_digits_digit by (pose proof (Z.mod_pos_bound m 10); lia).
    f_equal; [|lia].
    rewrite Nat2Z.inj_succ, Z.pow_succ_r by lia.
    pose proof (Z.div_mod m 10 ltac:(lia)). lia.
Qed.

Lemma read_digits_print_digits fuel n k acc c :
  (0 ≤ n < 10 ^ (Z.of_nat fuel + 1))%Z →
  ∃ d, (0 < d)%nat
       ∧ read_digits (print_digits fuel n k) acc c
         = read_digits k (acc * 10 ^ Z.of_nat d + n)%Z (c + d).
Proof.
  revert n k. induction fuel as [|fuel IH]; intros n k Hn; cbn [print_digits].
  - change (10 ^ (Z.of_nat 0 + 1))%Z with 10%Z in Hn.
    rewrite Z.mod_small by lia. exists 1%nat. split; [lia|].
    rewrite read_digits_digit by lia. f_equal; [|lia]. change (10 ^ Z.of_nat 1)%Z with 10%Z. lia.
  - destruct (n <? 10)%Z eqn:Hsmall.
    + apply Z.ltb_lt in Hsmall. exists 1%nat. split; [lia|].
      rewrite read_digits_digit by lia. f_equal; [|lia].
      change (10 ^ Z.of_nat 1)%Z with 10%Z. lia.
    + apply Z.ltb_ge in Hsmall.
      rewrite Nat2Z.inj_succ, <- Z.add_1_r, Z.pow_add_r in Hn by lia.
      change (10 ^ 1)%Z with 10%Z in Hn.
      destruct (IH (n / 10)%Z (String (digit_char (n mod 10)) k)) as (d & Hd & Hread).
      { split; [apply Z.div_pos; lia | apply Z.div_lt_upper_bound; lia]. }
      exists (S d). split; [lia|]. rewrite Hread.
      rewrite read_digits_digit by (pose proof (Z.mod_pos_bound n 10); lia).
      f_equal; [|lia].
      rewrite Nat2Z.inj_succ, Z.pow_succ_r by lia.
      pose proof (Z.div_mod n 10 ltac:(lia)). lia.
Qed.

Lemma read_digits_print_nat n k acc c :
  (0 ≤ n)%Z →
  ∃ d, (0 < d)%nat
       ∧ read_digits (print_nat n k) acc c
         = read_digits k (acc * 10 ^ Z.of_nat d + n)%Z (c + d).
Proof.
  intros Hn. apply read_digits_print_digits. split; [done|].
  rewrite Z2Nat.id by apply Z.log2_nonneg.
  destruct (Z.eq_dec n 0%Z) as [->|Hne]; [by vm_compute|].
  pose proof (Z.log2_spec n ltac:(lia)) as [_ Hlt].
  rewrite <- Z.add_1_r in Hlt.
  eapply Z.lt_le_trans; [exact Hlt|].
  apply Z.pow_le_mono_l. lia.
Qed.

Lemma pow10_spec p : Zpos (pow10 p) = (10 ^ Z.of_nat p)%Z.
Proof. unfold pow10. apply Z2Pos.id. apply Z.pow_pos_nonneg; lia. Qed.

Lemma decimal_places_Some fuel k q p :
  decimal_places fuel k q = Some p →
  Z.rem (Qnum q * Zpos (pow10 p)) (Zpos (Qden q)) = 0%Z.
Proof.
  revert k. induction fuel as [|fuel IH]; intros k; cbn [decimal_places];
    destruct (Z.rem _ _ =? 0)%Z eqn:Hrem; intros Hp.
  - injection Hp as <-. by apply Z.eqb_eq.
  - discriminate.
  - injection Hp as <-. by apply Z.eqb_eq.
  - by eapply IH.
Qed.

Lemma read_digits_stop k acc c : stops_number k = true → read_digits k acc c = (acc, c, k).
Proof.
  destruct k as [|ch k]; [done|]. cbn [stops_number read_digits].
  destruct (is_digit ch); [done|done].
Qed.

Lemma read_fraction_stop k : stops_number k = true → read_fraction k = (0%Z, 0%nat, k).
Proof.
  destruct k as [|ch k]; [done|]. cbn [stops_number read_fraction].
  destruct (is_digit ch); [done|]. by destruct (is_code 46 ch).
Qed.

Lemma read_exponent_stop m k : stops_number k = true → read_exponent m k = (m, k).
Proof.
  destruct k as [|ch k]; [done|]. cbn [stops_number read_exponent].
  destruct (is_digit ch); [done|]. destruct (is_code 46 ch); [done|].
  by destruct (is_code 101 ch), (is_code 69 ch).
Qed.

Lemma print_digits_head fuel n k :
  (0 ≤ n)%Z → ∃ c s, print_digits fuel n k = String c s ∧ is_digit c = true.
Proof.
  revert n k. induction fuel as [|fuel IH]; intros n k Hn; cbn [print_digits].
  - eexists _, _. split; [done|].
    apply digit_char_spec. pose proof (Z.mod_pos_bound n 10). lia.
  - destruct (n <? 10)%Z eqn:Hsmall.
    + apply Z.ltb_lt in Hsmall. eexists _, _. split; [done|].
      apply digit_char_spec. lia.
    + apply IH. apply Z.div_pos; lia.
Qed.

Lemma is_digit_code c n : is_digit c = true → (n < 48 ∨ 57 < n)%nat → is_code n c = false.
Proof.
  unfold is_digit, is_code. intros Hd Hn.
  apply andb_true_iff in Hd as [H1 H2].
  apply Nat.leb_le in H1, H2. apply Nat.eqb_neq. lia.
Qed.

Lemma Qred_decimal q : decimal q = true → Qred q = q.
Proof.
  unfold decimal. intros Hd.
  apply andb_true_iff in Hd as [Hd _]. apply andb_true_iff in Hd as [Hn Hden].
  apply Z.eqb_eq in Hn. apply Pos.eqb_eq in Hden.
  destruct (Qred q), q. simpl in *. by subst.
Qed.

(** The integer and fraction digits of a scaled decimal read back. *)
Lemma read_digits_body int frac p k :
  (0 ≤ int)%Z → (0 ≤ frac < 10 ^ Z.of_nat p)%Z → stops_number k = true →
  let K := if (p =? 0)%nat then k else String "." (print_fixed p frac k) in
  ∃ d, (0 < d)%nat
       ∧ read_digits (print_nat int K) 0 0 = (int, d, K)
       ∧ read_fraction K = (frac, p, k).
Proof.
  intros Hint Hfrac Hk K.
  destruct (read_digits_print_nat int K 0 0 Hint) as (d & Hd & Hread).
  exists d. split; [done|]. rewrite Hread. simpl (0 + d)%nat.
  replace (0 * 10 ^ Z.of_nat d + int)%Z with int by lia.
  subst K. destruct p as [|p]; cbn [Nat.eqb].
  - change (10 ^ Z.of_nat 0)%Z with 1%Z in Hfrac. assert (frac = 0%Z) as -> by lia.
    split; [by apply read_digits_stop|by apply read_fraction_stop].
  - split; [done|]. cbn [read_fraction].
    change (is_code 46 ".") with true. cbn iota.
    rewrite read_digits_print_fixed by done.
    rewrite read_digits_stop by done. simpl (0 + S p)%nat.
    cbn [Nat.eqb]. repeat f_equal; lia.
Qed.

Lemma read_decimal_print_number q k :
  decimal q = true → stops_number k = true →
  read_decimal (print_number (Num q) k) = Some (q, k).
Proof.
  intros Hq Hk. pose proof (Qred_decimal q Hq) as Hred.
  unfold decimal in Hq. apply andb_true_iff in Hq as [_ Hplaces].
  apply bool_decide_eq_true in Hplaces as [p Hp].
  unfold print_number. rewrite Hred, Hp. cbn [default from_option id].
  pose proof (decimal_places_Some _ _ _ _ Hp) as Hrem.
  apply Z.rem_divide in Hrem as [s Hs]; [|done].
  rewrite pow10_spec in *.
  set (P := (10 ^ Z.of_nat p)%Z) in *.
  assert (HP : (0 < P)%Z) by (apply Z.pow_pos_nonneg; lia).
  set (scaled := (Z.abs (Qnum q) * P / Z.pos (Qden q))%Z).
  assert (Hscaled : (scaled * Z.pos (Qden q) = Z.abs (Qnum q) * P)%Z).
  { unfold scaled.
    replace (Z.abs (Qnum q) * P)%Z with (Z.abs s * Z.pos (Qden q))%Z.
    - by rewrite Z.div_mul.
    - transitivity (Z.abs (Qnum q * P)); [|rewrite Z.abs_mul; lia].
      rewrite Hs, Z.abs_mul. lia. }
  assert (Hnonneg : (0 ≤ scaled)%Z) by (apply Z.div_pos; lia).
  destruct (read_digits_body (scaled / P) (scaled mod P) p k) as (d & Hd & Hint & Hfrac);
    [apply Z.div_pos; lia | apply Z.mod_pos_bound; lia | done |].
  set (K := if (p =? 0)%nat then k else String "." (print_fixed p (scaled mod P) k)) in *.
  assert (Hread : ∀ negative body,
             read_sign body = (negative, print_nat (scaled / P) K) →
             read_decimal body
             = Some (Qred (if negative then - (scaled # pow10 p) else scaled # pow10 p)%Q, k)).
  { intros negative body Hsign. unfold read_decimal. rewrite Hsign, Hint.
    destruct d as [|d]; [lia|]. cbn [Nat.eqb]. rewrite Hfrac.
    rewrite read_exponent_stop by done.
    rewrite pow10_spec. fold P.
    by replace (scaled / P * P + scaled mod P)%Z with scaled
      by (pose proof (Z.div_mod scaled P); lia). }
  destruct (Qnum q <? 0)%Z eqn:Hneg.
  - rewrite (Hread true) by done. f_equal. f_equal.
    etransitivity; [|exact Hred]. apply Qred_complete.
    apply Z.ltb_lt in Hneg. unfold Qeq. simpl. rewrite pow10_spec. fold P. lia.
  - destruct (print_digits_head (Z.to_nat (Z.log2 (scaled / P))) (scaled / P) K)
      as (c & body & Hbody & Hc); [apply Z.div_pos; lia|].
    rewrite (Hread false).
    + f_equal. f_equal. etransitivity; [|exact Hred]. apply Qred_complete.
      apply Z.ltb_ge in Hneg. unfold Qeq. simpl. rewrite pow10_spec. fold P. lia.
    + unfold print_nat. rewrite Hbody. unfold read_sign.
      by rewrite (is_digit_code c 45 Hc) by lia.
Qed.

Lemma read_string_escape_char c k :
  read_string (escape_char c k)
  = ('(str, tail) ← read_string k; Some (String c str, tail)).
Proof. destruct c as [[] [] [] [] [] [] [] []]; reflexivity. Qed.

Lemma read_string_quote s k : read_string (escape s (String dquote k)) = Some (s, k).
Proof.
  induction s as [|c s IH]; [reflexivity|].
  cbn [escape]. by rewrite read_string_escape_char, IH.
Qed.

Section value_induction.
Variable P : value → Prop.
Hypothesis Hundefined : P VUndefined.
Hypothesis Hnull : P VNull.
Hypothesis Hbool : ∀ b, P (VBool b).
Hypothesis Hnum : ∀ n, P (VNum n).
Hypothesis Hstr : ∀ s, P (VStr s).
Hypothesis Harr : ∀ elems named, Forall P elems → P (VArr elems named).
Hypothesis Hobj : ∀ fields, Forall (λ m, P m.2) fields → P (VObj fields).

Fixpoint value_nested_ind (v : value) : P v :=
  match v with
  | VUndefined => Hundefined
  | VNull => Hnull
  | VBool b => Hbool b
  | VNum n => Hnum n
  | VStr s => Hstr s
  | VArr elems named =>
      Harr elems named
        ((fix go (l : list value) : Forall P l :=
            match l with
            | [] => List.Forall_nil P
            | x :: l' => @List.Forall_cons _ P x l' (value_nested_ind x) (go l')
            end) elems)
  | VObj fields =>
      Hobj fields
        ((fix go (l : list (string * value)) : Forall (λ m, P m.2) l :=
            match l with
            | [] => List.Forall_nil _
            | (key, x) :: l' =>
                @List.Forall_cons _ (λ m, P m.2) (key, x) l' (value_nested_ind x) (go l')
            end) fields)
  end.
End value_induction.

Lemma skip_ws_head c s : is_ws c = false → skip_ws (String c s) = String c s.
Proof. intros Hc. cbn [skip_ws]. by rewrite Hc. Qed.

Lemma is_digit_not_ws c : is_digit c = true → is_ws c = false.
Proof.
  intros Hc. unfold is_ws.
  by rewrite !(is_digit_code c _ Hc) by lia.
Qed.

Lemma print_number_head q k :
  ∃ c rest, print_number (Num q) k = String c rest ∧ (is_digit c || is_code 45 c) = true.
Proof.
  unfold print_number.
  destruct (Qnum (Qred q) <? 0)%Z.
  - by eexists _, _.
  - edestruct print_digits_head as (c & rest & Hprint & Hc); last first.
    { unfold print_nat. rewrite Hprint. eexists _, _. split; [done|]. by rewrite Hc. }
    apply Z.div_pos; [|done]. apply Z.div_pos; [|done].
    apply Z.mul_nonneg_nonneg; [apply Z.abs_nonneg|done].
Qed.

Lemma number_head_codes c :
  (is_digit c || is_code 45 c) = true →
  is_ws c = false ∧ is_code 34 c = false ∧ is_code 91 c = false
  ∧ is_code 123 c = false ∧ is_code 93 c = false.
Proof.
  intros Hc. apply orb_true_iff in Hc as [Hc|Hc].
  - rewrite (is_digit_not_ws c Hc). by rewrite !(is_digit_code c _ Hc) by lia.
  - unfold is_code in Hc. apply Nat.eqb_eq in Hc. unfold is_ws, is_code. by rewrite Hc.
Qed.

Lemma parse_value_number fuel c rest :
  (is_digit c || is_code 45 c) = true →
  parse_value (S fuel) (String c rest)
  = ('(q, rest') ← read_decimal (String c rest); Some (VNum (Num q), rest')).
Proof.
  intros Hc. destruct (number_head_codes c Hc) as (Hws & H34 & H91 & H123 & _).
  cbn [parse_value]. rewrite (skip_ws_head _ _ Hws). by rewrite H34, H91, H123, Hc.
Qed.

Lemma parse_value_string fuel rest :
  parse_value (S fuel) (String dquote rest)
  = ('(str, rest') ← read_string rest; Some (VStr str, rest')).
Proof. reflexivity. Qed.

Lemma parse_value_array fuel rest c s :
  skip_ws rest = String c s → is_code 93 c = false →
  parse_value (S fuel) (String "[" rest)
  = ('(elems, r) ← parse_elements fuel rest; Some (VArr elems [], r)).
Proof.
  intros Hrest Hc.
  transitivity (match skip_ws rest with
                | String c' rest' =>
                    if is_code 93 c' then Some (VArr [] [], rest')
                    else '(elems, r) ← parse_elements fuel rest; Some (VArr elems [], r)
                | EmptyString => None
                end); [reflexivity|].
  by rewrite Hrest, Hc.
Qed.

Lemma parse_value_object fuel rest c s :
  skip_ws rest = String c s → is_code 125 c = false →
  parse_value (S fuel) (String "{" rest)
  = ('(members, r) ← parse_members fuel rest;
     Some (VObj (fold_left (fun fields m => set_field m.1 m.2 fields) members []), r)).
Proof.
  intros Hrest Hc.
  transitivity (match skip_ws rest with
                | String c' rest' =>
                    if is_code 125 c' then Some (VObj [], rest')
                    else
                      '(members, r) ← parse_members fuel rest;
                      Some (VObj (fold_left (fun fields m => set_field m.1 m.2 fields)
                                    members []), r)
                | EmptyString => None
                end); [reflexivity|].
  by rewrite Hrest, Hc.
Qed.

Lemma parse_elements_S fuel s :
  parse_elements (S fuel) s
  = ('(x, rest) ← parse_value fuel s;
     match skip_ws rest with
     | String c rest' =>
         if is_code 44 c then
           '(elems, rest'') ← parse_elements fuel rest';
           Some (x :: elems, rest'')
         else if is_code 93 c then Some ([x], rest')
         else None
     | EmptyString => None
     end).
Proof. reflexivity. Qed.

Lemma parse_member fuel key rest :
  parse_members (S fuel) (quote key (String ":" rest))
  = ('(x, rest3) ← parse_value fuel rest;
     match skip_ws rest3 with
     | String c3 rest4 =>
         if is_code 44 c3 then
           '(members, rest5) ← parse_members fuel rest4;
           Some ((key, x) :: members, rest5)
         else if is_code 125 c3 then Some ([(key, x)], rest4)
         else None
     | EmptyString => None
     end).
Proof.
  transitivity ('(key', rest1) ← read_string (escape key (String dquote (String ":" rest)));
                match skip_ws rest1 with
                | String c1 rest2 =>
                    if is_code 58 c1 then
                      '(x, rest3) ← parse_value fuel rest2;
                      match skip_ws rest3 with
                      | String c3 rest4 =>
                          if is_code 44 c3 then
                            '(members, rest5) ← parse_members fuel rest4;
                            Some ((key', x) :: members, rest5)
                          else if is_code 125 c3 then Some ([(key', x)], rest4)
                          else None
                      | EmptyString => None
                      end
                    else None
                | EmptyString => None
                end); [reflexivity|].
  by rewrite read_string_quote.
Qed.

(** Every printed value starts with a character that is neither white
    space nor a closing bracket. *)
Lemma print_head v k :
  ∃ c s, print v k = String c s ∧ is_ws c = false ∧ is_code 93 c = false.
Proof.
  destruct v as [| |[]|[q|]|s|elems named|fields]; try by eexists _, _.
  destruct (print_number_head q k) as (c & rest & Hprint & Hc).
  destruct (number_head_codes c Hc) as (Hws & _ & _ & _ & H93).
  exists c, rest. by rewrite <- Hprint.
Qed.

Lemma json_defined v : json v = true → is_undefined v = false.
Proof. by destruct v. Qed.

Lemma parse_elements_print l :
  Forall reads_back l → forallb json l = true →
  ∀ x fuel k,
    reads_back x → json x = true →
    (S (size x + sum_sizes size l) ≤ fuel)%nat → stops_number k = true →
    parse_elements fuel (print x (print_elements print l (String "]" k)))
    = Some (x :: l, k).
Proof.
  induction 1 as [|y l Hy _ IH]; intros Hjson x fuel k Hx Hjx Hfuel Hk;
    (destruct fuel as [|fuel]; [lia|]); rewrite parse_elements_S;
    cbn [print_elements sum_sizes] in *.
  - rewrite Hx by (done || lia). done.
  - apply andb_true_iff in Hjson as [Hjy Hjson].
    rewrite Hx by (done || lia). cbn [mbind option_bind].
    change (skip_ws (String "," ?s)) with (String "," s). cbn iota.
    change (is_code 44 ",") with true. cbn iota.
    rewrite IH by (done || lia). done.
Qed.

Lemma parse_members_print l :
  Forall (λ m, reads_back m.2) l → forallb (fun m => json m.2) l = true →
  ∀ key x fuel k,
    reads_back x → json x = true →
    (S (size x + sum_sizes (fun m => size m.2) l) ≤ fuel)%nat → stops_number k = true →
    parse_members fuel (quote key (String ":" (print x (print_members print l (String "}" k)))))
    = Some ((key, x) :: l, k).
Proof.
  induction 1 as [|[key' y] l Hy _ IH]; intros Hjson key x fuel k Hx Hjx Hfuel Hk;
    (destruct fuel as [|fuel]; [lia|]); rewrite parse_member;
    cbn [print_members sum_sizes] in *.
  - rewrite Hx by (done || lia). done.
  - apply andb_true_iff in Hjson as [Hjy Hjson]. cbn [snd] in *.
    rewrite (json_defined y Hjy).
    rewrite Hx by (done || lia). cbn [mbind option_bind].
    change (skip_ws (String "," ?s)) with (String "," s). cbn iota.
    change (is_code 44 ",") with true. cbn iota.
    rewrite IH by (done || lia). done.
Qed.

Lemma unique_keys_NoDup keys : unique_keys keys = true ↔ NoDup keys.
Proof.
  induction keys as [|k keys IH]; cbn [unique_keys].
  - split; [constructor|done].
  - rewrite andb_true_iff, negb_true_iff, IH, NoDup_cons.
    assert (existsb (String.eqb k) keys = false ↔ k ∉ keys) as ->; [|done].
    rewrite <- not_true_iff_false, existsb_exists. split.
    + intros Hnot Hin. apply Hnot. exists k. split; [by apply list_elem_of_In|].
      apply String.eqb_refl.
    + intros Hnot (k' & Hin & Heq). apply String.eqb_eq in Heq as <-.
      by apply Hnot, list_elem_of_In.
Qed.

Lemma set_field_fresh k x fields :
  k ∉ map fst fields → set_field k x fields = (fields ++ [(k, x)])%list.
Proof.
  induction fields as [|[k' x'] fields IH]; [done|].
  cbn [map fst]. rewrite not_elem_of_cons. intros [Hne Hnot].
  cbn [set_field]. apply String.eqb_neq in Hne. rewrite Hne.
  cbn [app]. by rewrite IH.
Qed.

Lemma fold_set_field_unique members acc :
  NoDup (map fst (acc ++ members)) →
  fold_left (fun fields m => set_field m.1 m.2 fields) members acc = (acc ++ members)%list.
Proof.
  revert acc. induction members as [|[k x] members IH]; intros acc Hnodup; cbn [fold_left].
  - by rewrite app_nil_r.
  - rewrite set_field_fresh.
    + rewrite IH by by rewrite <- app_assoc. by rewrite <- app_assoc.
    + rewrite map_app in Hnodup. apply NoDup_app in Hnodup as (_ & Hdisjoint & _).
      intros Hin. apply (Hdisjoint k Hin). cbn [map fst]. apply elem_of_cons. by left.
Qed.

Lemma print_reads_back v : reads_back v.
Proof.
  induction v as [| |b|n|s|elems named IH|fields IH] using value_nested_ind;
    intros Hjson fuel k Hfuel Hk;
    (destruct fuel as [|fuel]; [cbn [size] in Hfuel; lia|]).
  - discriminate.
  - reflexivity.
  - by destruct b.
  - destruct n as [q|]; [|discriminate]. cbn [print json] in *.
    destruct (print_number_head q k) as (c & rest & Hprint & Hc).
    rewrite Hprint, (parse_value_number _ _ _ Hc), <- Hprint.
    by rewrite read_decimal_print_number.
  - cbn [print]. unfold quote. by rewrite parse_value_string, read_string_quote.
  - cbn [json] in Hjson. destruct named; [|discriminate].
    destruct elems as [|x l]; [reflexivity|].
    cbn [print size sum_sizes forallb] in *.
    apply andb_true_iff in Hjson as [Hjx Hjson].
    apply Forall_cons in IH as [Hx Hl].
    destruct (print_head x (print_elements print l (String "]" k)))
      as (c & s & Hprint & Hws & H93).
    rewrite (parse_value_array fuel _ c s) by (by rewrite Hprint, skip_ws_head || done).
    rewrite parse_elements_print by (done || lia). done.
  - cbn [json] in Hjson. apply andb_true_iff in Hjson as [Hkeys Hjson].
    destruct fields as [|[key x] l]; [reflexivity|].
    cbn [print print_first_member size sum_sizes forallb snd] in *.
    apply andb_true_iff in Hjson as [Hjx Hjson].
    apply Forall_cons in IH as [Hx Hl]. cbn [snd] in Hx.
    rewrite (json_defined x Hjx).
    rewrite (parse_value_object fuel _ dquote
               (escape key (String dquote
                  (String ":" (print x (print_members print l (String "}" k)))))))
      by done.
    rewrite parse_members_print by (done || lia). cbn [mbind option_bind].
    rewrite fold_set_field_unique; [done|].
    by apply unique_keys_NoDup.
Qed.

Lemma escape_char_length c k :
  (String.length k < String.length (escape_char c k))%nat.
Proof.
  unfold escape_char.
  repeat (match goal with |- context [if ?b then _ else _] => destruct b end);
    cbn [String.length]; lia.
Qed.

Lemma escape_length s k : (String.length k ≤ String.length (escape s k))%nat.
Proof.
  induction s as [|c s IH]; cbn [escape]; [done|].
  pose proof (escape_char_length c (escape s k)). lia.
Qed.

Lemma quote_length s k : (2 + String.length k ≤ String.length (quote s k))%nat.
Proof.
  unfold quote. cbn [String.length].
  pose proof (escape_length s (String dquote k)) as Hlen.
  cbn [String.length] in Hlen. lia.
Qed.

Lemma print_fixed_length places m k :
  (String.length k ≤ String.length (print_fixed places m k))%nat.
Proof.
  revert m k. induction places as [|places IH]; intros m k; cbn [print_fixed]; [done|].
  etransitivity; [|apply IH]. cbn [String.length]. lia.
Qed.

Lemma print_digits_length fuel n k :
  (String.length k < String.length (print_digits fuel n k))%nat.
Proof.
  revert n k. induction fuel as [|fuel IH]; intros n k; cbn [print_digits].
  - cbn [String.length]. lia.
  - destruct (n <? 10)%Z; [cbn [String.length]; lia|].
    eapply Nat.lt_trans; [|apply IH]. cbn [String.length]. lia.
Qed.

Lemma print_number_length q k :
  (1 + String.length k ≤ String.length (print_number (Num q) k))%nat.
Proof.
  unfold print_number, print_nat.
  match goal with
  | |- context [print_fixed ?p ?m k] => pose proof (print_fixed_length p m k)
  end.
  match goal with
  | |- context [print_digits ?f ?n ?K] => pose proof (print_digits_length f n K) as Hlen
  end.
  destruct (_ =? 0)%nat, (_ <? 0)%Z; cbn [String.length] in *; lia.
Qed.

Lemma print_elements_length l k :
  Forall fits l → forallb json l = true →
  (sum_sizes size l + String.length k ≤ String.length (print_elements print l k))%nat.
Proof.
  induction 1 as [|x l Hx _ IH]; cbn [print_elements sum_sizes forallb]; [done|].
  intros Hjson. apply andb_true_iff in Hjson as [Hjx Hjson].
  pose proof (Hx Hjx (print_elements print l k)). specialize (IH Hjson).
  cbn [String.length]. lia.
Qed.

Lemma print_members_length l k :
  Forall (λ m, fits m.2) l → forallb (fun m => json m.2) l = true →
  (sum_sizes (fun m => size m.2) l + String.length k
   ≤ String.length (print_members print l k))%nat.
Proof.
  induction 1 as [|[key x] l Hx _ IH]; cbn [print_members sum_sizes forallb snd]; [done|].
  intros Hjson. apply andb_true_iff in Hjson as [Hjx Hjson]. cbn [snd] in *.
  rewrite (json_defined x Hjx).
  pose proof (Hx Hjx (print_members print l k)). specialize (IH Hjson).
  pose proof (quote_length key (String ":" (print x (print_members print l k)))) as Hq.
  cbn [String.length] in *. lia.
Qed.

Lemma print_fits v : fits v.
Proof.
  induction v as [| |b|n|s|elems named IH|fields IH] using value_nested_ind;
    intros Hjson k.
  - discriminate.
  - cbv [print String.append]. cbn [String.length size]. lia.
  - destruct b; cbv [print String.append]; cbn [String.length size]; lia.
  - destruct n as [q|]; [|discriminate]. cbn [print size].
    pose proof (print_number_length q k). lia.
  - cbn [print size]. pose proof (quote_length s k). lia.
  - cbn [json] in Hjson. destruct named; [|discriminate].
    destruct elems as [|x l]; [cbn; lia|].
    cbn [print size sum_sizes forallb String.length] in *.
    apply andb_true_iff in Hjson as [Hjx Hjson].
    apply Forall_cons in IH as [Hx Hl].
    pose proof (Hx Hjx (print_elements print l (String "]" k))).
    pose proof (print_elements_length l (String "]" k) Hl Hjson) as Hlen.
    cbn [String.length] in Hlen. lia.
  - cbn [json] in Hjson. apply andb_true_iff in Hjson as [_ Hjson].
    destruct fields as [|[key x] l]; [cbn; lia|].
    cbn [print print_first_member size sum_sizes forallb String.length snd] in *.
    apply andb_true_iff in Hjson as [Hjx Hjson].
    apply Forall_cons in IH as [Hx Hl]. cbn [snd] in Hx.
    rewrite (json_defined x Hjx).
    pose proof (Hx Hjx (print_members print l (String "}" k))).
    pose proof (print_members_length l (String "}" k) Hl Hjson) as Hlen.
    pose proof (quote_length key (String ":" (print x (print_members print l (String "}" k)))))
      as Hq.
    cbn [String.length] in *. lia.
Qed.

(** The printer and the reader of the reference host round-trip every
    JSON value. *)
Lemma parse_stringify v :
  json v = true → stringify v ≠ "" ∧ parse (stringify v) = Return v.
Proof.
  intros Hjson. split.
  - unfold stringify. by destruct (print_head v "") as (c & s & -> & _).
  - unfold parse, stringify.
    rewrite (print_reads_back v Hjson); [done| |done].
    pose proof (print_fits v Hjson "") as Hlen. cbn [String.length] in Hlen. lia.
Qed.

Lemma print_elements_written l k :
  Forall (λ x, ∀ k, print x k = print (written x) k) l →
  print_elements print l k = print_elements print (map written l) k.
Proof.
  induction 1 as [|x l Hx _ IH]; cbn [print_elements map]; [done|].
  by rewrite Hx, IH.
Qed.

Lemma print_members_written l k :
  Forall (λ m, ∀ k, print m.2 k = print (written m.2) k) l →
  print_members print l k = print_members print (written_fields written l) k.
Proof.
  induction 1 as [|[key x] l Hx _ IH]; cbn [print_members written_fields]; [done|].
  cbn [snd] in Hx. destruct (is_undefined x) eqn:Hundef; [done|].
  cbn [print_members].
  assert (is_undefined (written x) = false) as -> by (by destruct x as [| | |[]| | |]).
  by rewrite Hx, IH.
Qed.

Lemma print_first_member_written l k :
  Forall (λ m, ∀ k, print m.2 k = print (written m.2) k) l →
  print_first_member print l k = print_first_member print (written_fields written l) k.
Proof.
  induction 1 as [|[key x] l Hx Hl IH]; cbn [print_first_member written_fields]; [done|].
  cbn [snd] in Hx. destruct (is_undefined x) eqn:Hundef; [done|].
  cbn [print_first_member].
  assert (is_undefined (written x) = false) as -> by (by destruct x as [| | |[]| | |]).
  by rewrite Hx, (print_members_written l k Hl).
Qed.

(** The printer does not tell a value from what is written of it. *)
Lemma print_written v k : print v k = print (written v) k.
Proof.
  revert k.
  induction v as [| |b|n|s|elems named IH|fields IH] using value_nested_ind; intros k;
    try done.
  - by destruct n.
  - cbn [written print]. destruct elems as [|x l]; [done|].
    apply Forall_cons in IH as [Hx Hl]. cbn [map].
    by rewrite Hx, (print_elements_written l _ Hl).
  - cbn [written print]. by rewrite (print_first_member_written fields _ IH).
Qed.

Lemma written_json v : json v = true → written v = v.
Proof.
  induction v as [| |b|n|s|elems named IH|fields IH] using value_nested_ind;
    intros Hjson; try done.
  - by destruct n.
  - cbn [json] in Hjson. destruct named; [|discriminate]. cbn [written]. f_equal.
    induction IH as [|x l Hx _ IHl]; [done|].
    cbn [forallb map] in *. apply andb_true_iff in Hjson as [Hjx Hjson].
    by rewrite Hx, IHl.
  - cbn [json] in Hjson. apply andb_true_iff in Hjson as [_ Hjson].
    cbn [written]. f_equal.
    induction IH as [|[key x] l Hx _ IHl]; [done|].
    cbn [forallb written_fields snd] in *. apply andb_true_iff in Hjson as [Hjx Hjson].
    by rewrite (json_defined x Hjx), Hx, IHl.
Qed.

(** Reading back the text of a value gives what is written of it. *)
Lemma parse_stringify_written v :
  json (written v) = true → stringify v ≠ "" ∧ parse (stringify v) = Return (written v).
Proof.
  intros Hjson. unfold stringify. rewrite print_written.
  by apply parse_stringify.
Qed.

Lemma written_cart_record_fields c :
  let restored := written (cart_record c) in
  prop restored "id" = written_field (prop c "id")
  ∧ prop restored "items" = written_field (prop c "items")
  ∧ prop restored "total" = written_field (prop c "total")
  ∧ prop restored "checkoutUrl" = written_field (prop c "checkoutUrl").
Proof.
  unfold cart_record, written_field. cbn [written written_fields].
  by destruct (is_undefined (prop c "id")), (is_undefined (prop c "items")),
       (is_undefined (prop c "total")), (is_undefined (prop c "checkoutUrl")).
Qed.

Lemma json_cart_record (c : value) :
  json (cart_record c)
  = json (prop c "id") && (json (prop c "items")
    && (json (prop c "total") && (json (prop c "checkoutUrl") && true))).
Proof. reflexivity. Qed.

(** *** Values that read the same after the round trip *)

Lemma decimal_whole (z : Z) : decimal (inject_Z z) = true.
Proof.
  unfold decimal.
  assert (Hred : Qred (inject_Z z) = inject_Z z).
  { unfold Qred, inject_Z.
    pose proof (Z.ggcd_gcd z 1) as Hg. pose proof (Z.ggcd_correct_divisors z 1) as Hd.
    destruct (Z.ggcd z 1) as [g [aa bb]]. cbn [fst snd] in *.
    rewrite Z.gcd_1_r in Hg. subst g. destruct Hd as [Ha Hb].
    rewrite Z.mul_1_l in Ha, Hb. by subst. }
  rewrite Hred, Z.eqb_refl, Pos.eqb_refl. cbn [andb].
  apply bool_decide_eq_true. exists 0%nat.
  cbn [decimal_places inject_Z Qnum Qden]. by rewrite Z.rem_1_r.
Qed.



Lemma lookup_field_readable k fields :
  forallb (fun m => is_undefined m.2 || storable m.2) fields = true →
  readable (lookup_field k fields) = true.
Proof.
  induction fields as [|[key x] fields IH]; [done|].
  cbn [forallb lookup_field snd]. intros [Hx Hall]%andb_true_iff.
  destruct (String.eqb k key); [done|by apply IH].
Qed.

Lemma element_readable i l :
  forallb storable l = true → readable (default VUndefined (l !! i)) = true.
Proof.
  revert i. induction l as [|x l IH]; intros i; [by destruct i|].
  cbn [forallb]. intros [Hx Hall]%andb_true_iff.
  destruct i as [|i]; cbn.
  - unfold readable. by rewrite Hx, orb_true_r.
  - by apply IH.
Qed.

(** What a read finds in a storable value is storable or [undefined]. *)
Lemma read_readable v s : readable v = true → readable (read v s) = true.
Proof.
  unfold readable at 1. destruct v as [| | |n|str|elems named|fields]; cbn [is_undefined orb].
  - by destruct s.
  - by destruct s.
  - by destruct s.
  - by destruct s.
  - intros _. destruct s as [k|i]; cbn [read prop].
    + destruct (String.eqb k "length"); [|done].
      unfold readable. cbn [is_undefined orb storable].
      apply (decimal_whole (Z.of_nat (String.length str))).
    + by destruct (String.get i str).
  - cbn [storable]. destruct named; [|discriminate]. intros Hall.
    destruct s as [k|i]; cbn [read prop].
    + destruct (String.eqb k "length"); [|done].
      unfold readable. cbn [is_undefined orb storable].
      apply (decimal_whole (Z.of_nat (length elems))).
    + by apply element_readable.
  - cbn [storable]. intros [_ Hall]%andb_true_iff.
    destruct s as [k|i]; cbn [read prop]; by apply lookup_field_readable.
Qed.












(** The values of JSON are storable. *)
Lemma json_storable v : json v = true → storable v = true.
Proof.
  induction v as [| | | [q|] | |elems named IH|fields IH] using value_nested_ind;
    cbn [storable json]; try done.
  - destruct named; [|discriminate]. intros Hall.
    induction IH as [|x l Hx _ IHl]; [done|].
    cbn [forallb] in *. apply andb_true_iff in Hall as [Hjx Hall].
    by rewrite Hx, IHl.
  - intros [Hunique Hall]%andb_true_iff. rewrite Hunique. cbn [andb].
    clear Hunique. induction IH as [|[key x] l Hx _ IHl]; [done|].
    cbn [forallb snd] in *. apply andb_true_iff in Hall as [Hjx Hall].
    by rewrite Hx, IHl, orb_true_r.
Qed.


End ReferenceJSON.

(** ** Cart State Store *)

Section Store.
Context `{Host}.

Lemma renderCart_state st :
  cart (renderCart st).1 = cart st
  ∧ localStorage (renderCart st).1 = localStorage st
  ∧ isCheckingOut (renderCart st).1 = isCheckingOut st.
Proof. unfold renderCart. by destruct (obind _ _). Qed.

Lemma updateCartCount_state st :
  cart (updateCartCount st).1 = cart st
  ∧ localStorage (updateCartCount st).1 = localStorage st
  ∧ isCheckingOut (updateCartCount st).1 = isCheckingOut st.
Proof. unfold updateCartCount. by destruct (obind _ _). Qed.

Lemma saveCartToStorage_Return st :
  nullish (cart st) = false →
  saveCartToStorage st
  = (with_localStorage
       (<["shopify-cart" := JSON_stringify (cart_record (cart st))]> (localStorage st)) st,
     Return tt).
Proof. unfold saveCartToStorage. by intros ->. Qed.

Lemma nonempty_truthy (s : string) : s ≠ "" → ToBoolean (VStr s) = true.
Proof. intros Hs. simpl. by apply negb_true_iff, String.eqb_neq. Qed.

(** Restoring a record that parses installs the parsed value as the cart,
    whether or not the renderers accept it. *)
Lemma loadCartFromStorage_parsed st saved cartData :
  localStorage st !! "shopify-cart" = Some saved →
  saved ≠ "" →
  JSON_parse saved = Return cartData →
  cart (loadCartFromStorage st).1 = cartData
  ∧ (loadCartFromStorage st).2 = Return tt.
Proof.
  intros Hsaved Hne Hparse. unfold loadCartFromStorage.
  rewrite Hsaved, (nonempty_truthy _ Hne).
  unfold try_catch, bind, lift. rewrite Hparse.
  pose proof (renderCart_state (with_cart cartData st)) as (Hr & _).
  destruct (renderCart (with_cart cartData st)) as [st1 [[]|e]]; simpl in Hr.
  - pose proof (updateCartCount_state st1) as (Hu & _).
    destruct (updateCartCount st1) as [st2 [[]|e]]; simpl in Hu; simpl.
    + by rewrite Hu, Hr.
    + by rewrite Hu, Hr.
  - simpl. by rewrite Hr.
Qed.

(** Restoring a record that does not parse: the exception is caught, the
    record is removed, the cart is not touched and nothing but a console
    warning is emitted. *)
Lemma loadCartFromStorage_malformed st saved e :
  localStorage st !! "shopify-cart" = Some saved →
  saved ≠ "" →
  JSON_parse saved = Throw e →
  loadCartFromStorage st
  = (with_localStorage (delete "shopify-cart" (localStorage st))
       (with_event (ConsoleWarn "Failed to load cart from storage:" e) st),
     Return tt).
Proof.
  intros Hsaved Hne Hparse. unfold loadCartFromStorage.
  rewrite Hsaved, (nonempty_truthy _ Hne).
  unfold try_catch, bind, lift. by rewrite Hparse.
Qed.

(** An empty string under the key does not pass [if (saved)]: nothing is
    parsed and the record stays. *)
Lemma loadCartFromStorage_empty_record st :
  localStorage st !! "shopify-cart" = Some "" → loadCartFromStorage st = (st, Return tt).
Proof. intros Hsaved. unfold loadCartFromStorage. by rewrite Hsaved. Qed.

Lemma loadCartFromStorage_absent st :
  localStorage st !! "shopify-cart" = None → loadCartFromStorage st = (st, Return tt).
Proof. intros Hsaved. unfold loadCartFromStorage. by rewrite Hsaved. Qed.

(** The constructor of [ShopifyIntegration] has no handler around
    [JSON.parse]: the exception of a record that does not parse leaves the
    constructor. *)
Lemma constructor_cart_malformed (storage : gmap string string) saved e :
  storage !! "shopify-cart" = Some saved →
  JSON_parse saved = Throw e →
  ShopifyIntegration.constructor_cart storage = Throw e.
Proof.
  intros Hsaved Hparse. unfold ShopifyIntegration.constructor_cart.
  by rewrite Hsaved, Hparse.
Qed.

End Store.

(** ** The carts the reconciler builds are storable *)

Section StorableCarts.
Context `{Host}.
Import ReferenceHost.

Lemma storable_readable v : storable v = true → readable v = true.
Proof. intros Hv. unfold readable. by rewrite Hv, orb_true_r. Qed.

Lemma readable_storable v : readable v = true → nullish v = false → storable v = true.
Proof. by destruct v. Qed.

Lemma prop_readable v k : storable v = true → readable (prop v k) = true.
Proof. intros Hv. apply (read_readable v (Field k)). by apply storable_readable. Qed.

Lemma get_storable v k x :
  storable v = true → get v k = Return x → readable x = true.
Proof.
  unfold get. intros Hv. destruct (nullish v); [discriminate|].
  intros [= <-]. by apply prop_readable.
Qed.

Lemma existsb_set_field j k x fields :
  existsb (String.eqb j) (map fst (set_field k x fields))
  = existsb (String.eqb j) (map fst fields) || String.eqb j k.
Proof.
  induction fields as [|[k' x'] fields IH]; cbn [set_field map fst existsb].
  - by rewrite orb_false_r.
  - destruct (String.eqb k k') eqn:Hk.
    + apply String.eqb_eq in Hk as ->. cbn [map fst existsb].
      destruct (String.eqb j k'); cbn [orb]; [done|by rewrite orb_false_r].
    + cbn [map fst existsb]. rewrite IH. by rewrite orb_assoc.
Qed.

Lemma unique_set_field k x fields :
  unique_keys (map fst fields) = true → unique_keys (map fst (set_field k x fields)) = true.
Proof.
  induction fields as [|[k' x'] fields IH]; [done|].
  cbn [set_field map fst unique_keys].
  intros [Hfresh Hunique]%andb_true_iff.
  destruct (String.eqb k k') eqn:Hk.
  - apply String.eqb_eq in Hk as ->. cbn [map fst unique_keys]. by rewrite Hfresh, Hunique.
  - cbn [map fst unique_keys]. rewrite (IH Hunique), existsb_set_field.
    apply negb_true_iff in Hfresh. rewrite Hfresh. cbn [orb].
    by rewrite String.eqb_sym, Hk.
Qed.

Lemma forallb_set_field (P : string * value → bool) k x fields :
  forallb P fields = true → P (k, x) = true → forallb P (set_field k x fields) = true.
Proof.
  intros Hall Hx. induction fields as [|[k' x'] fields IH]; cbn [set_field forallb].
  - by rewrite Hx.
  - cbn [forallb] in Hall. apply andb_true_iff in Hall as [Hx' Hall].
    destruct (String.eqb k k'); cbn [forallb].
    + by rewrite Hx, Hall.
    + by rewrite Hx', IH.
Qed.

Lemma set_field_storable k x fields :
  storable (VObj fields) = true → readable x = true →
  storable (VObj (set_field k x fields)) = true.
Proof.
  cbn [storable]. intros [Hunique Hall]%andb_true_iff Hx.
  rewrite (unique_set_field k x fields Hunique). cbn [andb].
  by apply forallb_set_field.
Qed.

Lemma spread_storable v : storable v = true → storable (VObj (spread v)) = true.
Proof. by destruct v. Qed.

(** The variant the reconciler stores for a line of a JSON answer. *)
Lemma variant_of_storable merchandise :
  storable merchandise = true → storable (variant_of merchandise) = true.
Proof.
  intros Hm. unfold variant_of. cbn [fold_left].
  repeat (apply set_field_storable; [|by apply prop_readable]).
  by apply spread_storable.
Qed.

Lemma line_of_edge_storable edge item :
  storable edge = true →
  line_of_edge edge = Return item →
  storable (prop item "price") = true →
  storable item = true.
Proof.
  intros Hedge. unfold line_of_edge.
  destruct (get edge "node") as [node|] eqn:Hnode; [|discriminate]. cbn [obind].
  pose proof (get_storable _ _ _ Hedge Hnode) as Hrn.
  destruct (get node "merchandise") as [merchandise|] eqn:Hmerchandise; [|discriminate].
  cbn [obind].
  assert (Hsn : storable node = true).
  { apply readable_storable; [done|]. unfold get in Hmerchandise.
    by destruct (nullish node). }
  pose proof (get_storable _ _ _ Hsn Hmerchandise) as Hrm.
  destruct (get merchandise "availableForSale") as [flag|] eqn:Hflag; [|discriminate].
  cbn [obind].
  assert (Hsm : storable merchandise = true).
  { apply readable_storable; [done|]. unfold get in Hflag.
    by destruct (nullish merchandise). }
  destruct (get merchandise "priceV2") as [priceV2|]; [|discriminate]. cbn [obind].
  destruct (get priceV2 "amount") as [amount|]; [|discriminate]. cbn [obind].
  intros [= <-]. cbn [prop lookup_field String.eqb Ascii.eqb Bool.eqb andb].
  intros Hprice.
  change (storable (VObj ?fields))
    with (unique_keys (map fst fields)
          && forallb (fun m => is_undefined m.2 || storable m.2) fields).
  cbn [map fst forallb snd].
  change (unique_keys ["id"; "quantity"; "variant"; "price"]) with true.
  fold (readable (prop node "id")). fold (readable (prop node "quantity")).
  rewrite (prop_readable node "id" Hsn), (prop_readable node "quantity" Hsn).
  rewrite (variant_of_storable merchandise Hsm), Hprice.
  by rewrite !orb_true_r.
Qed.

Lemma lines_storable l items :
  forallb storable l = true →
  array_map line_of_edge l = Return items →
  forallb (fun item => storable (prop item "price")) items = true →
  forallb storable items = true.
Proof.
  revert items. induction l as [|edge l IH]; intros items Hl.
  - by intros [= <-].
  - cbn [forallb] in Hl. apply andb_true_iff in Hl as [Hedge Hl]. cbn [array_map].
    destruct (line_of_edge edge) as [item|] eqn:Hitem; [|discriminate]. cbn [obind].
    destruct (array_map line_of_edge l) as [rest|]; [|discriminate]. cbn [obind].
    intros [= <-]. cbn [forallb]. intros [Hprice Hrest]%andb_true_iff.
    by rewrite (line_of_edge_storable edge item Hedge Hitem Hprice), (IH rest Hl eq_refl Hrest).
Qed.

(** The cart reconciled from a JSON answer is storable when its prices
    and its total are decimal numbers: everything else in it is a value
    of the answer, or [undefined] where the answer has none. *)
Lemma reconciled_cart_storable cartData st st' :
  json cartData = true →
  readable (prop (cart st) "id") = true →
  updateCartFromResponse cartData st = (st', Return tt) →
  priced (cart st') = true →
  storable (cart_record (cart st')) = true.
Proof.
  intros Hjson%json_storable Hid Hup Hpriced.
  destruct (updateCartFromResponse_Return _ _ _ Hup)
    as (l & named & items & total & c1 & c2 & c3 & Hc & Hlines & He & Hitems & Htotal
        & H1 & H2 & H3 & ->).
  destruct (updateCartFromResponse_fields _ _ _ Hup)
    as (_ & Hurl & l' & named' & items' & He' & Hitems' & Hstored).
  rewrite He in He'. injection He' as <- <-.
  rewrite Hitems in Hitems'. injection Hitems' as <-.
  unfold priced in Hpriced. rewrite Hstored in Hpriced.
  apply andb_true_iff in Hpriced as [Hprices Hamount].
  assert (Hedges : forallb storable l = true).
  { pose proof (prop_readable _ "lines" Hjson) as Hrl.
    pose proof (prop_readable _ "edges" (readable_storable _ Hrl Hlines)) as Hre.
    rewrite He in Hre. unfold readable in Hre. cbn [is_undefined orb storable] in Hre.
    by destruct named. }
  assert (Hkept : prop (cart (with_cart c3 st)) "id" = prop (cart st) "id").
  { cbn [cart with_cart].
    rewrite (prop_assign_ne _ "checkoutUrl" "id" _ _ ltac:(discriminate) H3).
    rewrite (prop_assign_ne _ "total" "id" _ _ ltac:(discriminate) H2).
    by rewrite (prop_assign_ne _ "items" "id" _ _ ltac:(discriminate) H1). }
  unfold cart_record.
  change (storable (VObj ?fields))
    with (unique_keys (map fst fields)
          && forallb (fun m => is_undefined m.2 || storable m.2) fields).
  cbn [map fst forallb snd].
  change (unique_keys ["id"; "items"; "total"; "checkoutUrl"]) with true.
  rewrite Hkept, Hstored, Hurl, Hamount.
  fold (readable (prop (cart st) "id")). fold (readable (prop cartData "checkoutUrl")).
  rewrite Hid, (prop_readable cartData "checkoutUrl" Hjson).
  cbn [is_undefined storable orb andb].
  rewrite (lines_storable l items Hedges Hitems Hprices).
  by rewrite !orb_true_r.
Qed.

End StorableCarts.

Section StoreExamples.
Import Examples ReferenceHost.





(** On the reference host, restoring after persisting gives what is
    written of the record, for every cart whose written record is JSON:
    each of the four fields reads as what is written of it, a field that
    held [undefined] reads [undefined] again. *)
Lemma restore_after_persist_written (st session : App) :
  nullish (cart st) = false →
  json (written (cart_record (cart st))) = true →
  localStorage session = localStorage (saveCartToStorage st).1 →
  let restored := cart (loadCartFromStorage session).1 in
  restored = written (cart_record (cart st))
  ∧ prop restored "id" = written_field (prop (cart st) "id")
  ∧ prop restored "items" = written_field (prop (cart st) "items")
  ∧ prop restored "total" = written_field (prop (cart st) "total")
  ∧ prop restored "checkoutUrl" = written_field (prop (cart st) "checkoutUrl").
Proof.
  intros Hcart Hjson Hsession restored.
  destruct (parse_stringify_written _ Hjson) as [Htext Hparse].
  rewrite (saveCartToStorage_Return _ Hcart) in Hsession. simpl in Hsession.
  assert (Hsaved : localStorage session !! "shopify-cart"
                   = Some (stringify (cart_record (cart st))))
    by (rewrite Hsession; apply lookup_insert_eq).
  destruct (loadCartFromStorage_parsed (H:=reference_host) session _ _ Hsaved Htext Hparse)
    as [Hrestored _].
  fold restored in Hrestored. split; [done|].
  rewrite Hrestored. apply written_cart_record_fields.
Qed.

(** The cart reconciled from a [cartLinesAdd] payload holds [undefined]
    under the inventory fields the payload does not carry. Its record is
    written without them; every field of the restored cart reads the same
    and the validator answers the same. *)
Lemma reconciled_cart_round_trip :
  let st := (updateCartFromResponse payload ready).1 in
  let session := constructor (localStorage (saveCartToStorage st).1) in
  let restored := (loadCartFromStorage session).1 in
  json (cart_record (cart st)) = false
  ∧ storable (cart_record (cart st)) = true
  ∧ json (written (cart_record (cart st))) = true
  ∧ cart restored = written (cart_record (cart st))
  ∧ prop (cart restored) "total" = prop (cart st) "total"
  ∧ prop (cart restored) "checkoutUrl" = prop (cart st) "checkoutUrl"
  ∧ prop (cart restored) "id" = prop (cart st) "id"
  ∧ validateCart restored = validateCart st.
Proof. repeat split; vm_compute; reflexivity. Qed.

(** The cart the constructor builds has no [checkoutUrl]: its record is
    written without that key and every field still reads the same after
    restoring. *)
Lemma constructor_cart_round_trip :
  let st := constructor ∅ in
  let restored := cart (loadCartFromStorage (constructor (localStorage (saveCartToStorage st).1))).1 in
  storable (cart_record (cart st)) = true
  ∧ restored = VObj [("id", VNull); ("items", VArr [] []); ("total", VNum (Num 0))]
  ∧ prop restored "checkoutUrl" = prop (cart st) "checkoutUrl".
Proof. repeat split; vm_compute; reflexivity. Qed.

(** C3. A record that is not JSON makes the constructor of
    [ShopifyIntegration] throw the [SyntaxError] of [JSON.parse], where
    [MultiStoreApp.loadCartFromStorage] on the same storage catches it,
    removes the record and keeps the empty cart; and an empty string,
    which is not JSON either, is left in storage by
    [loadCartFromStorage]. *)
Theorem malformed_record_at_startup :
  let storage : gmap string string := {["shopify-cart" := "{bad"]} in
  let blank : gmap string string := {["shopify-cart" := ""]} in
  JSON_parse "{bad" = Throw (SyntaxError "Unexpected token in JSON")
  ∧ ShopifyIntegration.constructor_cart storage
    = Throw (SyntaxError "Unexpected token in JSON")
  ∧ loadCartFromStorage (constructor storage)
    = (with_event (ConsoleWarn "Failed to load cart from storage:"
                     (SyntaxError "Unexpected token in JSON"))
         (constructor ∅),
       Return tt)
  ∧ JSON_parse "" = Throw (SyntaxError "Unexpected token in JSON")
  ∧ ShopifyIntegration.constructor_cart blank
    = Throw (SyntaxError "Unexpected token in JSON")
  ∧ loadCartFromStorage (constructor blank) = (constructor blank, Return tt).
Proof. repeat split; vm_compute; reflexivity. Qed.

End StoreExamples.

(** ** Checkout guard *)

Section Checkout.
Context `{Host}.

Lemma checkout_in_flight st : isCheckingOut st = true → checkout st = (st, Resolved).
Proof. unfold checkout. by intros ->. Qed.

(** With a checkout URL and a cart id, an idle [checkout] issues
    [getCart] and is suspended there; it has written nothing yet, the
    in-flight flag included. *)
Lemma checkout_suspends_at_refresh st :
  isCheckingOut st = false →
  ToBoolean (prop (cart st) "checkoutUrl") = true →
  ToBoolean (prop (cart st) "id") = true →
  checkout st
  = (st, AwaitRemote (GetCart (prop (cart st) "id"))
           (fun response st' => validate_then after_validation (refresh_cart response st').1)).
Proof.
  intros Hflag Hurl Hid. unfold checkout, validateCartWithRefresh.
  rewrite Hflag, (get_Return _ _ (prop_truthy_not_nullish _ _ Hurl)), Hurl. simpl.
  by rewrite (get_Return _ _ (prop_truthy_not_nullish _ _ Hid)), Hid.
Qed.

(** A second [checkout] while the first is suspended at the refresh finds
    the flag still unset and does what the first did. *)
Lemma checkout_again_during_refresh st :
  isCheckingOut st = false →
  ToBoolean (prop (cart st) "checkoutUrl") = true →
  ToBoolean (prop (cart st) "id") = true →
  checkout (checkout st).1 = checkout st
  ∧ pending (checkout st).2 = [GetCart (prop (cart st) "id")].
Proof.
  intros Hflag Hurl Hid. rewrite (checkout_suspends_at_refresh st Hflag Hurl Hid).
  split; [by apply checkout_suspends_at_refresh|done].
Qed.

(** Without a cart id there is nothing to refresh: an idle [checkout]
    validates the cart at once and hands control back before it goes on,
    the in-flight flag still unset, so that a second [checkout] from the
    same handler does what the first did. *)
Lemma checkout_without_cart_id st validationMessages :
  isCheckingOut st = false →
  ToBoolean (prop (cart st) "checkoutUrl") = true →
  ToBoolean (prop (cart st) "id") = false →
  validateCart st = Return validationMessages →
  checkout st = (st, AwaitTick (after_validation validationMessages))
  ∧ checkout (checkout st).1 = checkout st.
Proof.
  intros Hflag Hurl Hid Hvalid.
  assert (Hsuspended : checkout st = (st, AwaitTick (after_validation validationMessages))).
  { unfold checkout, validateCartWithRefresh.
    rewrite Hflag, (get_Return _ _ (prop_truthy_not_nullish _ _ Hurl)), Hurl. simpl.
    by rewrite (get_Return _ _ (prop_truthy_not_nullish _ _ Hurl)), Hid, Hvalid. }
  split; [done|]. by rewrite Hsuspended.
Qed.

(** Once validation has passed the flag is set, and a further [checkout]
    is a no-op. *)
Lemma checkout_guard_after_validation st :
  checkout (after_validation [] st).1 = ((after_validation [] st).1, Resolved).
Proof. by apply checkout_in_flight. Qed.

Lemma refresh_cart_failed e st :
  refresh_cart (Throw e) st
  = (with_event (ConsoleWarn "Failed to refresh cart data:" e) st, Return tt).
Proof. reflexivity. Qed.

Lemma validateCart_nil st :
  validateCart st = Return [] →
  nullish (cart st) = false
  ∧ ∃ l named, prop (cart st) "items" = VArr l named
               ∧ strict_eq (prop (VArr l named) "length") (VNum (Num 0)) = false.
Proof.
  unfold validateCart, get. intros Hv.
  destruct (nullish (cart st)); [discriminate|]. split; [done|].
  simpl in Hv. destruct (nullish (prop (cart st) "items")); [discriminate|].
  simpl in Hv. destruct (prop (cart st) "items") as [| | | | |l named|]; try discriminate.
  exists l, named. split; [done|].
  destruct (strict_eq (prop (VArr l named) "length") (VNum (Num 0))); [|done].
  destruct (array_filter invalid_item l); discriminate.
Qed.

(** With an empty validation result the body after the delay saves the
    cart and schedules the redirect. *)
Lemma redirect_after_valid_cart st :
  validateCart st = Return [] →
  settle (try_catch redirect checkout_failed) st
  = (with_event (RedirectScheduled 800)
       (with_localStorage
          (<["shopify-cart" := JSON_stringify (cart_record (cart st))]> (localStorage st))
          (with_event (ShowSuccess "Redirecting to secure checkout...") st)),
     Resolved).
Proof.
  intros Hv. destruct (validateCart_nil st Hv) as (Hcart & l & named & Hitems & Hlen).
  unfold settle, try_catch, redirect, bind, lift, ret, showSuccess, emit, saveCartToStorage.
  rewrite (get_Return _ _ Hcart), Hitems. simpl obind.
  rewrite (get_Return (VArr l named) "length" eq_refl), Hlen. simpl.
  by rewrite Hcart.
Qed.

(** C7. When the [getCart] of a checkout attempt fails, the attempt goes
    on: the failure is caught with a console warning, the cart and the
    storage stay as they were, and the validator runs on that cached
    cart. What follows depends on the validator's answer alone: if it is
    empty, the in-flight flag is set and, after the delay, the cart is
    saved and the redirect is scheduled; if not, its messages are shown. *)
Theorem checkout_proceeds_when_refresh_fails (st : App) :
  isCheckingOut st = false →
  ToBoolean (prop (cart st) "checkoutUrl") = true →
  ToBoolean (prop (cart st) "id") = true →
  ∃ refreshed,
    checkout st = (st, AwaitRemote (GetCart (prop (cart st) "id")) refreshed)
    ∧ ∀ (e : error) (st' : App),
        let cached := with_event (ConsoleWarn "Failed to refresh cart data:" e) st' in
        refreshed (Throw e) st' = validate_then after_validation cached
        ∧ cart cached = cart st'
        ∧ localStorage cached = localStorage st'
        ∧ validateCart cached = validateCart st'
        ∧ (validateCart st' = Return [] →
           ∃ delayed,
             refreshed (Throw e) st'
             = (with_event (SetCheckoutLoading true) (with_isCheckingOut true cached),
                AwaitTimeout 500 delayed)
             ∧ ∀ st'', validateCart st'' = Return [] →
                       ∃ final, delayed st'' = (final, Resolved)
                                ∧ RedirectScheduled 800 ∈ ui final)
        ∧ (∀ m msgs, validateCart st' = Return (m :: msgs) →
           refreshed (Throw e) st'
           = (with_event (ShowError (String.concat " " (m :: msgs))) cached, Resolved)).
Proof.
  intros Hflag Hurl Hid. eexists. split; [by apply checkout_suspends_at_refresh|].
  intros e st' cached. cbv beta. rewrite refresh_cart_failed. simpl fst. fold cached.
  assert (Hsame : validateCart cached = validateCart st') by by apply validateCart_cart.
  split; [done|]. split; [done|]. split; [done|]. split; [done|].
  unfold validate_then. rewrite Hsame. split.
  - intros ->. eexists. split; [reflexivity|].
    intros st'' Hv. eexists. split; [by apply redirect_after_valid_cart|].
    simpl. apply elem_of_app. right. by apply list_elem_of_singleton.
  - by intros m msgs ->.
Qed.

(** Every message the validator can put first. *)
Lemma validateCart_first_message st m msgs :
  validateCart st = Return (m :: msgs) →
  m = empty_cart_message ∨ (∃ items, m = unavailable_message items) ∨ m = total_message.
Proof.
  unfold validateCart. intros Hv.
  destruct (get (cart st) "items") as [items|]; [|discriminate]. simpl in Hv.
  destruct (get items "length") as [len|]; [|discriminate]. simpl in Hv.
  destruct items as [| | | | |l named|]; try discriminate.
  destruct (array_filter invalid_item l) as [invalidItems|]; [|discriminate].
  simpl in Hv. injection Hv as Hv.
  destruct (strict_eq len (VNum (Num 0))); simpl in Hv.
  { injection Hv as <- _. by left. }
  destruct (0 <? length invalidItems)%nat; simpl in Hv.
  { injection Hv as <- _. right. left. by eexists. }
  destruct (num_ltb _ _); simpl in Hv; [|discriminate].
  injection Hv as <- _. by right; right.
Qed.

Lemma concat_head (sep m : string) (rest : list string) :
  ∃ tail, String.concat sep (m :: rest) = m +:+ tail.
Proof.
  destruct rest as [|m' rest]; simpl.
  - exists "". induction m as [|c m IH]; [done|].
    change (String c m +:+ "") with (String c (m +:+ "")). by f_equal.
  - by eexists.
Qed.

(** What [checkout] shows for failed validation is never the message it
    shows for a missing checkout URL. *)
Lemma validation_failure_not_checkout_url_message st m msgs :
  validateCart st = Return (m :: msgs) →
  String.concat " " (m :: msgs) ≠ checkout_url_message.
Proof.
  intros Hv. destruct (concat_head " " m msgs) as [tail ->].
  destruct (validateCart_first_message st m msgs Hv) as [->|[[items ->]| ->]];
    discriminate.
Qed.

(** C9. With a checkout URL that is null or missing (or otherwise falsy)
    [checkout] ends at once: no [getCart] is issued, nothing is awaited,
    and the cart, the storage and the in-flight flag stay as they were.
    Unless a checkout is already in flight, where the call says nothing,
    the one thing it does is show the missing-URL message, which no failed
    validation can produce. *)
Theorem checkout_without_checkout_url (st : App) :
  nullish (cart st) = false →
  ToBoolean (prop (cart st) "checkoutUrl") = false →
  (checkout st).2 = Resolved
  ∧ pending (checkout st).2 = []
  ∧ cart (checkout st).1 = cart st
  ∧ localStorage (checkout st).1 = localStorage st
  ∧ isCheckingOut (checkout st).1 = isCheckingOut st
  ∧ (isCheckingOut st = false →
     checkout st = (with_event (ShowError checkout_url_message) st, Resolved))
  ∧ (∀ st' m msgs, validateCart st' = Return (m :: msgs) →
                   String.concat " " (m :: msgs) ≠ checkout_url_message).
Proof.
  intros Hcart Hurl.
  assert (Hidle : isCheckingOut st = false →
                  checkout st = (with_event (ShowError checkout_url_message) st, Resolved)).
  { intros Hflag. unfold checkout. by rewrite Hflag, (get_Return _ _ Hcart), Hurl. }
  destruct (isCheckingOut st) eqn:Hflag.
  - rewrite (checkout_in_flight st Hflag).
    repeat split; try done. intros. by eapply validation_failure_not_checkout_url_message.
  - rewrite (Hidle eq_refl).
    repeat split; try done. intros. by eapply validation_failure_not_checkout_url_message.
Qed.

End Checkout.

Section CheckoutExamples.
Import Examples ReferenceHost.

(** C2. On a cart ready for checkout, a second [checkout] issued while
    the first is suspended at its refresh is not a no-op: the in-flight
    flag is only set after the refresh, so the second call finds it
    unset and issues a [getCart] of its own. When the two refreshes
    return the remote cart, both calls pass validation, both reach the
    delay before the redirect, and two redirects are scheduled. *)
Theorem checkout_twice_during_refresh :
  let first := checkout ready in
  let second := checkout first.1 in
  let response := Return (VObj [("cart", payload)]) in
  let first_refreshed := resume_remote first.2 response second.1 in
  let second_refreshed := resume_remote second.2 response first_refreshed.1 in
  let first_done := resume_timeout first_refreshed.2 second_refreshed.1 in
  let second_done := resume_timeout second_refreshed.2 first_done.1 in
  isCheckingOut first.1 = false
  ∧ (pending first.2 ++ pending second.2)%list
    = [GetCart (VStr "gid://shopify/Cart/1"); GetCart (VStr "gid://shopify/Cart/1")]
  ∧ first_done.2 = Resolved
  ∧ second_done.2 = Resolved
  ∧ ui second_done.1
    = [SetCheckoutLoading true; SetCheckoutLoading true;
       ShowSuccess "Redirecting to secure checkout..."; RedirectScheduled 800;
       ShowSuccess "Redirecting to secure checkout..."; RedirectScheduled 800].
Proof. repeat split; vm_compute; reflexivity. Qed.

Lemma checkout_proceeds_when_refresh_fails_witness :
  isCheckingOut ready = false
  ∧ ToBoolean (prop (cart ready) "checkoutUrl") = true
  ∧ ToBoolean (prop (cart ready) "id") = true
  ∧ ∃ refreshed,
      checkout ready = (ready, AwaitRemote (GetCart (prop (cart ready) "id")) refreshed)
      ∧ ∀ e st',
          refreshed (Throw e) st'
          = validate_then after_validation
              (with_event (ConsoleWarn "Failed to refresh cart data:" e) st').
Proof.
  split; [reflexivity|]. split; [reflexivity|]. split; [reflexivity|].
  destruct (checkout_proceeds_when_refresh_fails ready eq_refl eq_refl eq_refl)
    as (refreshed & Hsuspended & Hfailed).
  exists refreshed. split; [exact Hsuspended|].
  intros e st'. exact (proj1 (Hfailed e st')).
Defined.

(** The refresh fails and the cached cart is valid: the attempt reaches
    the redirect. *)
Lemma checkout_with_failed_refresh_redirects :
  let suspended := checkout ready in
  let failed := resume_remote suspended.2 (Throw (Error "HTTP error! status: 503")) suspended.1 in
  let done := resume_timeout failed.2 failed.1 in
  done.2 = Resolved
  ∧ isCheckingOut done.1 = true
  ∧ cart done.1 = cart ready
  ∧ ui done.1
    = [ConsoleWarn "Failed to refresh cart data:" (Error "HTTP error! status: 503");
       SetCheckoutLoading true;
       ShowSuccess "Redirecting to secure checkout..."; RedirectScheduled 800].
Proof. repeat split; vm_compute; reflexivity. Qed.

Lemma checkout_without_checkout_url_witness :
  nullish (cart (constructor ∅)) = false
  ∧ ToBoolean (prop (cart (constructor ∅)) "checkoutUrl") = false
  ∧ checkout (constructor ∅)
    = (with_event (ShowError checkout_url_message) (constructor ∅), Resolved).
Proof.
  split; [reflexivity|]. split; [reflexivity|].
  exact (proj1 (proj2 (proj2 (proj2 (proj2 (proj2
           (checkout_without_checkout_url (constructor ∅) eq_refl eq_refl))))))
         eq_refl).
Defined.

End CheckoutExamples.

(** ** Cart mutations *)

Section Mutations.
Context `{Host}.

Lemma addToCart_resume_failed e st :
  addToCart_resume (Throw e) st
  = (with_event (ShowError ("Failed to add item to cart: " +:+ message e)) st, Return tt).
Proof. reflexivity. Qed.

Lemma updateQuantity_resume_failed e st :
  updateQuantity_resume (Throw e) st
  = (with_event (ShowError ("Failed to update cart: " +:+ message e)) st, Return tt).
Proof. reflexivity. Qed.

Lemma removeFromCart_resume_failed e st :
  removeFromCart_resume (Throw e) st
  = (with_event (ShowError ("Failed to remove item from cart: " +:+ message e)) st, Return tt).
Proof. reflexivity. Qed.

(** A mutation writes nothing before its remote call. *)
Lemma addToCart_suspended productId variantId st st1 r k :
  addToCart productId variantId st = (st1, AwaitRemote r k) →
  st1 = st ∧ k = (fun response => settle (addToCart_resume response)).
Proof.
  unfold addToCart, settle, addToCart_failed, showError, emit. intros Hrun.
  destruct (negb (ToBoolean (VStr variantId))); [discriminate|].
  destruct (get (cart st) "id"); [|discriminate].
  by injection Hrun as <- _ <-.
Qed.

Lemma removeFromCart_suspended lineId st st1 r k :
  removeFromCart lineId st = (st1, AwaitRemote r k) →
  st1 = st ∧ k = (fun response => settle (removeFromCart_resume response)).
Proof.
  unfold removeFromCart, settle, removeFromCart_failed, showError, emit. intros Hrun.
  destruct (get (cart st) "id"); [|discriminate].
  by injection Hrun as <- _ <-.
Qed.

Lemma updateQuantity_suspended lineId action st st1 r k :
  updateQuantity lineId action st = (st1, AwaitRemote r k) →
  st1 = st
  ∧ (k = (fun response => settle (updateQuantity_resume response))
     ∨ k = (fun response => settle (removeFromCart_resume response))).
Proof.
  unfold updateQuantity. intros Hrun.
  destruct (obind _ _) as [[line|]|]; try discriminate.
  destruct (strict_eq _ _).
  - destruct (removeFromCart_suspended _ _ _ _ _ Hrun) as [-> ->]. by split; [|right].
  - unfold settle, updateQuantity_failed, showError, emit in Hrun.
    destruct (get (cart st) "id"); [|discriminate].
    injection Hrun as <- _ <-. by split; [|left].
Qed.

(** C10. When the remote call of [addToCart], [updateQuantity] or
    [removeFromCart] fails, whatever state the application is in at that
    moment, the method ends by showing an error message and nothing else:
    the cart, the storage and the in-flight flag are as they were before
    the failure. Up to the remote call the method has written nothing
    either. *)
Theorem failed_mutation_keeps_cart (productId variantId lineId action : string)
    (st st1 : App) (r : request) (k : outcome value → App → App * proc) :
  addToCart productId variantId st = (st1, AwaitRemote r k)
  ∨ updateQuantity lineId action st = (st1, AwaitRemote r k)
  ∨ removeFromCart lineId st = (st1, AwaitRemote r k) →
  st1 = st
  ∧ ∀ (e : error) (st' : App),
      ∃ msg,
        k (Throw e) st' = (with_event (ShowError msg) st', Resolved)
        ∧ cart (k (Throw e) st').1 = cart st'
        ∧ localStorage (k (Throw e) st').1 = localStorage st'
        ∧ isCheckingOut (k (Throw e) st').1 = isCheckingOut st'.
Proof.
  intros [Hrun|[Hrun|Hrun]].
  - destruct (addToCart_suspended _ _ _ _ _ _ Hrun) as [-> ->].
    split; [done|]. intros e st'. by eexists.
  - destruct (updateQuantity_suspended _ _ _ _ _ _ Hrun) as [-> [->| ->]];
      (split; [done|]); intros e st'; by eexists.
  - destruct (removeFromCart_suspended _ _ _ _ _ Hrun) as [-> ->].
    split; [done|]. intros e st'. by eexists.
Qed.

End Mutations.

Section MutationExamples.
Import Examples ReferenceHost.

Lemma failed_mutation_keeps_cart_witness :
  ∃ k,
    addToCart "gid://shopify/Product/1" "gid://shopify/ProductVariant/1" ready
    = (ready,
       AwaitRemote (AddToCart (VStr "gid://shopify/Cart/1")
                      "gid://shopify/ProductVariant/1" (VNum (Num 1))) k)
    ∧ cart (k (Throw (Error "HTTP error! status: 500")) ready).1 = cart ready.
Proof.
  eexists. split; [reflexivity|].
  destruct (failed_mutation_keeps_cart
              "gid://shopify/Product/1" "gid://shopify/ProductVariant/1" "line-1" "increase"
              ready ready _ _ (or_introl eq_refl)) as [_ Hfailed].
  destruct (Hfailed (Error "HTTP error! status: 500") ready) as (msg & _ & Hcart & _).
  exact Hcart.
Defined.

(** The three mutations on a cart with one line, each with a failing
    remote call: the cart and the storage are untouched and one error is
    shown. Decreasing the only unit of a line goes through
    [removeFromCart]. *)
Lemma failed_mutations_on_ready_cart :
  let failure := Throw (Error "HTTP error! status: 500") in
  let single := app_of (cart_of [line "line-1" "Cream" 1 10 true] 10) in
  let added := resume_remote (addToCart "p" "v" ready).2 failure ready in
  let increased := resume_remote (updateQuantity "line-1" "increase" ready).2 failure ready in
  let decreased := resume_remote (updateQuantity "line-1" "decrease" single).2 failure single in
  let removed := resume_remote (removeFromCart "line-1" ready).2 failure ready in
  (cart added.1 = cart ready ∧ localStorage added.1 = localStorage ready
   ∧ ui added.1 = [ShowError "Failed to add item to cart: HTTP error! status: 500"])
  ∧ (pending (updateQuantity "line-1" "increase" ready).2
     = [UpdateCartLine (VStr "gid://shopify/Cart/1") "line-1" (VNum (Num 3))]
     ∧ cart increased.1 = cart ready
     ∧ ui increased.1 = [ShowError "Failed to update cart: HTTP error! status: 500"])
  ∧ (pending (updateQuantity "line-1" "decrease" single).2
     = [RemoveFromCart (VStr "gid://shopify/Cart/1") ["line-1"]]
     ∧ cart decreased.1 = cart single
     ∧ ui decreased.1 = [ShowError "Failed to remove item from cart: HTTP error! status: 500"])
  ∧ (cart removed.1 = cart ready
     ∧ ui removed.1 = [ShowError "Failed to remove item from cart: HTTP error! status: 500"]).
Proof. repeat split; vm_compute; reflexivity. Qed.

End MutationExamples.

(** ** Reconciled lines *)

Section ReconciledLines.
Context `{Host}.

Lemma lookup_set_field_same k' k fields acc :
  lookup_field k acc = lookup_field k fields →
  lookup_field k (set_field k' (lookup_field k' fields) acc) = lookup_field k fields.
Proof.
  intros Hacc. destruct (decide (k' = k)) as [->|Hne].
  - by rewrite lookup_set_field_eq.
  - by rewrite lookup_set_field_ne.
Qed.

Lemma variant_of_fields fields k : prop (variant_of (VObj fields)) k = lookup_field k fields.
Proof.
  unfold variant_of. cbn [fold_left spread prop].
  by repeat apply lookup_set_field_same.
Qed.

Lemma line_of_edge_Return edge item :
  line_of_edge edge = Return item →
  let node := prop edge "node" in
  let merchandise := prop node "merchandise" in
  nullish edge = false ∧ nullish node = false ∧ nullish merchandise = false
  ∧ item = VObj [("id", prop node "id");
                 ("quantity", prop node "quantity");
                 ("variant", variant_of merchandise);
                 ("price", VNum (parseFloat (prop (prop merchandise "priceV2") "amount")))].
Proof.
  unfold line_of_edge, get. intros Hline.
  destruct (nullish edge); [discriminate|]. cbn [obind] in Hline.
  destruct (nullish (prop edge "node")); [discriminate|]. cbn [obind] in Hline.
  destruct (nullish (prop (prop edge "node") "merchandise")); [discriminate|].
  cbn [obind] in Hline.
  destruct (nullish (prop (prop (prop edge "node") "merchandise") "priceV2")); [discriminate|].
  cbn [obind] in Hline. by injection Hline as <-.
Qed.

(** X1. A line stored by the reconciliation reads as the remote line it
    was made from, for a merchandise that is an object: same id and
    quantity, the price is [parseFloat] of the merchandise's price
    amount, every field of the stored variant reads as that field of the
    merchandise (the inventory fields included, [undefined] where the
    merchandise has none), and the validator counts the line as
    unavailable exactly when the merchandise has [availableForSale]
    [false]. *)
Theorem reconciled_line_reads_as_remote (edge item : value) (fields : list (string * value)) :
  line_of_edge edge = Return item →
  prop (prop edge "node") "merchandise" = VObj fields →
  prop item "id" = prop (prop edge "node") "id"
  ∧ prop item "quantity" = prop (prop edge "node") "quantity"
  ∧ prop item "price" = VNum (parseFloat (prop (lookup_field "priceV2" fields) "amount"))
  ∧ (∀ k, prop (prop item "variant") k = lookup_field k fields)
  ∧ fails_isAvailable item = strict_eq (lookup_field "availableForSale" fields) (VBool false).
Proof.
  intros Hline Hm. destruct (line_of_edge_Return _ _ Hline) as (_ & _ & _ & ->).
  rewrite Hm. repeat split; try reflexivity.
  - intros k. apply variant_of_fields.
  - unfold fails_isAvailable, ShopifyStorefront.isVariantAvailable.
    change (prop (VObj _) "variant") with (variant_of (VObj fields)).
    rewrite variant_of_fields.
    change (ToBoolean (variant_of (VObj fields))) with true. cbn [negb].
    by destruct (strict_eq _ _).
Qed.

Lemma array_map_lookup {A B} (f : A → outcome B) (l : list A) (ys : list B) :
  array_map f l = Return ys →
  length ys = length l
  ∧ ∀ i x, l !! i = Some x → ∃ y, ys !! i = Some y ∧ f x = Return y.
Proof.
  revert ys. induction l as [|x l IH]; intros ys Hmap; cbn [array_map] in Hmap.
  - injection Hmap as <-. split; [done|]. intros i x Hi. by rewrite lookup_nil in Hi.
  - destruct (f x) as [y|] eqn:Hx; [|discriminate]. cbn [obind] in Hmap.
    destruct (array_map f l) as [ys'|]; [|discriminate]. cbn [obind] in Hmap.
    injection Hmap as <-. destruct (IH ys' eq_refl) as [Hlen Hnth].
    split; [cbn [length]; by rewrite Hlen|].
    intros [|i] x' Hi; cbn in Hi |- *.
    + injection Hi as <-. by exists y.
    + by apply Hnth.
Qed.

(** X2. A reconciliation that returns stores one line per remote edge,
    in the order of the edges: the line at each position is the one made
    from the edge at that position, with its id and quantity. *)
Theorem reconciled_lines_in_remote_order (cartData : value) (st st' : App) :
  updateCartFromResponse cartData st = (st', Return tt) →
  ∃ l named items,
    prop (prop cartData "lines") "edges" = VArr l named
    ∧ prop (cart st') "items" = VArr items []
    ∧ length items = length l
    ∧ ∀ i edge, l !! i = Some edge →
        ∃ item, items !! i = Some item
                ∧ line_of_edge edge = Return item
                ∧ prop item "id" = prop (prop edge "node") "id"
                ∧ prop item "quantity" = prop (prop edge "node") "quantity".
Proof.
  intros Hrun.
  destruct (updateCartFromResponse_fields _ _ _ Hrun) as (_ & _ & l & named & items & He & Hmap & Hi).
  exists l, named, items. destruct (array_map_lookup _ _ _ Hmap) as [Hlen Hnth].
  repeat split; try done.
  intros i edge Hedge. destruct (Hnth i edge Hedge) as (item & Hitem & Hline).
  exists item. destruct (line_of_edge_Return _ _ Hline) as (_ & _ & _ & Heq).
  split; [done|]. split; [done|]. by rewrite Heq.
Qed.

End ReconciledLines.

Section ReconciledLinesExamples.
Import Examples ReferenceHost.

Lemma reconciled_line_reads_as_remote_witness :
  let sold_out := merchandise "Cream" "10.00" false in
  ∃ item,
    line_of_edge (edge "line-1" 2 sold_out) = Return item
    ∧ prop (prop item "variant") "title" = VStr "Default Title"
    ∧ fails_isAvailable item = true.
Proof.
  eexists. split; [reflexivity|].
  destruct (reconciled_line_reads_as_remote
              (edge "line-1" 2 (merchandise "Cream" "10.00" false)) _ _ eq_refl eq_refl)
    as (_ & _ & _ & Hvariant & Hsale).
  split; [exact (Hvariant "title")|exact Hsale].
Defined.

Lemma reconciled_lines_in_remote_order_witness :
  ∃ st' items item,
    updateCartFromResponse payload_two_lines ready = (st', Return tt)
    ∧ prop (cart st') "items" = VArr items []
    ∧ length items = 2%nat
    ∧ items !! 1%nat = Some item
    ∧ prop item "id" = VStr "line-2".
Proof.
  destruct (reconciled_lines_in_remote_order payload_two_lines ready _ eq_refl)
    as (l & named & items & Hedges & Hitems & Hlen & Hnth).
  injection Hedges as <- _.
  destruct (Hnth 1%nat _ eq_refl) as (item & Hitem & _ & Hid & _).
  eexists _, items, item. split; [reflexivity|]. split; [exact Hitems|].
  split; [exact Hlen|]. split; [exact Hitem|exact Hid].
Defined.

End ReconciledLinesExamples.

(** ** What the methods leave alone *)

Section Frames.
Context `{Host}.

Global Instance same_storage_preorder : PreOrder same_storage.
Proof.
  split; [by intros st|]. intros a b c [? ?] [? ?]. split; congruence.
Qed.

Global Instance same_cart_preorder : PreOrder same_cart.
Proof.
  split; [by intros st|]. intros a b c (? & ? & ?) (? & ? & ?). repeat split; congruence.
Qed.

Global Instance same_id_preorder : PreOrder same_id.
Proof.
  split; [by intros st|]. intros a b c [? ?] [? ?]. split; congruence.
Qed.

Lemma same_cart_same_storage st st' : same_cart st st' → same_storage st st'.
Proof. by intros (? & ? & ?). Qed.

Lemma same_cart_same_id st st' : same_cart st st' → same_id st st'.
Proof. intros (Hc & ? & ?). split; [by rewrite Hc|done]. Qed.

Section rules.
Context (R : App → App → Prop) `{!PreOrder R}.

Lemma keeps_lift {A} (o : outcome A) : keeps R (lift o).
Proof. by intros st. Qed.

Lemma keeps_ret {A} (a : A) : keeps R (ret a).
Proof. by intros st. Qed.

Lemma keeps_bind {A B} (m : M A) (k : A → M B) :
  keeps R m → (∀ a, keeps R (k a)) → keeps R (bind m k).
Proof.
  intros Hm Hk st. unfold bind. specialize (Hm st).
  destruct (m st) as [st1 [a|e]]; [|done].
  etransitivity; [exact Hm|]. apply Hk.
Qed.

Lemma keeps_try_catch {A} (body : M A) (handler : error → M A) :
  keeps R body → (∀ e, keeps R (handler e)) → keeps R (try_catch body handler).
Proof.
  intros Hm Hk st. unfold try_catch. specialize (Hm st).
  destruct (body st) as [st1 [a|e]]; [done|].
  etransitivity; [exact Hm|]. apply Hk.
Qed.
End rules.

Lemma keeps_weaken {A} (R R' : App → App → Prop) (m : M A) :
  (∀ st st', R st st' → R' st st') → keeps R m → keeps R' m.
Proof. intros HR Hm st. apply HR, Hm. Qed.

Lemma emit_same_cart ev : keeps same_cart (emit ev).
Proof. by intros st. Qed.

Lemma renderCart_same_cart : keeps same_cart renderCart.
Proof. intros st. destruct (renderCart_state st) as (? & ? & ?). by repeat split. Qed.

Lemma updateCartCount_same_cart : keeps same_cart updateCartCount.
Proof. intros st. destruct (updateCartCount_state st) as (? & ? & ?). by repeat split. Qed.

Lemma assign_cart_same_storage k x : keeps same_storage (assign_cart k x).
Proof. intros st. unfold assign_cart. by destruct (assign _ _ _). Qed.

Lemma assign_cart_same_id k x : k ≠ "id" → keeps same_id (assign_cart k x).
Proof.
  intros Hk st. unfold assign_cart. destruct (assign _ _ _) as [c|] eqn:Ha; [|done].
  split; [|done]. cbn. by apply (prop_assign_ne _ k "id" x).
Qed.

Lemma saveCartToStorage_same_id : keeps same_id saveCartToStorage.
Proof. intros st. unfold saveCartToStorage. by destruct (nullish _). Qed.

Lemma updateCartFromResponse_same_storage cartData :
  keeps same_storage (updateCartFromResponse cartData).
Proof.
  unfold updateCartFromResponse.
  repeat first [ apply keeps_bind; [apply _| |intros ?]
               | apply keeps_lift; apply _
               | apply assign_cart_same_storage ].
Qed.

Lemma updateCartFromResponse_same_id cartData :
  keeps same_id (updateCartFromResponse cartData).
Proof.
  unfold updateCartFromResponse.
  repeat first [ apply keeps_bind; [apply _| |intros ?]
               | apply keeps_lift; apply _
               | apply assign_cart_same_id; discriminate ].
Qed.

End Frames.

(** One step through the structure of a method body. *)
Ltac frame_step R :=
  first
    [ apply (keeps_bind R); [|intros ?]
    | apply (keeps_try_catch R); [|intros ?]
    | apply (keeps_lift R)
    | apply (keeps_ret R)
    | match goal with |- keeps _ (if ?b then _ else _) => destruct b end ].

Section Invariants.
Context `{Host}.

Lemma showError_same_cart msg : keeps same_cart (showError msg).
Proof. apply emit_same_cart. Qed.

Lemma showSuccess_same_cart msg : keeps same_cart (showSuccess msg).
Proof. apply emit_same_cart. Qed.

Lemma display_same_id {A} (m : M A) : keeps same_cart m → keeps same_id m.
Proof. apply keeps_weaken, same_cart_same_id. Qed.

Lemma display_same_storage {A} (m : M A) : keeps same_cart m → keeps same_storage m.
Proof. apply keeps_weaken, same_cart_same_storage. Qed.

Ltac frame_same_id :=
  repeat first
    [ apply updateCartFromResponse_same_id
    | apply saveCartToStorage_same_id
    | apply display_same_id;
      first [ apply emit_same_cart | apply renderCart_same_cart
            | apply updateCartCount_same_cart ]
    | frame_step same_id ].

Lemma refresh_cart_same_id response : keeps same_id (refresh_cart response).
Proof. unfold refresh_cart. frame_same_id. Qed.

Lemma updateQuantity_resume_same_id response : keeps same_id (updateQuantity_resume response).
Proof. unfold updateQuantity_resume, updateQuantity_failed, showError. frame_same_id. Qed.

Lemma removeFromCart_resume_same_id response : keeps same_id (removeFromCart_resume response).
Proof. unfold removeFromCart_resume, removeFromCart_failed, showError. frame_same_id. Qed.

(** X3. The cart keeps its id through every refresh, quantity update
    and removal, whatever the remote answers and whether or not the
    method fails: the id carried by the answer is not read. [addToCart]
    keeps the id when the answer holds no [cartCreate], and takes the id
    of the created cart when it does. *)
Theorem cart_id_changes_only_on_create (response : outcome value) (st : App) :
  prop (cart (refresh_cart response st).1) "id" = prop (cart st) "id"
  ∧ prop (cart (updateQuantity_resume response st).1) "id" = prop (cart st) "id"
  ∧ prop (cart (removeFromCart_resume response st).1) "id" = prop (cart st) "id"
  ∧ (∀ result, response = Return result →
       ToBoolean (prop result "cartCreate") = false →
       prop (cart (addToCart_resume response st).1) "id" = prop (cart st) "id")
  ∧ (∀ result created, response = Return result →
       ToBoolean (prop result "cartCreate") = true →
       prop (prop result "cartCreate") "cart" = created →
       nullish created = false →
       assignable (cart st) = true →
       prop (cart (addToCart_resume response st).1) "id" = prop created "id").
Proof.
  split; [apply refresh_cart_same_id|].
  split; [apply updateQuantity_resume_same_id|].
  split; [apply removeFromCart_resume_same_id|].
  split.
  - intros result -> Hcreate.
    change (addToCart_resume (Return result))
      with (try_catch
              (addToCart_reconcile result ;;;
               saveCartToStorage ;;; renderCart ;;; updateCartCount ;;;
               showSuccess "Item added to cart!")
              addToCart_failed).
    enough (Hk : keeps same_id (addToCart_reconcile result)).
    { revert st. unfold addToCart_failed, showError, showSuccess.
      apply (keeps_try_catch same_id); [|frame_same_id].
      apply (keeps_bind same_id); [exact Hk|intros _]. frame_same_id. }
    intros st0. unfold addToCart_reconcile, bind, lift, get.
    destruct (nullish result); [done|]. rewrite Hcreate.
    destruct (ToBoolean (prop result "cartLinesAdd")); [|done].
    apply updateCartFromResponse_same_id.
  - intros result created -> Hcreate Hcart Hcreated Hassignable.
    destruct (assign_assignable (cart st) "id" (prop created "id") Hassignable) as [c Hc].
    pose (st1 := with_cart c st).
    assert (Hid : prop (cart st1) "id" = prop created "id")
      by (apply (prop_assign_eq (cart st) "id" _ c); [discriminate|exact Hc]).
    rewrite <- Hid.
    enough (Hrun : ∃ m : M unit, keeps same_id m
                                 ∧ (addToCart_resume (Return result) st).1 = (m st1).1).
    { destruct Hrun as (m & Hm & ->). apply Hm. }
    exists (try_catch
              (updateCartFromResponse created ;;;
               saveCartToStorage ;;; renderCart ;;; updateCartCount ;;;
               showSuccess "Item added to cart!")
              addToCart_failed).
    split.
    { unfold addToCart_failed, showError, showSuccess. frame_same_id. }
    unfold addToCart_resume, addToCart_reconcile, try_catch, bind, lift.
    rewrite (get_Return result "cartCreate" (prop_truthy_not_nullish _ _ Hcreate)).
    rewrite Hcreate.
    rewrite (get_Return (prop result "cartCreate") "cart"
               (truthy_not_nullish _ Hcreate)), Hcart.
    rewrite (get_Return created "id" Hcreated).
    unfold assign_cart at 1. rewrite Hc. fold st1. reflexivity.
Qed.

End Invariants.

(** ** Payloads that lack the cost *)

Section PartialReconciliation.
Context `{Host}.

Lemma line_of_edge_not_nullish l items :
  array_map line_of_edge l = Return items → Forall (λ item, nullish item = false) items.
Proof.
  intros Hmap. apply Forall_lookup. intros i item Hitem.
  destruct (array_map_lookup _ _ _ Hmap) as [Hlen Hnth].
  assert (Hi : (i < length l)%nat).
  { rewrite <- Hlen. by eapply lookup_lt_Some. }
  destruct (lookup_lt_is_Some_2 l i Hi) as [edge Hedge].
  destruct (Hnth i edge Hedge) as (item' & Hitem' & Hline).
  rewrite Hitem in Hitem'. injection Hitem' as <-.
  by destruct (line_of_edge_Return _ _ Hline) as (_ & _ & _ & ->).
Qed.

(** X4. Reconciliation is not atomic. On a payload whose lines are well
    formed and whose cost is there without a total amount, it has
    replaced the lines when it raises the [TypeError]: the cart holds the
    new lines with the total and the checkout URL it had before. A
    quantity update answered with such a cart ends with the error shown,
    the cart changed in memory and nothing saved. *)
Theorem reconciliation_stops_at_missing_total (cartData : value) (st : App)
    (l : list value) (named : list (string * value)) (items : list value) :
  prop (prop cartData "lines") "edges" = VArr l named →
  array_map line_of_edge l = Return items →
  ToBoolean (prop cartData "estimatedCost") = true →
  nullish (prop (prop cartData "estimatedCost") "totalAmount") = true →
  assignable (cart st) = true →
  ∃ c,
    updateCartFromResponse cartData st = (with_cart c st, Throw cannot_read)
    ∧ prop c "items" = VArr items []
    ∧ prop c "total" = prop (cart st) "total"
    ∧ prop c "checkoutUrl" = prop (cart st) "checkoutUrl"
    ∧ ∀ result st',
        prop (prop result "cartLinesUpdate") "cart" = cartData →
        cart st' = cart st →
        updateQuantity_resume (Return result) st'
        = (with_event (ShowError ("Failed to update cart: " +:+ message cannot_read))
             (with_cart c st'),
           Return tt).
Proof.
  intros Hedges Hmap Hcost Htotal Hassignable.
  destruct (assign_assignable (cart st) "items" (VArr items []) Hassignable) as [c Hc].
  assert (Hlines : nullish (prop cartData "lines") = false).
  { destruct (prop cartData "lines"); try done. }
  assert (HcartData : nullish cartData = false).
  { by apply (prop_truthy_not_nullish _ "estimatedCost"). }
  assert (Hrun : ∀ st', cart st' = cart st →
                        updateCartFromResponse cartData st' = (with_cart c st', Throw cannot_read)).
  { intros st' Hst'. unfold updateCartFromResponse, bind, lift, assign_cart.
    rewrite (get_Return _ _ HcartData), (get_Return _ _ Hlines), Hedges, Hmap, Hst', Hc.
    unfold remote_total. rewrite Hcost.
    rewrite (get_Return _ "totalAmount" (truthy_not_nullish _ Hcost)).
    cbn [obind]. by rewrite (get_Throw _ _ Htotal). }
  exists c. split; [by apply Hrun|].
  split; [by apply (prop_assign_eq (cart st) "items" _ c)|].
  split; [by apply (prop_assign_ne (cart st) "items" "total" (VArr items []) c)|].
  split; [by apply (prop_assign_ne (cart st) "items" "checkoutUrl" (VArr items []) c)|].
  intros result st' Hresult Hst'.
  assert (Hupd : nullish (prop result "cartLinesUpdate") = false).
  { apply (prop_truthy_not_nullish _ "cart"). rewrite Hresult.
    destruct cartData; done. }
  assert (Hres : nullish result = false).
  { destruct result; done. }
  unfold updateQuantity_resume, try_catch, bind, lift.
  rewrite (get_Return _ _ Hres), (get_Return _ _ Hupd), Hresult, (Hrun st' Hst').
  reflexivity.
Qed.

(** X5. A payload without an estimated cost reconciles to a total of 0,
    so the validator answers with the total message (among others) and a
    checkout attempt that gets this far shows the messages and stops. *)
Theorem missing_cost_blocks_checkout (cartData : value) (st : App)
    (l : list value) (named : list (string * value)) (items : list value) :
  nullish cartData = false →
  prop (prop cartData "lines") "edges" = VArr l named →
  array_map line_of_edge l = Return items →
  ToBoolean (prop cartData "estimatedCost") = false →
  assignable (cart st) = true →
  ∃ st' msgs,
    updateCartFromResponse cartData st = (st', Return tt)
    ∧ prop (cart st') "total" = VNum (Num 0)
    ∧ validateCart st' = Return msgs
    ∧ total_message ∈ msgs
    ∧ validate_then after_validation st'
      = (with_event (ShowError (String.concat " " msgs)) st', Resolved).
Proof.
  intros HcartData Hedges Hmap Hcost Hassignable.
  assert (Hlines : nullish (prop cartData "lines") = false).
  { destruct (prop cartData "lines"); try done. }
  assert (Htotal : remote_total cartData = Return (VNum (Num 0))).
  { unfold remote_total. by rewrite Hcost. }
  destruct (updateCartFromResponse_total cartData st l named items _
              HcartData Hlines Hedges Hmap Htotal Hassignable)
    as (st' & Hrun & Hitems & Htot & _).
  pose proof (validateCart_Return st' items [] 0 Hitems
                (line_of_edge_not_nullish _ _ Hmap) Htot) as Hv.
  assert (Hin : total_message ∈ validation_messages items 0).
  { by apply total_message_in_validation_messages. }
  exists st', (validation_messages items 0).
  split; [done|]. split; [done|]. split; [done|]. split; [done|].
  unfold validate_then, after_validation. rewrite Hv.
  destruct (validation_messages items 0) as [|m msgs]; [|done].
  by apply elem_of_nil in Hin.
Qed.

End PartialReconciliation.

Section PartialReconciliationExamples.
Import Examples ReferenceHost.

Lemma reconciliation_stops_at_missing_total_witness :
  ∃ c,
    updateCartFromResponse payload_without_total ready = (with_cart c ready, Throw cannot_read)
    ∧ prop c "total" = VNum (Num 25)
    ∧ prop c "checkoutUrl" = VStr "https://shop.example/cart/c/1"
    ∧ ∃ items, prop c "items" = VArr items [] ∧ length items = 1%nat.
Proof.
  destruct (reconciliation_stops_at_missing_total payload_without_total ready _ _ _
              eq_refl eq_refl eq_refl eq_refl eq_refl)
    as (c & Hrun & Hitems & Htotal & Hurl & _).
  exists c. split; [exact Hrun|]. split; [exact Htotal|]. split; [exact Hurl|].
  eexists. split; [exact Hitems|reflexivity].
Defined.

Lemma missing_cost_blocks_checkout_witness :
  ∃ st',
    updateCartFromResponse payload_without_cost ready = (st', Return tt)
    ∧ prop (cart st') "total" = VNum (Num 0)
    ∧ validateCart st' = Return [total_message]
    ∧ validate_then after_validation st' = (with_event (ShowError total_message) st', Resolved).
Proof.
  destruct (missing_cost_blocks_checkout payload_without_cost ready _ _ _
              eq_refl eq_refl eq_refl eq_refl eq_refl)
    as (st' & msgs & Hrun & Htotal & Hv & _ & Hshown).
  injection Hrun as <-.
  exists (updateCartFromResponse payload_without_cost ready).1.
  split; [reflexivity|]. split; [exact Htotal|]. split; [reflexivity|reflexivity].
Defined.

End PartialReconciliationExamples.

(** ** What is persisted *)

Section Persisted.
Context `{Host}.

Lemma persisted_bind_before {A B} (m : M A) (k : A → M B) :
  keeps same_storage m → (∀ a, keeps persisted (k a)) → keeps persisted (bind m k).
Proof.
  intros Hm Hk st. unfold bind. destruct (Hm st) as [Hs Hf].
  destruct (m st) as [st1 [a|e]]; cbn in Hs, Hf |- *.
  - destruct (Hk a st1) as [Hf' Hs']. split; [congruence|]. by rewrite <- Hs.
  - split; [done|]. by left.
Qed.

Lemma persisted_save_then {B} (k : unit → M B) :
  (∀ a, keeps same_cart (k a)) → keeps persisted (bind saveCartToStorage k).
Proof.
  intros Hk st. unfold bind, saveCartToStorage.
  destruct (nullish (cart st)); [split; [done|by left]|].
  match goal with |- persisted _ (k tt ?s).1 => destruct (Hk tt s) as (Hc & Hs & Hf) end.
  split; [by rewrite Hf|]. right. by rewrite Hs, Hc.
Qed.

Lemma persisted_try_catch {A} (body : M A) (handler : error → M A) :
  keeps persisted body → (∀ e, keeps same_cart (handler e)) →
  keeps persisted (try_catch body handler).
Proof.
  intros Hb Hh st. unfold try_catch. destruct (Hb st) as [Hf Hs].
  destruct (body st) as [st1 [a|e]]; [done|]. cbn in Hf, Hs.
  destruct (Hh e st1) as (Hc' & Hs' & Hf'). split; [congruence|].
  rewrite Hs', Hc'. exact Hs.
Qed.

Lemma persisted_same_storage {A} (m : M A) : keeps same_storage m → keeps persisted m.
Proof. intros Hm st. destruct (Hm st) as [Hs Hf]. split; [done|by left]. Qed.

Ltac frame_same_cart :=
  repeat first
    [ apply emit_same_cart | apply renderCart_same_cart | apply updateCartCount_same_cart
    | frame_step same_cart ].

Ltac frame_same_storage :=
  repeat first
    [ apply updateCartFromResponse_same_storage
    | apply assign_cart_same_storage
    | frame_step same_storage ].

Lemma addToCart_reconcile_same_storage result : keeps same_storage (addToCart_reconcile result).
Proof. unfold addToCart_reconcile. frame_same_storage. Qed.

(** X6. When the answer to a mutation or to a refresh has been handled,
    whatever the answer was, the storage is either as it was or holds,
    under the cart key, the record of the cart as it is in memory at the
    end: what is persisted is never another cart than the current one. *)
Theorem storage_holds_record_of_cart (response : outcome value) (st : App) :
  let stored st' :=
    localStorage st' = localStorage st
    ∨ localStorage st'
      = <["shopify-cart" := JSON_stringify (cart_record (cart st'))]> (localStorage st) in
  stored (addToCart_resume response st).1
  ∧ stored (updateQuantity_resume response st).1
  ∧ stored (removeFromCart_resume response st).1
  ∧ stored (refresh_cart response st).1.
Proof.
  cbv zeta.
  enough (Hk : keeps persisted (addToCart_resume response)
               ∧ keeps persisted (updateQuantity_resume response)
               ∧ keeps persisted (removeFromCart_resume response)
               ∧ keeps persisted (refresh_cart response)).
  { destruct Hk as (Ha & Hu & Hr & Hf). repeat split; [apply Ha|apply Hu|apply Hr|apply Hf]. }
  split; [|split; [|split]].
  - unfold addToCart_resume, addToCart_failed, showError, showSuccess.
    apply persisted_try_catch; [|frame_same_cart].
    apply persisted_bind_before; [frame_same_storage|intros result].
    apply persisted_bind_before; [apply addToCart_reconcile_same_storage|intros _].
    apply persisted_save_then. intros _. frame_same_cart.
  - unfold updateQuantity_resume, updateQuantity_failed, showError.
    apply persisted_try_catch; [|frame_same_cart].
    repeat (apply persisted_bind_before; [solve [frame_same_storage]|intros ?]).
    apply persisted_save_then. intros _. frame_same_cart.
  - unfold removeFromCart_resume, removeFromCart_failed, showError.
    apply persisted_try_catch; [|frame_same_cart].
    repeat (apply persisted_bind_before; [solve [frame_same_storage]|intros ?]).
    apply persisted_save_then. intros _. frame_same_cart.
  - unfold refresh_cart.
    apply persisted_try_catch; [|frame_same_cart].
    repeat (apply persisted_bind_before; [solve [frame_same_storage]|intros ?]).
    match goal with |- keeps _ (if ?b then _ else _) => destruct b end.
    + apply persisted_bind_before; [frame_same_storage|intros ?].
      intros st0. unfold saveCartToStorage.
      destruct (nullish (cart st0)); (split; [done|]); [by left|by right].
    + apply persisted_same_storage. frame_same_storage.
Qed.

End Persisted.

(** ** Restoring *)

Section Restore.
Context `{Host}.

(** X7. [loadCartFromStorage] never throws, whatever the storage holds
    and whatever the renderers do with the restored cart. It leaves the
    storage as it was or removes the cart record, writes nothing else,
    and the cart is either untouched or what the record parses to. *)
Theorem loadCartFromStorage_never_throws (st : App) :
  let st' := (loadCartFromStorage st).1 in
  (loadCartFromStorage st).2 = Return tt
  ∧ isCheckingOut st' = isCheckingOut st
  ∧ (localStorage st' = localStorage st
     ∨ localStorage st' = delete "shopify-cart" (localStorage st))
  ∧ (cart st' = cart st
     ∨ ∃ saved, localStorage st !! "shopify-cart" = Some saved
                ∧ JSON_parse saved = Return (cart st')).
Proof.
  cbv zeta. unfold loadCartFromStorage.
  destruct (localStorage st !! "shopify-cart") as [saved|] eqn:Hsaved;
    [|by repeat split; left].
  destruct (ToBoolean (VStr saved)); [|by repeat split; left].
  unfold try_catch, bind, lift, emit, removeItem.
  destruct (JSON_parse saved) as [cartData|e] eqn:Hparse;
    [|by repeat split; [right|left]].
  pose proof (renderCart_state (with_cart cartData st)) as (Hc1 & Hs1 & Hf1).
  destruct (renderCart (with_cart cartData st)) as [st1 [[]|e]]; cbn in Hc1, Hs1, Hf1.
  - pose proof (updateCartCount_state st1) as (Hc2 & Hs2 & Hf2).
    destruct (updateCartCount st1) as [st2 [[]|e]]; cbn in Hc2, Hs2, Hf2 |- *.
    + split; [done|]. split; [congruence|]. split; [left; congruence|].
      right. exists saved. split; [done|]. congruence.
    + split; [done|]. split; [congruence|]. split; [right; congruence|].
      right. exists saved. split; [done|]. congruence.
  - cbn. split; [done|]. split; [congruence|]. split; [right; congruence|].
    right. exists saved. split; [done|]. congruence.
Qed.

(** X8. A record that parses to a value without [items] is removed,
    but not before it has replaced the cart: [this.cart] is assigned
    ahead of the rendering that fails, and the handler does not put the
    old cart back. The validator then raises on the cart that is left. *)
Theorem loadCartFromStorage_keeps_unrenderable_cart (st : App) (saved : string)
    (cartData : value) :
  localStorage st !! "shopify-cart" = Some saved →
  saved ≠ "" →
  JSON_parse saved = Return cartData →
  nullish (prop cartData "items") = true →
  loadCartFromStorage st
  = (with_localStorage (delete "shopify-cart" (localStorage st))
       (with_event (ConsoleWarn "Failed to load cart from storage:" cannot_read)
          (with_cart cartData st)),
     Return tt)
  ∧ validateCart (loadCartFromStorage st).1 = Throw cannot_read.
Proof.
  intros Hsaved Hne Hparse Hitems.
  assert (Hload : loadCartFromStorage st
                  = (with_localStorage (delete "shopify-cart" (localStorage st))
                       (with_event (ConsoleWarn "Failed to load cart from storage:" cannot_read)
                          (with_cart cartData st)),
                     Return tt)).
  { unfold loadCartFromStorage. rewrite Hsaved, (nonempty_truthy saved Hne).
    unfold try_catch, bind, lift. rewrite Hparse.
    unfold renderCart. cbn [cart with_cart].
    unfold get at 1 2. destruct (nullish cartData); [done|]. cbn [obind].
    by rewrite Hitems. }
  split; [exact Hload|]. rewrite Hload. cbn [fst].
  unfold validateCart. cbn [cart with_localStorage with_event with_cart].
  unfold get at 1 2. destruct (nullish cartData); [done|]. cbn [obind].
  by rewrite Hitems.
Qed.

End Restore.

Section RestoreExamples.
Import Examples ReferenceHost.

Lemma loadCartFromStorage_keeps_unrenderable_cart_witness :
  let saved := JSON_stringify ShopifyIntegration.default_cart in
  let st := constructor {["shopify-cart" := saved]} in
  JSON_parse saved = Return ShopifyIntegration.default_cart
  ∧ cart (loadCartFromStorage st).1 = ShopifyIntegration.default_cart
  ∧ localStorage (loadCartFromStorage st).1 = ∅
  ∧ validateCart (loadCartFromStorage st).1 = Throw cannot_read.
Proof.
  split; [vm_compute; reflexivity|].
  destruct (loadCartFromStorage_keeps_unrenderable_cart
              (constructor {["shopify-cart" := JSON_stringify ShopifyIntegration.default_cart]})
              (JSON_stringify ShopifyIntegration.default_cart)
              ShopifyIntegration.default_cart)
    as [Hload Hv].
  - vm_compute; reflexivity.
  - vm_compute; discriminate.
  - vm_compute; reflexivity.
  - reflexivity.
  - rewrite Hload in Hv |- *. split; [reflexivity|]. split; [|exact Hv].
    vm_compute; reflexivity.
Defined.

End RestoreExamples.

(** ** Quantities *)

Section Quantity.
Context `{Host}.

Lemma Qeq_bool_false (a b : Q) : ¬ (a == b)%Q → Qeq_bool a b = false.
Proof. intros Hne. apply not_true_iff_false. by rewrite Qeq_bool_iff. Qed.

Lemma Qle_bool_false (a b : Q) : (b < a)%Q → Qle_bool a b = false.
Proof. intros Hlt. apply not_true_iff_false. rewrite Qle_bool_iff. by apply Qlt_not_le. Qed.

Lemma updateQuantity_found st lineId action l named line :
  prop (cart st) "items" = VArr l named →
  find_line lineId l = Return (Some line) →
  let newQuantity := new_quantity action (prop line "quantity") in
  updateQuantity lineId action st
  = (st, if strict_eq newQuantity (VNum (Num 0))
         then AwaitRemote (RemoveFromCart (prop (cart st) "id") [lineId])
                (fun response => settle (removeFromCart_resume response))
         else AwaitRemote (UpdateCartLine (prop (cart st) "id") lineId newQuantity)
                (fun response => settle (updateQuantity_resume response))).
Proof.
  intros Hitems Hfound. cbv zeta.
  assert (Hcart : nullish (cart st) = false) by by destruct (cart st).
  unfold updateQuantity, removeFromCart.
  rewrite (get_Return _ "items" Hcart), Hitems. cbn [obind]. rewrite Hfound.
  rewrite (get_Return _ "id" Hcart). by destruct (strict_eq _ _).
Qed.

(** X9. What [updateQuantity] asks the remote for. A line id that is not
    in the cart: nothing, and nothing changes. A line whose quantity is a
    whole number [q] with [0 <= q < 2^53], the range in which the sums
    [q + 1] and [q - 1] of the code are exact: 'increase' asks for an
    update to [q + 1]; 'decrease' asks for the removal of the line when
    [q <= 1] and for an update to [q - 1] otherwise, so no update to 0 is
    ever sent. Nothing is written before the answer. *)
Theorem updateQuantity_request (st : App) (lineId : string) (l : list value)
    (named : list (string * value)) :
  prop (cart st) "items" = VArr l named →
  let id := prop (cart st) "id" in
  (find_line lineId l = Return None →
   ∀ action, updateQuantity lineId action st = (st, Resolved))
  ∧ (∀ line n,
       find_line lineId l = Return (Some line) →
       prop line "quantity" = VNum (Num (inject_Z n)) →
       (0 ≤ n < 2 ^ 53)%Z →
       let q := inject_Z n in
       (updateQuantity lineId "increase" st).1 = st
       ∧ (updateQuantity lineId "decrease" st).1 = st
       ∧ pending (updateQuantity lineId "increase" st).2
         = [UpdateCartLine id lineId (VNum (Num (q + 1)))]
       ∧ pending (updateQuantity lineId "decrease" st).2
         = [if (n <=? 1)%Z then RemoveFromCart id [lineId]
            else UpdateCartLine id lineId (VNum (Num (q - 1)))]).
Proof.
  intros Hitems id. split.
  - intros Hnone action.
    assert (Hcart : nullish (cart st) = false) by by destruct (cart st).
    unfold updateQuantity. rewrite (get_Return _ "items" Hcart), Hitems. cbn [obind].
    by rewrite Hnone.
  - intros line n Hfound Hq Hrange q.
    assert (Hpos : (0 <= q)%Q).
    { change (inject_Z 0 <= inject_Z n)%Q. rewrite <- Zle_Qle. lia. }
    assert (Hone : Qle_bool q 1 = (n <=? 1)%Z).
    { apply eq_true_iff_eq. rewrite Qle_bool_iff, Z.leb_le.
      change (inject_Z n <= inject_Z 1 ↔ n ≤ 1)%Q%Z. by rewrite <- Zle_Qle. }
    rewrite <- Hone. clear Hone.
    rewrite !(updateQuantity_found st lineId _ l named line Hitems Hfound), Hq.
    fold q.
    split; [done|]. split; [done|].
    change (new_quantity "increase" (VNum (Num q))) with (VNum (Num (q + 1))).
    change (new_quantity "decrease" (VNum (Num q)))
      with (VNum (Math_max (Num 0) (Num (q - 1)))).
    cbn [snd strict_eq num_eqb Math_max].
    rewrite (Qeq_bool_false (q + 1) 0) by lra.
    split; [done|].
    destruct (Qle_bool q 1) eqn:Hle.
    + apply Qle_bool_iff in Hle.
      destruct (Qle_bool 0 (q - 1)) eqn:Hge; cbn [strict_eq num_eqb].
      * apply Qle_bool_iff in Hge.
        assert (Heq : Qeq_bool (q - 1) 0 = true) by (apply Qeq_bool_iff; lra).
        by rewrite Heq.
      * done.
    + assert (Hlt : (1 < q)%Q).
      { apply Qnot_le_lt. intros Hle'. apply Qle_bool_iff in Hle'. congruence. }
      assert (Hge : Qle_bool 0 (q - 1) = true) by (apply Qle_bool_iff; lra).
      rewrite Hge. cbn [strict_eq num_eqb].
      by rewrite (Qeq_bool_false (q - 1) 0) by lra.
Qed.

End Quantity.

Section QuantityExamples.
Import Examples ReferenceHost.

Lemma updateQuantity_request_witness :
  prop (cart ready) "items" = VArr [line "line-1" "Cream" 2 10 true] []
  ∧ pending (updateQuantity "line-1" "decrease" ready).2
    = [UpdateCartLine (VStr "gid://shopify/Cart/1") "line-1" (VNum (Num (2 - 1)))]
  ∧ updateQuantity "line-9" "decrease" ready = (ready, Resolved).
Proof.
  split; [reflexivity|].
  destruct (updateQuantity_request ready "line-1" _ _ eq_refl) as [_ Hfound].
  destruct (updateQuantity_request ready "line-9" _ _ eq_refl) as [Hnone _].
  destruct (Hfound (line "line-1" "Cream" 2 10 true) 2%Z eq_refl eq_refl)
    as (_ & _ & _ & Hdecrease).
  { lia. }
  split; [exact Hdecrease|exact (Hnone eq_refl "decrease")].
Defined.

End QuantityExamples.

(** ** Product cards *)

Section Cards.
Context `{Host}.

Lemma product_card_Return product c :
  product_card product = Return c →
  let variant := prop (first_element (prop (prop product "variants") "edges")) "node" in
  productId c = ToString (prop product "id")
  ∧ variantId c = ToString (if ToBoolean (prop variant "id") then prop variant "id" else VStr "")
  ∧ available c
    = (if ToBoolean variant then ShopifyStorefront.isVariantAvailable variant else false)
  ∧ (ToBoolean variant = false → price c = Num 0).
Proof.
  unfold product_card, get. intros Hcard.
  destruct (nullish product); [discriminate|]. cbn [obind] in Hcard.
  destruct (nullish (prop product "variants")); [discriminate|]. cbn [obind] in Hcard.
  destruct (nullish (prop (prop product "variants") "edges")); [discriminate|].
  cbn [obind] in Hcard. cbv zeta.
  set (variant := prop (first_element (prop (prop product "variants") "edges")) "node") in *.
  destruct (ToBoolean variant) eqn:Hvariant.
  - rewrite (truthy_not_nullish _ Hvariant) in Hcard. cbn [obind] in Hcard.
    destruct (nullish (prop variant "priceV2")); [discriminate|]. cbn [obind] in Hcard.
    injection Hcard as <-. by repeat split.
  - cbn [obind] in Hcard. injection Hcard as <-. by repeat split.
Qed.

(** X10. Every request that a click on a product card leads to is for
    the first variant of the product, which is there, is not flagged
    [availableForSale: false] and has an id; the request is for one unit:
    [addToCart] on the cart's id when that id is truthy, [createCart]
    when it is falsy. A product without a first variant gets a disabled
    button with an empty variant id and price 0, and [addToCart] on that
    id sends nothing and shows an error. *)
Theorem add_requests_come_from_available_variants (product : value) (c : card) :
  product_card product = Return c →
  let variant := prop (first_element (prop (prop product "variants") "edges")) "node" in
  (∀ st r,
     pending (click_add_to_cart c st).2 = [r] →
     ToBoolean variant = true
     ∧ strict_eq (prop variant "availableForSale") (VBool false) = false
     ∧ ToBoolean (prop variant "id") = true
     ∧ variantId c = ToString (prop variant "id")
     ∧ r = (if ToBoolean (prop (cart st) "id")
            then AddToCart (prop (cart st) "id") (variantId c) (VNum (Num 1))
            else CreateCart (variantId c) (VNum (Num 1))))
  ∧ (ToBoolean variant = false →
     available c = false ∧ variantId c = "" ∧ price c = Num 0
     ∧ ∀ st, click_add_to_cart c st = (st, Resolved)
             ∧ addToCart (productId c) (variantId c) st
               = (with_event (ShowError "Product variant not found") st, Resolved)).
Proof.
  intros Hcard variant.
  destruct (product_card_Return _ _ Hcard) as (Hpid & Hvid & Hav & Hprice).
  fold variant in Hvid, Hav, Hprice. split.
  - intros st r. unfold click_add_to_cart. rewrite Hav.
    destruct (ToBoolean variant) eqn:Hvariant; [|discriminate].
    rewrite isVariantAvailable_sale_flag, Hvariant. cbn [andb].
    destruct (strict_eq (prop variant "availableForSale") (VBool false)); [discriminate|].
    cbn [negb]. unfold addToCart.
    destruct (ToBoolean (prop variant "id")) eqn:Hid.
    + destruct (negb (ToBoolean (VStr (variantId c)))); [discriminate|].
      unfold get. destruct (nullish (cart st)); [discriminate|].
      cbn [snd pending]. intros Hr. injection Hr as <-.
      by do 4 (split; [done|]).
    + rewrite Hvid. discriminate.
  - intros Hvariant. rewrite Hvariant in Hav.
    assert (Hid : variantId c = "").
    { rewrite Hvid. by destruct variant. }
    split; [done|]. split; [done|]. split; [by apply Hprice|].
    intros st. unfold click_add_to_cart, addToCart. by rewrite Hav, Hid.
Qed.

End Cards.

Section CardsExamples.
Import Examples ReferenceHost.

Lemma add_requests_come_from_available_variants_witness :
  ∃ c sold_out,
    product_card (product_of [merchandise "Cream" "10.00" true]) = Return c
    ∧ pending (click_add_to_cart c (constructor ∅)).2
      = [CreateCart "gid://shopify/ProductVariant/1" (VNum (Num 1))]
    ∧ pending (click_add_to_cart c ready).2
      = [AddToCart (VStr "gid://shopify/Cart/1") "gid://shopify/ProductVariant/1"
           (VNum (Num 1))]
    ∧ ToBoolean (prop (cart (constructor ∅)) "id") = false
    ∧ ToBoolean (prop (cart ready) "id") = true
    ∧ product_card (product_of []) = Return sold_out
    ∧ available sold_out = false
    ∧ addToCart (productId sold_out) (variantId sold_out) (constructor ∅)
      = (with_event (ShowError "Product variant not found") (constructor ∅), Resolved).
Proof.
  eexists _, _. split; [reflexivity|].
  destruct (add_requests_come_from_available_variants
              (product_of [merchandise "Cream" "10.00" true]) _ eq_refl) as [Hsome _].
  destruct (Hsome (constructor ∅)
              (CreateCart "gid://shopify/ProductVariant/1" (VNum (Num 1))) eq_refl)
    as (_ & _ & _ & _ & Hcreate).
  destruct (Hsome ready
              (AddToCart (VStr "gid://shopify/Cart/1") "gid://shopify/ProductVariant/1"
                 (VNum (Num 1))) eq_refl)
    as (_ & _ & _ & _ & Hadd).
  split; [reflexivity|]. split; [reflexivity|].
  split; [reflexivity|]. split; [reflexivity|]. split; [reflexivity|].
  destruct (add_requests_come_from_available_variants (product_of []) _ eq_refl)
    as [_ Hnone].
  destruct (Hnone eq_refl) as (Havailable & _ & _ & Hclick).
  split; [exact Havailable|exact (proj2 (Hclick (constructor ∅)))].
Defined.

End CardsExamples.

(** ** Checkout after the refresh and after the delay *)

Section Delay.
Context `{Host}.

Lemma validateCart_no_lines st named :
  prop (cart st) "items" = VArr [] named → ∃ msgs, validateCart st = Return msgs.
Proof.
  intros Hitems.
  assert (Hcart : nullish (cart st) = false) by by destruct (cart st).
  unfold validateCart. rewrite (get_Return _ _ Hcart), Hitems.
  cbn [obind get nullish array_filter]. by eexists.
Qed.

(** X11. What [checkout] does when its 500 ms delay is over, in the
    state the application is in then. With no lines left: the in-flight
    flag is released, the button is reset and the failure is shown;
    nothing is saved and no redirect is scheduled. With a cart the
    validator accepts: the cart is saved and the redirect scheduled, and
    the flag is left as it is, so from then on every [checkout] is a
    no-op. *)
Theorem checkout_after_delay (st0 st : App) :
  let done := resume_timeout (after_validation [] st0).2 st in
  (∀ named,
     prop (cart st) "items" = VArr [] named →
     done
     = (with_event (ShowError "Checkout failed: Cart became empty during checkout")
          (with_event (SetCheckoutLoading false) (with_isCheckingOut false st)),
        Resolved))
  ∧ (validateCart st = Return [] →
     done
     = (with_event (RedirectScheduled 800)
          (with_localStorage
             (<["shopify-cart" := JSON_stringify (cart_record (cart st))]> (localStorage st))
             (with_event (ShowSuccess "Redirecting to secure checkout...") st)),
        Resolved)
     ∧ isCheckingOut done.1 = isCheckingOut st
     ∧ (isCheckingOut st = true → checkout done.1 = (done.1, Resolved))).
Proof.
  cbv zeta. change (resume_timeout (after_validation [] st0).2 st)
    with (settle (try_catch redirect checkout_failed) st).
  split.
  - intros named Hitems.
    assert (Hcart : nullish (cart st) = false) by by destruct (cart st).
    assert (Hlen : (let! items := get (cart st) "items" in get items "length")
                   = Return (VNum (Num 0))).
    { by rewrite (get_Return _ _ Hcart), Hitems. }
    unfold settle, try_catch, redirect, bind, lift. rewrite Hlen.
    change (strict_eq (VNum (Num 0)) (VNum (Num 0))) with true. cbv iota beta.
    destruct (validateCart_no_lines (with_isCheckingOut false st) named Hitems)
      as [msgs Hmsgs].
    unfold checkout_failed, bind, setCheckoutLoading, updateCheckoutButton.
    rewrite Hmsgs. reflexivity.
  - intros Hv. rewrite (redirect_after_valid_cart st Hv).
    split; [done|]. split; [done|].
    intros Hflag. by apply checkout_in_flight.
Qed.

End Delay.

Section Refresh.
Context `{Host}.

(** A refresh answered with a well-formed cart: the cart is reconciled
    and saved, and the validator runs on the reconciled lines and total. *)
Lemma refresh_cart_reconciled (st : App) (data fetched : value) (l : list value)
    (named : list (string * value)) (items : list value) (t : Q) :
  prop data "cart" = fetched →
  ToBoolean fetched = true →
  prop (prop fetched "lines") "edges" = VArr l named →
  array_map line_of_edge l = Return items →
  remote_total fetched = Return (VNum (Num t)) →
  assignable (cart st) = true →
  let refreshed := (refresh_cart (Return data) st).1 in
  prop (cart refreshed) "items" = VArr items []
  ∧ prop (cart refreshed) "total" = VNum (Num t)
  ∧ prop (cart refreshed) "checkoutUrl" = prop fetched "checkoutUrl"
  ∧ localStorage refreshed
    = <["shopify-cart" := JSON_stringify (cart_record (cart refreshed))]> (localStorage st)
  ∧ isCheckingOut refreshed = isCheckingOut st
  ∧ ui refreshed = ui st
  ∧ validateCart refreshed = Return (validation_messages items t).
Proof.
  intros Hdata Hfetched Hedges Hmap Htotal Hassignable.
  assert (Hnn : nullish fetched = false) by by apply truthy_not_nullish.
  assert (Hlines : nullish (prop fetched "lines") = false).
  { destruct (prop fetched "lines"); try done. }
  destruct (updateCartFromResponse_total fetched st l named items _
              Hnn Hlines Hedges Hmap Htotal Hassignable)
    as (st1 & Hrun & Hitems & Htot & Hurl & Hflag & Hstore & Hui).
  assert (Hcart1 : nullish (cart st1) = false) by by destruct (cart st1).
  assert (Hrefresh : refresh_cart (Return data) st
                     = (with_localStorage
                          (<["shopify-cart" := JSON_stringify (cart_record (cart st1))]>
                             (localStorage st1)) st1,
                        Return tt)).
  { unfold refresh_cart, try_catch, bind, lift.
    assert (Hd : nullish data = false).
    { apply (prop_truthy_not_nullish _ "cart"). by rewrite Hdata. }
    rewrite (get_Return _ _ Hd), Hdata, Hfetched, Hrun.
    by rewrite (saveCartToStorage_Return st1 Hcart1). }
  cbv zeta. rewrite Hrefresh. cbn [fst cart localStorage isCheckingOut ui with_localStorage].
  rewrite Hstore. do 6 (split; [done|]).
  transitivity (validateCart st1); [by apply validateCart_cart|].
  apply (validateCart_Return st1 items [] t Hitems); [|done].
  by eapply line_of_edge_not_nullish.
Qed.

(** X12. A checkout whose refresh is answered with a well-formed cart:
    the answer is reconciled into the cart (lines, total, checkout URL;
    the id stays) and saved, and the validator's answer on the reconciled
    lines and total decides alone what follows: no message, and the flag
    is set and the delay started; otherwise the messages are shown,
    joined by spaces, and the attempt ends with the flag unset. *)
Theorem checkout_after_successful_refresh (st st' : App) (data fetched : value)
    (l : list value) (named : list (string * value)) (items : list value) (t : Q) :
  isCheckingOut st = false →
  ToBoolean (prop (cart st) "checkoutUrl") = true →
  ToBoolean (prop (cart st) "id") = true →
  prop data "cart" = fetched →
  ToBoolean fetched = true →
  prop (prop fetched "lines") "edges" = VArr l named →
  array_map line_of_edge l = Return items →
  remote_total fetched = Return (VNum (Num t)) →
  assignable (cart st') = true →
  let refreshed := (refresh_cart (Return data) st').1 in
  prop (cart refreshed) "items" = VArr items []
  ∧ prop (cart refreshed) "total" = VNum (Num t)
  ∧ prop (cart refreshed) "checkoutUrl" = prop fetched "checkoutUrl"
  ∧ prop (cart refreshed) "id" = prop (cart st') "id"
  ∧ localStorage refreshed
    = <["shopify-cart" := JSON_stringify (cart_record (cart refreshed))]> (localStorage st')
  ∧ ui refreshed = ui st'
  ∧ resume_remote (checkout st).2 (Return data) st'
    = match validation_messages items t with
      | [] => (with_event (SetCheckoutLoading true) (with_isCheckingOut true refreshed),
               AwaitTimeout 500 (settle (try_catch redirect checkout_failed)))
      | m :: msgs => (with_event (ShowError (String.concat " " (m :: msgs))) refreshed,
                      Resolved)
      end.
Proof.
  intros Hflag Hurl Hid Hdata Hfetched Hedges Hmap Htotal Hassignable.
  destruct (refresh_cart_reconciled st' data fetched l named items t
              Hdata Hfetched Hedges Hmap Htotal Hassignable)
    as (Hitems & Htot & Hcurl & Hstore & _ & Hui & Hv).
  cbv zeta.
  do 3 (split; [done|]). split; [apply refresh_cart_same_id|]. do 2 (split; [done|]).
  rewrite (checkout_suspends_at_refresh st Hflag Hurl Hid). cbn [snd resume_remote].
  unfold validate_then. rewrite Hv. by destruct (validation_messages items t).
Qed.

(** X13. [checkout] looks at the checkout URL before the refresh only.
    When the refreshed cart is valid and carries no checkout URL, the
    attempt still reaches the redirect: it is scheduled while
    [this.cart.checkoutUrl] is falsy. *)
Theorem refresh_without_checkout_url_still_redirects (st st' : App) (data fetched : value)
    (l : list value) (named : list (string * value)) (items : list value) (t : Q) :
  isCheckingOut st = false →
  ToBoolean (prop (cart st) "checkoutUrl") = true →
  ToBoolean (prop (cart st) "id") = true →
  prop data "cart" = fetched →
  ToBoolean fetched = true →
  prop (prop fetched "lines") "edges" = VArr l named →
  array_map line_of_edge l = Return items →
  remote_total fetched = Return (VNum (Num t)) →
  assignable (cart st') = true →
  ToBoolean (prop fetched "checkoutUrl") = false →
  validation_messages items t = [] →
  let refreshed := resume_remote (checkout st).2 (Return data) st' in
  let done := resume_timeout refreshed.2 refreshed.1 in
  done.2 = Resolved
  ∧ RedirectScheduled 800 ∈ ui done.1
  ∧ ToBoolean (prop (cart done.1) "checkoutUrl") = false.
Proof.
  intros Hflag Hurl Hid Hdata Hfetched Hedges Hmap Htotal Hassignable Hnourl Hvalid.
  destruct (refresh_cart_reconciled st' data fetched l named items t
              Hdata Hfetched Hedges Hmap Htotal Hassignable)
    as (_ & _ & Hcurl & _ & _ & _ & Hv).
  cbv zeta. rewrite (checkout_suspends_at_refresh st Hflag Hurl Hid).
  cbn [snd resume_remote]. unfold validate_then. rewrite Hv, Hvalid.
  cbn [after_validation length Nat.ltb Nat.leb fst snd resume_timeout setCheckoutLoading].
  set (refreshed := (refresh_cart (Return data) st').1) in *.
  set (loading := with_event (SetCheckoutLoading true) (with_isCheckingOut true refreshed)).
  assert (Hloading : validateCart loading = Return []).
  { rewrite (validateCart_cart loading refreshed eq_refl). by rewrite Hv, Hvalid. }
  rewrite (redirect_after_valid_cart loading Hloading). cbn [fst snd].
  split; [done|]. split.
  - cbn [ui with_event]. apply elem_of_app. right. by apply list_elem_of_singleton.
  - change (cart _) with (cart refreshed). by rewrite Hcurl.
Qed.

(** X14. A mutation answered without a cart, as when the remote lists
    user errors, changes nothing: the [TypeError] of reading the missing
    cart is caught and its message is what is shown; the user errors are
    not read. *)
Theorem mutation_answered_without_cart (result : value) (st : App) :
  (nullish (prop (prop result "cartLinesUpdate") "cart") = true →
   updateQuantity_resume (Return result) st
   = (with_event (ShowError ("Failed to update cart: " +:+ message cannot_read)) st,
      Return tt))
  ∧ (nullish (prop (prop result "cartLinesRemove") "cart") = true →
     removeFromCart_resume (Return result) st
     = (with_event (ShowError ("Failed to remove item from cart: " +:+ message cannot_read)) st,
        Return tt))
  ∧ (ToBoolean (prop result "cartCreate") = true →
     nullish (prop (prop result "cartCreate") "cart") = true →
     addToCart_resume (Return result) st
     = (with_event (ShowError ("Failed to add item to cart: " +:+ message cannot_read)) st,
        Return tt))
  ∧ (nullish result = false →
     ToBoolean (prop result "cartCreate") = false →
     ToBoolean (prop result "cartLinesAdd") = true →
     nullish (prop (prop result "cartLinesAdd") "cart") = true →
     addToCart_resume (Return result) st
     = (with_event (ShowError ("Failed to add item to cart: " +:+ message cannot_read)) st,
        Return tt)).
Proof.
  assert (Hupdate : ∀ cartData, nullish cartData = true →
                                updateCartFromResponse cartData st = (st, Throw cannot_read)).
  { intros cartData Hn. unfold updateCartFromResponse, bind, lift.
    by rewrite (get_Throw _ _ Hn). }
  split; [|split; [|split]].
  - intros Hcart. unfold updateQuantity_resume, try_catch, bind, lift, get.
    destruct (nullish result); [done|]. cbn [obind].
    destruct (nullish (prop result "cartLinesUpdate")); [done|].
    by rewrite (Hupdate _ Hcart).
  - intros Hcart. unfold removeFromCart_resume, try_catch, bind, lift, get.
    destruct (nullish result); [done|]. cbn [obind].
    destruct (nullish (prop result "cartLinesRemove")); [done|].
    by rewrite (Hupdate _ Hcart).
  - intros Hcreate Hcart.
    unfold addToCart_resume, addToCart_reconcile, try_catch, bind, lift.
    rewrite (get_Return _ _ (prop_truthy_not_nullish _ _ Hcreate)), Hcreate.
    rewrite (get_Return _ _ (truthy_not_nullish _ Hcreate)).
    by rewrite (get_Throw _ _ Hcart).
  - intros Hresult Hcreate Hadd Hcart.
    unfold addToCart_resume, addToCart_reconcile, try_catch, bind, lift.
    rewrite (get_Return _ _ Hresult), Hcreate, Hadd.
    by rewrite (Hupdate _ Hcart).
Qed.

End Refresh.

Section RefreshExamples.
Import Examples ReferenceHost.

Lemma checkout_after_delay_witness :
  let emptied := app_of (cart_of [] 0) in
  let loading := (after_validation [] ready).1 in
  isCheckingOut (resume_timeout (after_validation [] ready).2 emptied).1 = false
  ∧ ui (resume_timeout (after_validation [] ready).2 emptied).1
    = [SetCheckoutLoading false;
       ShowError "Checkout failed: Cart became empty during checkout"]
  ∧ isCheckingOut (resume_timeout (after_validation [] ready).2 loading).1 = true
  ∧ checkout (resume_timeout (after_validation [] ready).2 loading).1
    = ((resume_timeout (after_validation [] ready).2 loading).1, Resolved).
Proof.
  cbv zeta.
  destruct (checkout_after_delay ready (app_of (cart_of [] 0))) as [Hemptied _].
  destruct (checkout_after_delay ready (after_validation [] ready).1)
    as [_ Hvalid].
  rewrite (Hemptied [] eq_refl).
  destruct (Hvalid eq_refl) as (_ & Hflag & Hguard).
  split; [reflexivity|]. split; [reflexivity|].
  split; [exact Hflag|exact (Hguard eq_refl)].
Defined.

Lemma checkout_after_successful_refresh_witness :
  let answered :=
    resume_remote (checkout ready).2 (Return (VObj [("cart", payload_two_lines)])) ready in
  ui answered.1 = [ShowError "These items are no longer available: Balm"]
  ∧ answered.2 = Resolved
  ∧ isCheckingOut answered.1 = false
  ∧ ∃ items, prop (cart answered.1) "items" = VArr items [] ∧ length items = 2%nat.
Proof.
  cbv zeta.
  destruct (checkout_after_successful_refresh (H:=reference_host) ready ready
              (VObj [("cart", payload_two_lines)]) payload_two_lines _ _ _ 25%Q
              eq_refl eq_refl eq_refl eq_refl eq_refl eq_refl eq_refl
              ltac:(vm_compute; reflexivity) eq_refl)
    as (Hitems & _ & _ & _ & _ & _ & Hrun).
  rewrite Hrun. split; [vm_compute; reflexivity|]. split; [reflexivity|].
  split; [vm_compute; reflexivity|].
  eexists. split; [exact Hitems|reflexivity].
Defined.

Lemma refresh_without_checkout_url_still_redirects_witness :
  let refreshed :=
    resume_remote (checkout ready).2
      (Return (VObj [("cart", payload_without_checkout_url)])) ready in
  let done := resume_timeout refreshed.2 refreshed.1 in
  done.2 = Resolved
  ∧ RedirectScheduled 800 ∈ ui done.1
  ∧ prop (cart done.1) "checkoutUrl" = VUndefined.
Proof.
  cbv zeta.
  destruct (refresh_without_checkout_url_still_redirects (H:=reference_host) ready ready
              (VObj [("cart", payload_without_checkout_url)]) payload_without_checkout_url
              _ _ _ 25%Q
              eq_refl eq_refl eq_refl eq_refl eq_refl eq_refl eq_refl
              ltac:(vm_compute; reflexivity) eq_refl eq_refl ltac:(vm_compute; reflexivity))
    as (Hdone & Hredirect & _).
  split; [exact Hdone|]. split; [exact Hredirect|]. vm_compute; reflexivity.
Defined.

Lemma mutation_answered_without_cart_witness :
  let result :=
    VObj [("cartLinesUpdate",
           VObj [("cart", VNull);
                 ("userErrors", VArr [VObj [("message", VStr "Quantity is too high")]] [])])] in
  updateQuantity_resume (Return result) ready
  = (with_event (ShowError "Failed to update cart: Cannot read properties of undefined") ready,
     Return tt).
Proof.
  cbv zeta.
  exact (proj1 (mutation_answered_without_cart
                  (VObj [("cartLinesUpdate",
                          VObj [("cart", VNull);
                                ("userErrors",
                                 VArr [VObj [("message", VStr "Quantity is too high")]] [])])])
                  ready) eq_refl).
Defined.

End RefreshExamples.

(** ** The transport *)

Section Transport.
Context `{Host}.

Lemma array_map_messages l :
  Forall (λ e, nullish e = false) l →
  array_map (fun e => get e "message") l = Return (map (fun e => prop e "message") l).
Proof.
  induction 1 as [|e l He _ IH]; [done|].
  cbn [array_map map]. by rewrite (get_Return _ _ He), IH.
Qed.

(** X15. An answer with status 2xx whose body lists errors is refused by
    both clients whatever data it carries: [ShopifyStorefront.query]
    throws an [Error] listing the messages of all errors, joined by
    commas; [ShopifyIntegration.graphQL] throws an [Error] with the
    message of the first one, and a [TypeError] when the list is empty. *)
Theorem errors_in_the_answer (r : Fetch.response) (data : value) (l : list value)
    (named : list (string * value)) :
  Fetch.ok r = true →
  Fetch.json r = Return data →
  prop data "errors" = VArr l named →
  Forall (λ e, nullish e = false) l →
  ShopifyStorefront.query (Return r)
  = Throw (Error ("GraphQL error: "
                  +:+ array_join ", " (map (fun e => prop e "message") l)))
  ∧ ShopifyIntegration.graphQL (Return r)
    = match l with
      | e :: _ => Throw (new_Error (prop e "message"))
      | [] => Throw cannot_read
      end.
Proof.
  intros Hok Hjson Herrors Hl.
  assert (Hdata : nullish data = false) by by destruct data.
  unfold ShopifyStorefront.query, ShopifyIntegration.graphQL.
  cbn [obind]. rewrite Hok, Hjson. cbn [negb obind].
  rewrite (get_Return _ _ Hdata), Herrors. cbn [obind ToBoolean].
  split.
  - by rewrite (array_map_messages l Hl).
  - destruct Hl as [|e l He _]; [done|].
    cbn [first_element]. by rewrite (get_Return _ _ He).
Qed.

(** X16. The two clients accept the same answers and return the same
    data: exactly the [data] field of a body that was read from a 2xx
    answer, is not nullish and has no truthy [errors]. A status outside
    2xx makes both throw the HTTP error naming the status, without
    reading the body; a failed [fetch] is passed on. *)
Theorem clients_accept_the_same_answers (fetched : outcome Fetch.response) :
  (∀ d, ShopifyStorefront.query fetched = Return d
        ↔ ShopifyIntegration.graphQL fetched = Return d)
  ∧ (∀ d, ShopifyStorefront.query fetched = Return d
          ↔ ∃ r data, fetched = Return r
                      ∧ Fetch.ok r = true
                      ∧ Fetch.json r = Return data
                      ∧ nullish data = false
                      ∧ ToBoolean (prop data "errors") = false
                      ∧ d = prop data "data")
  ∧ (∀ r, fetched = Return r → Fetch.ok r = false →
          ShopifyStorefront.query fetched = Throw (http_error r)
          ∧ ShopifyIntegration.graphQL fetched = Throw (http_error r))
  ∧ (∀ e, fetched = Throw e →
          ShopifyStorefront.query fetched = Throw e
          ∧ ShopifyIntegration.graphQL fetched = Throw e).
Proof.
  assert (Hquery : ∀ d, ShopifyStorefront.query fetched = Return d
                        ↔ ∃ r data, fetched = Return r
                                    ∧ Fetch.ok r = true
                                    ∧ Fetch.json r = Return data
                                    ∧ nullish data = false
                                    ∧ ToBoolean (prop data "errors") = false
                                    ∧ d = prop data "data").
  { intros d. unfold ShopifyStorefront.query, get. split.
    - destruct fetched as [r|]; [|discriminate]. cbn [obind].
      destruct (Fetch.ok r) eqn:Hok; [|discriminate]. cbn [negb].
      destruct (Fetch.json r) as [data|] eqn:Hjson; [|discriminate]. cbn [obind].
      destruct (nullish data) eqn:Hdata; [discriminate|]. cbn [obind].
      destruct (ToBoolean (prop data "errors")) eqn:Herrors.
      + by destruct (match prop data "errors" with VArr _ _ => _ | _ => _ end).
      + intros Hd. injection Hd as <-. by exists r, data.
    - intros (r & data & -> & Hok & Hjson & Hdata & Herrors & ->).
      cbn [obind]. rewrite Hok, Hjson. cbn [negb obind].
      rewrite Hdata. cbn [obind]. by rewrite Herrors. }
  split; [|split; [exact Hquery|split]].
  - intros d. rewrite Hquery. unfold ShopifyIntegration.graphQL, get. split.
    + intros (r & data & -> & Hok & Hjson & Hdata & Herrors & ->).
      cbn [obind]. rewrite Hok, Hjson. cbn [negb obind].
      rewrite Hdata. cbn [obind]. by rewrite Herrors.
    + destruct fetched as [r|]; [|discriminate]. cbn [obind].
      destruct (Fetch.ok r) eqn:Hok; [|discriminate]. cbn [negb].
      destruct (Fetch.json r) as [data|] eqn:Hjson; [|discriminate]. cbn [obind].
      destruct (nullish data) eqn:Hdata; [discriminate|]. cbn [obind].
      destruct (ToBoolean (prop data "errors")) eqn:Herrors.
      * by destruct (nullish (first_element (prop data "errors"))).
      * intros Hd. injection Hd as <-. by exists r, data.
  - intros r -> Hok. unfold ShopifyStorefront.query, ShopifyIntegration.graphQL.
    cbn [obind]. by rewrite Hok.
  - by intros e ->.
Qed.

End Transport.

Section TransportExamples.
Import Examples ReferenceHost.

Lemma errors_in_the_answer_witness :
  let errors := [VObj [("message", VStr "Throttled")];
                 VObj [("message", VStr "Internal error")]] in
  let body := VObj [("data", VObj [("cart", payload)]); ("errors", VArr errors [])] in
  let r := {| Fetch.status := 200; Fetch.json := Return body |} in
  ShopifyStorefront.query (Return r) = Throw (Error "GraphQL error: Throttled, Internal error")
  ∧ ShopifyIntegration.graphQL (Return r) = Throw (Error "Throttled").
Proof.
  intros errors body r.
  assert (Hall : Forall (fun e => nullish e = false) errors) by repeat constructor.
  exact (errors_in_the_answer (H:=reference_host) r body errors []
           eq_refl eq_refl eq_refl Hall).
Defined.

End TransportExamples.

(** ** The two availability functions *)

Section DemoAndApplication.

(** X17. The two availability functions of the repository.
    The demo function answers unavailable exactly for no variant and for
    a tracked variant with policy DENY and sale flag false; the
    application's function exactly for no variant and for sale flag
    false. So whatever the application offers the demo offers too, and
    they differ exactly on variants with sale flag false that are
    untracked or whose policy is not DENY. *)
Theorem application_stricter_than_demo (variant : value) :
  let tracked := ToBoolean (prop variant "inventoryManagement") in
  let deny := strict_eq (prop variant "inventoryPolicy") (VStr "DENY") in
  let not_for_sale := strict_eq (prop variant "availableForSale") (VBool false) in
  (ShopifyStorefrontDemo.isVariantAvailable variant = false
   ↔ ToBoolean variant = false ∨ (tracked = true ∧ deny = true ∧ not_for_sale = true))
  ∧ (ShopifyStorefront.isVariantAvailable variant = false
     ↔ ToBoolean variant = false ∨ not_for_sale = true)
  ∧ (ShopifyStorefront.isVariantAvailable variant = true →
     ShopifyStorefrontDemo.isVariantAvailable variant = true)
  ∧ (ShopifyStorefrontDemo.isVariantAvailable variant
     ≠ ShopifyStorefront.isVariantAvailable variant
     ↔ ToBoolean variant = true ∧ not_for_sale = true ∧ (tracked = false ∨ deny = false)).
Proof.
  cbv zeta.
  unfold ShopifyStorefrontDemo.isVariantAvailable, ShopifyStorefront.isVariantAvailable.
  pose proof (truthy_not_null (prop variant "inventoryManagement")) as Hnull.
  pose proof (truthy_not_empty_string (prop variant "inventoryManagement")) as Hempty.
  pose proof (strict_eq_deny_not_continue (prop variant "inventoryPolicy")) as Hdeny.
  pose proof (strict_eq_false_not_true (prop variant "availableForSale")) as Hsale.
  destruct (ToBoolean variant), (ToBoolean (prop variant "inventoryManagement")),
    (strict_eq (prop variant "inventoryManagement") VNull),
    (strict_eq (prop variant "inventoryManagement") (VStr "")),
    (strict_eq (prop variant "inventoryPolicy") (VStr "DENY")),
    (strict_eq (prop variant "inventoryPolicy") (VStr "CONTINUE")),
    (strict_eq (prop variant "availableForSale") (VBool false)),
    (strict_eq (prop variant "availableForSale") (VBool true));
    cbn [negb orb andb]; intuition congruence.
Qed.

End DemoAndApplication.

(** ** The cart of [ShopifyIntegration] *)

Section Integration.
Import ShopifyIntegration.
Context `{Host} `{Browser}.

Lemma length_positive {A} (x : A) (l : list A) :
  num_ltb (Num 0) (Num (inject_Z (Z.of_nat (length (x :: l))))) = true.
Proof.
  unfold num_ltb, Qle_bool, inject_Z. cbn [Qnum Qden length].
  apply negb_true_iff, Z.leb_gt. lia.
Qed.

Lemma userErrors_check_refused payload ue rest named :
  prop payload "userErrors" = VArr (ue :: rest) named →
  nullish ue = false →
  userErrors_check payload = Throw (new_Error (prop ue "message")).
Proof.
  intros Herrors Hue.
  assert (Hpayload : nullish payload = false) by by destruct payload.
  unfold userErrors_check. rewrite (get_Return _ _ Hpayload), Herrors.
  cbn [obind get nullish prop String.eqb Ascii.eqb Bool.eqb ToNumber].
  rewrite length_positive. cbn [first_element]. by rewrite (get_Return _ _ Hue).
Qed.

Lemma userErrors_check_none payload named :
  prop payload "userErrors" = VArr [] named → userErrors_check payload = Return tt.
Proof.
  intros Herrors.
  assert (Hpayload : nullish payload = false) by by destruct payload.
  unfold userErrors_check. by rewrite (get_Return _ _ Hpayload), Herrors.
Qed.

Lemma commit_refused field response e st :
  refused field response e → commit field response st = (st, Throw e).
Proof.
  intros [->|(data & ue & rest & named & -> & Herrors & Hue & ->)]; [done|].
  assert (Hpayload : nullish (prop data field) = false) by by destruct (prop data field).
  assert (Hdata : nullish data = false) by by destruct data.
  unfold commit. cbn [obind]. rewrite (get_Return _ _ Hdata). cbn [obind].
  by rewrite (userErrors_check_refused _ ue rest named Herrors Hue).
Qed.

Lemma commit_accepted field data named st :
  prop (prop data field) "userErrors" = VArr [] named →
  commit field (Return data) st
  = (saveCart (with_cart (prop (prop data field) "cart") st), Return tt).
Proof.
  intros Herrors.
  assert (Hpayload : nullish (prop data field) = false) by by destruct (prop data field).
  assert (Hdata : nullish data = false) by by destruct data.
  unfold commit. cbn [obind]. rewrite (get_Return _ _ Hdata). cbn [obind].
  by rewrite (userErrors_check_none _ named Herrors).
Qed.

(** X18. A refused mutation of [ShopifyIntegration] leaves the cart, the
    storage and the page as they are when the answer arrives, and the
    method rejects with the error: that of the failed request, or an
    [Error] with the message of the first user error. [addToCart] also
    shows its error notification, whether the refused request is the
    creation of the cart or the addition of the line. *)
Theorem refused_mutation_keeps_cart (response : outcome value) (e : error)
    (st0 st : Integration) (lineId variantId quantity : value) :
  nullish (cart st0) = false →
  (refused "cartLinesUpdate" response e →
   resume (updateCartLine lineId quantity st0).2 response st = (st, Rejected e))
  ∧ (refused "cartLinesRemove" response e →
     resume (removeFromCart lineId st0).2 response st = (st, Rejected e))
  ∧ (ToBoolean (prop (cart st0) "id") = true →
     refused "cartLinesAdd" response e →
     resume (addToCart variantId quantity st0).2 response st
     = (showCartNotification "Error adding item to cart" "error" st, Rejected e))
  ∧ (ToBoolean (prop (cart st0) "id") = false →
     refused "cartCreate" response e →
     resume (addToCart variantId quantity st0).2 response st
     = (showCartNotification "Error adding item to cart" "error" st, Rejected e)).
Proof.
  intros Hcart. split; [|split; [|split]].
  - intros Hrefused. unfold updateCartLine. rewrite (get_Return _ _ Hcart).
    cbn [snd resume]. unfold update_resume. by rewrite (commit_refused _ _ _ _ Hrefused).
  - intros Hrefused. unfold removeFromCart. rewrite (get_Return _ _ Hcart).
    cbn [snd resume]. unfold update_resume. by rewrite (commit_refused _ _ _ _ Hrefused).
  - intros Hid Hrefused. unfold addToCart, cartLinesAdd.
    rewrite (get_Return _ _ Hcart), Hid. cbn [negb snd resume].
    unfold cartLinesAdd_resume. by rewrite (commit_refused _ _ _ _ Hrefused).
  - intros Hid Hrefused. unfold addToCart.
    rewrite (get_Return _ _ Hcart), Hid. cbn [negb snd resume].
    by rewrite (commit_refused _ _ _ _ Hrefused).
Qed.

(** X19. An answer without user errors is committed before anything is
    rendered: its cart becomes [this.cart] as it is and its JSON text is
    stored, and that is the cart and the storage the method ends with,
    whether or not the rendering that follows throws. If the text reads
    back as the cart, the constructor of the next session starts from
    this cart (from the default cart, if the answer's cart is [null]). *)
Theorem accepted_cart_is_saved_and_restored (field : string) (data : value)
    (named : list (string * value)) (st : Integration) :
  prop (prop data field) "userErrors" = VArr [] named →
  let c := prop (prop data field) "cart" in
  let st' := (commit field (Return data) st).1 in
  (commit field (Return data) st).2 = Return tt
  ∧ cart st' = c
  ∧ ui st' = ui st
  ∧ (cart (update_resume field (Return data) st).1 = c
     ∧ localStorage (update_resume field (Return data) st).1 = localStorage st')
  ∧ (field = "cartLinesAdd" →
     cart (cartLinesAdd_resume (Return data) st).1 = c
     ∧ localStorage (cartLinesAdd_resume (Return data) st).1 = localStorage st')
  ∧ (c ≠ VUndefined →
     localStorage st' = <["shopify-cart" := JSON_stringify c]> (localStorage st)
     ∧ (JSON_parse (JSON_stringify c) = Return c →
        constructor_cart (localStorage st')
        = Return (if ToBoolean c then c else default_cart))).
Proof.
  intros Herrors. cbv zeta.
  assert (Hui : ∀ s, cart (updateCartUI s).1 = cart s
                     ∧ localStorage (updateCartUI s).1 = localStorage s).
  { intros s. unfold updateCartUI. by destruct (obind _ _). }
  split; [by rewrite (commit_accepted field data named st Herrors)|].
  split; [by rewrite (commit_accepted field data named st Herrors)|].
  split; [by rewrite (commit_accepted field data named st Herrors)|].
  split; [|split].
  - unfold update_resume. rewrite (commit_accepted field data named st Herrors).
    cbn [fst]. set (s := saveCart _). destruct (Hui s) as [Hc Hs].
    by destruct (updateCartUI s) as [s' [[]|e]].
  - intros ->. unfold cartLinesAdd_resume, addToCart_failed.
    rewrite (commit_accepted "cartLinesAdd" data named st Herrors).
    cbn [fst]. set (s := saveCart _). destruct (Hui s) as [Hc Hs].
    by destruct (updateCartUI s) as [s' [[]|e]].
  - rewrite (commit_accepted field data named st Herrors). cbn [fst]. intros Hc.
    assert (Hstore : localStorage (saveCart (with_cart (prop (prop data field) "cart") st))
                     = <["shopify-cart" := JSON_stringify (prop (prop data field) "cart")]>
                         (localStorage st)).
    { unfold saveCart. cbn [localStorage cart with_cart].
      by destruct (prop (prop data field) "cart"). }
    split; [exact Hstore|].
    intros Hround. unfold constructor_cart. by rewrite Hstore, lookup_insert_eq, Hround.
Qed.

(** X20. [addToCart] on a cart without id is two requests, and the
    first one is committed on its own: once the creation is answered the
    created cart is [this.cart] and is stored, and the line is added to
    the created cart's id (one unit by default). When the second request
    fails, the method rejects and shows its error, and the created cart
    stays, in memory and in storage. *)
Theorem addToCart_keeps_created_cart (st st1 : Integration) (variantId quantity : value)
    (data : value) (named : list (string * value)) (e : error) :
  nullish (cart st) = false →
  ToBoolean (prop (cart st) "id") = false →
  prop (prop data "cartCreate") "userErrors" = VArr [] named →
  nullish (prop (prop data "cartCreate") "cart") = false →
  let created := prop (prop data "cartCreate") "cart" in
  let first := addToCart variantId quantity st in
  let second := resume first.2 (Return data) st1 in
  let failed := resume second.2 (Throw e) second.1 in
  first.1 = st
  ∧ pending first.2 = [CartCreate]
  ∧ second.1 = saveCart (with_cart created st1)
  ∧ pending second.2
    = [CartLinesAdd (prop created "id") variantId
         (match quantity with VUndefined => VNum (Num 1) | _ => quantity end)]
  ∧ failed.2 = Rejected e
  ∧ cart failed.1 = created
  ∧ localStorage failed.1 = <["shopify-cart" := JSON_stringify created]> (localStorage st1)
  ∧ ui failed.1 = (ui st1 ++ [CartNotification "Error adding item to cart" "error"])%list.
Proof.
  intros Hcart Hid Herrors Hcreated. cbv zeta.
  unfold addToCart. rewrite (get_Return _ _ Hcart), Hid. cbn [negb fst snd resume pending].
  rewrite (commit_accepted "cartCreate" data named st1 Herrors).
  unfold cartLinesAdd. cbn [cart saveCart with_cart].
  rewrite (get_Return _ _ Hcreated). cbn [fst snd resume pending].
  unfold cartLinesAdd_resume, commit. cbn [obind fst snd].
  do 5 (split; [done|]). split; [done|]. split; [|done].
  cbn [localStorage addToCart_failed showCartNotification with_event fst].
  by destruct (prop (prop data "cartCreate") "cart").
Qed.

End Integration.

Section IntegrationExamples.
Import Examples ReferenceHost.

Lemma refused_mutation_keeps_cart_witness :
  let st := {| ShopifyIntegration.cart := remote_cart;
               ShopifyIntegration.localStorage := ∅;
               ShopifyIntegration.ui := [] |} in
  let response :=
    Return (answer "cartLinesUpdate" VNull [VObj [("message", VStr "Quantity is too high")]]) in
  nullish (ShopifyIntegration.cart st) = false
  ∧ ShopifyIntegration.resume
      (ShopifyIntegration.updateCartLine (VStr "line-1") (VNum (Num 99)) st).2 response st
    = (st, ShopifyIntegration.Rejected (Error "Quantity is too high")).
Proof.
  intros st response. split; [reflexivity|].
  apply (proj1 (refused_mutation_keeps_cart (H:=reference_host) response
                  (Error "Quantity is too high")
                  st st (VStr "line-1") VNull (VNum (Num 99)) eq_refl)).
  right. eexists _, _, _, _. split; [reflexivity|]. split; [reflexivity|].
  split; reflexivity.
Defined.

Lemma accepted_cart_is_saved_and_restored_witness :
  let st' := (ShopifyIntegration.commit "cartLinesAdd"
                (Return (answer "cartLinesAdd" remote_cart [])) fresh).1 in
  ShopifyIntegration.cart st' = remote_cart
  ∧ ShopifyIntegration.constructor_cart (ShopifyIntegration.localStorage st') = Return remote_cart.
Proof.
  cbv zeta.
  destruct (accepted_cart_is_saved_and_restored (H:=reference_host) "cartLinesAdd"
              (answer "cartLinesAdd" remote_cart []) [] fresh eq_refl)
    as (_ & Hcart & _ & _ & _ & Hsaved).
  split; [exact Hcart|].
  destruct Hsaved as [_ Hrestored]; [discriminate|].
  apply Hrestored. vm_compute; reflexivity.
Defined.

Lemma addToCart_keeps_created_cart_witness :
  let created := VObj [("id", VStr "gid://shopify/Cart/3");
                       ("lines", VObj [("edges", VArr [] [])]);
                       ("checkoutUrl", VStr "https://shop.example/cart/c/3")] in
  let first := ShopifyIntegration.addToCart (VStr "gid://shopify/ProductVariant/1") VUndefined fresh in
  let second := ShopifyIntegration.resume first.2 (Return (answer "cartCreate" created [])) fresh in
  let failed := ShopifyIntegration.resume second.2 (Throw (Error "HTTP error! status: 500")) second.1 in
  ShopifyIntegration.pending second.2
  = [ShopifyIntegration.CartLinesAdd (VStr "gid://shopify/Cart/3")
       (VStr "gid://shopify/ProductVariant/1") (VNum (Num 1))]
  ∧ failed.2 = ShopifyIntegration.Rejected (Error "HTTP error! status: 500")
  ∧ ShopifyIntegration.cart failed.1 = created.
Proof.
  cbv zeta.
  destruct (addToCart_keeps_created_cart (H:=reference_host) fresh fresh
              (VStr "gid://shopify/ProductVariant/1") VUndefined
              (answer "cartCreate"
                 (VObj [("id", VStr "gid://shopify/Cart/3");
                        ("lines", VObj [("edges", VArr [] [])]);
                        ("checkoutUrl", VStr "https://shop.example/cart/c/3")]) [])
              [] (Error "HTTP error! status: 500") eq_refl eq_refl eq_refl eq_refl)
    as (_ & _ & _ & Hpending & Hfailed & Hcart & _).
  split; [exact Hpending|]. split; [exact Hfailed|exact Hcart].
Defined.

End IntegrationExamples.

(** ** A refresh that finds no cart *)

Section StaleCart.
Context `{Host}.

(** X21. When the [getCart] of a checkout attempt is answered without a
    cart (the remote no longer has it), nothing is reconciled and nothing
    is saved: the cart, the storage and the flag stay as they are, no
    warning is logged unless the answer is itself [null], and the
    validator runs on the cached cart. If it returns no message the
    attempt goes on to set the flag and start the delay. *)
Theorem checkout_when_remote_cart_is_gone (st st' : App) (data : value) :
  isCheckingOut st = false →
  ToBoolean (prop (cart st) "checkoutUrl") = true →
  ToBoolean (prop (cart st) "id") = true →
  ToBoolean (prop data "cart") = false →
  let refreshed := (refresh_cart (Return data) st').1 in
  let answered := resume_remote (checkout st).2 (Return data) st' in
  cart refreshed = cart st'
  ∧ localStorage refreshed = localStorage st'
  ∧ isCheckingOut refreshed = isCheckingOut st'
  ∧ (nullish data = false → refreshed = st')
  ∧ validateCart refreshed = validateCart st'
  ∧ answered = validate_then after_validation refreshed
  ∧ (validateCart st' = Return [] →
     answered
     = (with_event (SetCheckoutLoading true) (with_isCheckingOut true refreshed),
        AwaitTimeout 500 (settle (try_catch redirect checkout_failed)))).
Proof.
  intros Hflag Hurl Hid Hgone. cbv zeta.
  assert (Hrefresh : refresh_cart (Return data) st'
                     = (if nullish data
                        then with_event (ConsoleWarn "Failed to refresh cart data:" cannot_read) st'
                        else st',
                        Return tt)).
  { unfold refresh_cart, try_catch, bind, lift, get.
    destruct (nullish data); [done|]. by rewrite Hgone. }
  rewrite Hrefresh. cbn [fst].
  assert (Hsame : cart (if nullish data
                        then with_event (ConsoleWarn "Failed to refresh cart data:" cannot_read) st'
                        else st') = cart st') by by destruct (nullish data).
  split; [exact Hsame|]. split; [by destruct (nullish data)|].
  split; [by destruct (nullish data)|]. split; [by intros ->|].
  split; [by apply validateCart_cart|].
  rewrite (checkout_suspends_at_refresh st Hflag Hurl Hid). cbn [snd resume_remote].
  rewrite Hrefresh. cbn [fst]. split; [done|].
  intros Hvalid. unfold validate_then.
  by rewrite (validateCart_cart _ st' Hsame), Hvalid.
Qed.

End StaleCart.

Section StaleCartExamples.
Import Examples ReferenceHost.

Lemma checkout_when_remote_cart_is_gone_witness :
  let answered := resume_remote (checkout ready).2 (Return (VObj [("cart", VNull)])) ready in
  let done := resume_timeout answered.2 answered.1 in
  cart answered.1 = cart ready
  ∧ localStorage answered.1 = localStorage ready
  ∧ ui done.1
    = [SetCheckoutLoading true;
       ShowSuccess "Redirecting to secure checkout..."; RedirectScheduled 800].
Proof.
  cbv zeta.
  destruct (checkout_when_remote_cart_is_gone (H:=reference_host) ready ready
              (VObj [("cart", VNull)]) eq_refl eq_refl eq_refl eq_refl)
    as (_ & _ & _ & Hsame & _ & _ & Hvalid).
  rewrite (Hvalid eq_refl), (Hsame eq_refl).
  split; [reflexivity|]. split; [reflexivity|]. vm_compute; reflexivity.
Defined.

End StaleCartExamples.
